(** * gwpy.timeseries.io.losc: fetching and decoding LOSC data

    A shallow embedding of [gwpy/timeseries/io/losc.py] and the properties
    of its three layers: the two HDF5 decoders ([read_losc_hdf5],
    [read_losc_hdf5_state]), the single-file fetch ([_fetch_losc_data_file])
    and the assembler ([fetch_losc_data]).

    Python strings are modelled as [string] (ASCII range, with the
    behaviour of Python 3), dictionaries as [gmap string _], exceptions as
    values carrying their class ancestry, times and samples as rationals,
    and the observable effects (text printed, remote files opened and
    released) as a trace of events. *)

From Stdlib Require Import ZArith QArith Qround Ascii String List Lia.
From Stdlib Require DecimalString.
From stdpp Require Import base option list strings gmap.

Local Open Scope Z_scope.

(** ** Python strings *)

Module PyStr.

(** [len(s)] *)
Definition len (s : string) : Z := Z.of_nat (String.length s).

(** [s[:n]] for [0 <= n] *)
Fixpoint take (n : nat) (s : string) : string :=
  match n, s with
  | S n', String a s' => String a (take n' s')
  | _, _ => EmptyString
  end.

(** [s[n:]] for [0 <= n] *)
Fixpoint drop (n : nat) (s : string) : string :=
  match n, s with
  | S n', String _ s' => drop n' s'
  | _, _ => s
  end.

(** [s.startswith(p)] *)
Fixpoint startswith (s p : string) : bool :=
  match p, s with
  | EmptyString, _ => true
  | String b p', String a s' => if Ascii.eqb a b then startswith s' p' else false
  | String _ _, EmptyString => false
  end.

(** [s.endswith(suf)] *)
Definition endswith (s suf : string) : bool :=
  if (String.length s <? String.length suf)%nat then false
  else String.eqb (drop (String.length s - String.length suf) s) suf.

(** [sub in s] *)
Fixpoint contains (sub s : string) : bool :=
  startswith s sub ||
  match s with
  | EmptyString => false
  | String _ s' => contains sub s'
  end.

(** [c in s] for a single character *)
Fixpoint has_char (c : ascii) (s : string) : bool :=
  match s with
  | EmptyString => false
  | String a s' => Ascii.eqb a c || has_char c s'
  end.

(** [s.rfind(c)] for a single character, scanning left to right and
    remembering the last hit; [-1] when [c] does not occur. *)
Fixpoint rfind_from (c : ascii) (s : string) (i last : Z) : Z :=
  match s with
  | EmptyString => last
  | String a s' => rfind_from c s' (i + 1) (if Ascii.eqb a c then i else last)
  end.

Definition rfind (c : ascii) (s : string) : Z := rfind_from c s 0 (-1).

(** [s.find(c)] as an optional offset. *)
Fixpoint find (c : ascii) (s : string) : option nat :=
  match s with
  | EmptyString => None
  | String a s' => if Ascii.eqb a c then Some O else S <$> find c s'
  end.

(** [str.isspace] on the ASCII range (Python 3: TAB, LF, VT, FF, CR,
    FS, GS, RS, US and SPACE). *)
Definition isspace (a : ascii) : bool :=
  let n := nat_of_ascii a in
  ((9 <=? n) && (n <=? 13) || (28 <=? n) && (n <=? 32))%nat.

(** [s.split()]: maximal runs of non-space characters. [cur] holds the
    characters of the word being read, most recent first. *)
Fixpoint split_go (cur : option string) (s : string) : list string :=
  match s with
  | EmptyString => option_list (String.rev <$> cur)
  | String a s' =>
      if isspace a
      then option_list (String.rev <$> cur) ++ split_go None s'
      else split_go (Some (String a (default EmptyString cur))) s'
  end.

Definition split (s : string) : list string := split_go None s.

(** [s.split(c, 1)]: at most one cut, at the first [c]. *)
Definition split1 (c : ascii) (s : string) : list string :=
  match find c s with
  | None => [s]
  | Some i => [take i s; drop (S i) s]
  end.

(** [s.rsplit(c, 1)]: at most one cut, at the last [c]. *)
Definition rsplit1 (c : ascii) (s : string) : list string :=
  let i := rfind c s in
  if i <? 0 then [s]
  else [take (Z.to_nat i) s; drop (S (Z.to_nat i)) s].

Definition is_digit (a : ascii) : bool :=
  let n := nat_of_ascii a in ((48 <=? n) && (n <=? 57))%nat.

(** Value of a run of ASCII digits, [None] if empty or not all digits. *)
Fixpoint digits_go (acc : Z) (s : string) : option Z :=
  match s with
  | EmptyString => Some acc
  | String a s' =>
      if is_digit a
      then digits_go (10 * acc + Z.of_nat (nat_of_ascii a - 48)) s'
      else None
  end.

Definition digits (s : string) : option Z :=
  match s with
  | EmptyString => None
  | _ => digits_go 0 s
  end.

(** The digits of an integer literal as [int] reads them (Python 3.6 and
    later): a run of ASCII digits in which two digits may be separated by
    one underscore.  [after_digit] tells whether the character before was
    a digit. *)
Fixpoint int_digits_go (acc : Z) (after_digit : bool) (s : string) : option Z :=
  match s with
  | EmptyString => if after_digit then Some acc else None
  | String a s' =>
      if is_digit a
      then int_digits_go (10 * acc + Z.of_nat (nat_of_ascii a - 48)) true s'
      else if Ascii.eqb a "_" && after_digit then int_digits_go acc false s'
      else None
  end.

(** [int(s)] for a string without blanks: an optional sign and the digits;
    [None] stands for the [ValueError] Python raises.  (Digits outside
    ASCII are not modelled.) *)
Definition int (s : string) : option Z :=
  match s with
  | String "+" s' => int_digits_go 0 false s'
  | String "-" s' => Z.opp <$> int_digits_go 0 false s'
  | _ => int_digits_go 0 false s
  end.

(** [str(n)] for an integer *)
Definition of_Z (z : Z) : string :=
  DecimalString.NilZero.string_of_int (Z.to_int z).

Definition nl : string := String (ascii_of_nat 10) EmptyString.

(** [sep.join(l)] *)
Fixpoint join (sep : string) (l : list string) : string :=
  match l with
  | [] => EmptyString
  | [x] => x
  | x :: l' => x +:+ sep +:+ join sep l'
  end.

End PyStr.

(** ** Python values, exceptions and effects *)

(** The two target classes of the readers. *)
Inductive Cls := TimeSeries | StateVector.

Global Instance Cls_eq_dec : EqDecision Cls.
Proof. solve_decision. Defined.

(** The values that travel through keyword arguments and HDF5 attributes. *)
Inductive PyVal :=
| VNone
| VBool (b : bool)
| VInt (z : Z)
| VNum (q : Q)
| VStr (s : string)
| VCls (c : Cls).

(** Truth value of an object, as tested by [if x:]. *)
Definition truthy (v : PyVal) : bool :=
  match v with
  | VNone => false
  | VBool b => b
  | VInt z => negb (z =? 0)
  | VNum q => negb (Qeq_bool q 0)
  | VStr s => negb (String.eqb s "")
  | VCls _ => true
  end.

(** An exception: the names of its class and of all its base classes, and
    its [args] (strings only). *)
Record Exc := mkExc { exc_mro : list string; exc_args : list string }.

Definition KeyError (msg : string) : Exc :=
  mkExc ["KeyError"; "LookupError"; "Exception"; "BaseException"] [msg].
Definition IndexError (msg : string) : Exc :=
  mkExc ["IndexError"; "LookupError"; "Exception"; "BaseException"] [msg].
Definition ValueError (msg : string) : Exc :=
  mkExc ["ValueError"; "Exception"; "BaseException"] [msg].
Definition TypeError (msg : string) : Exc :=
  mkExc ["TypeError"; "Exception"; "BaseException"] [msg].
Definition UnicodeDecodeError (msg : string) : Exc :=
  mkExc ["UnicodeDecodeError"; "UnicodeError"; "ValueError"; "Exception";
         "BaseException"] [msg].
Definition UnitConversionError (msg : string) : Exc :=
  mkExc ["UnitConversionError"; "UnitsError"; "ValueError"; "Exception";
         "BaseException"] [msg].

(** [isinstance(e, cls)] *)
Definition exc_isinstance (e : Exc) (cls : string) : bool :=
  bool_decide (cls ∈ exc_mro e).

(** The class of the exception itself. *)
Definition exc_class (e : Exc) : string := default "BaseException" (head (exc_mro e)).

Inductive result (A : Type) :=
| Ok (a : A)
| Raise (e : Exc).
Arguments Ok {A} a.
Arguments Raise {A} e.

(** What a call does that can be seen from outside. *)
Inductive Event :=
| EvPrint (text : string)
| EvOpen (url : string) (cache : bool) (show_progress : bool)
| EvClose (url : string).

(** A computation: the events in the order they happen, and how it ends. *)
Definition M (A : Type) : Type := list Event * result A.

Definition ret {A} (a : A) : M A := ([], Ok a).
Definition raise {A} (e : Exc) : M A := ([], Raise e).
Definition emit (ev : Event) : M unit := ([ev], Ok tt).
Definition lift {A} (r : result A) : M A := ([], r).

Definition bind {A B} (m : M A) (f : A -> M B) : M B :=
  match m with
  | (t, Ok a) => let '(t', r) := f a in (t ++ t', r)
  | (t, Raise e) => (t, Raise e)
  end.

(** [try: m  except <classes>: handler] *)
Definition try_except {A} (m : M A) (classes : list string) (h : Exc -> M A) : M A :=
  match m with
  | (t, Raise e) =>
      if existsb (exc_isinstance e) classes
      then let '(t', r) := h e in (t ++ t', r)
      else (t, Raise e)
  | _ => m
  end.

Declare Scope py_scope.
Delimit Scope py_scope with py.
Notation "x <- m ;; k" := (bind m (fun x => k))
  (at level 100, m at level 99, k at level 200, right associativity) : py_scope.
Notation "m ;;; k" := (bind m (fun _ => k))
  (at level 100, k at level 200, right associativity) : py_scope.

(** The bind of pure, possibly failing steps. *)
Definition rbind {A B} (r : result A) (f : A -> result B) : result B :=
  match r with
  | Ok a => f a
  | Raise e => Raise e
  end.
Notation "x <~ r ;; k" := (rbind r (fun x => k))
  (at level 100, r at level 99, k at level 200, right associativity) : py_scope.

(** [try: r  except <classes>: handler  else: k], for pure steps. *)
Definition try_else {A B} (r : result A) (classes : list string)
    (h : Exc -> result B) (k : A -> result B) : result B :=
  match r with
  | Ok a => k a
  | Raise e => if existsb (exc_isinstance e) classes then h e else Raise e
  end.

Definition trace {A} (m : M A) : list Event := fst m.
Definition outcome {A} (m : M A) : result A := snd m.

(** The URLs a computation opened, in order. *)
Definition opened (t : list Event) : list string :=
  omap (fun ev => match ev with EvOpen u _ _ => Some u | _ => None end) t.

(** [print(text)] and [print(text, end=' ')] *)
Definition print (text : string) : M unit := emit (EvPrint (text +:+ PyStr.nl)).
Definition print_end (text e : string) : M unit := emit (EvPrint (text +:+ e)).

(** ** [repr], [str] and [str.format] *)

Module PyFmt.

Definition quote1 : ascii := ascii_of_nat 39.
Definition quote2 : ascii := ascii_of_nat 34.
Definition backslash : ascii := ascii_of_nat 92.

Definition hex_digit (n : nat) : ascii :=
  if (n <? 10)%nat then ascii_of_nat (48 + n) else ascii_of_nat (87 + n).

Definition str1 (a : ascii) : string := String a EmptyString.

(** One character of [repr(s)], [q] being the quote in use. *)
Definition repr_char (q a : ascii) : string :=
  let n := nat_of_ascii a in
  if Ascii.eqb a backslash then String backslash (str1 backslash)
  else if Ascii.eqb a q then String backslash (str1 q)
  else if (n =? 9)%nat then String backslash "t"
  else if (n =? 10)%nat then String backslash "n"
  else if (n =? 13)%nat then String backslash "r"
  else if ((n <? 32) || (n =? 127))%nat
       then String backslash (String "x" (String (hex_digit (n / 16)) (str1 (hex_digit (n mod 16)))))
  else str1 a.

Fixpoint repr_body (q : ascii) (s : string) : string :=
  match s with
  | EmptyString => EmptyString
  | String a s' => repr_char q a +:+ repr_body q s'
  end.

(** [repr(s)] of a string: single quotes, unless the string has a single
    quote and no double quote. *)
Definition repr (s : string) : string :=
  let q := if PyStr.has_char quote1 s && negb (PyStr.has_char quote2 s)
           then quote2 else quote1 in
  String q (repr_body q s +:+ str1 q).

(** [repr] of a tuple of strings, the form [str(exc)] takes when the
    exception has several arguments. *)
Definition repr_tuple (l : list string) : string :=
  "(" +:+ PyStr.join ", " (map repr l) +:+ ")".

(** [str(exc)]: [BaseException.__str__], and [KeyError.__str__], which
    shows the [repr] of a single argument. *)
Definition str_exc (e : Exc) : string :=
  match exc_args e with
  | [] => EmptyString
  | [a] => if exc_isinstance e "KeyError" then repr a else a
  | l => repr_tuple l
  end.

(** Arguments of [str.format]. *)
Inductive Arg := FStr (s : string) | FInt (z : Z).

Definition str_arg (a : Arg) : string :=
  match a with FStr s => s | FInt z => PyStr.of_Z z end.
Definition repr_arg (a : Arg) : string :=
  match a with FStr s => repr s | FInt z => PyStr.of_Z z end.

(** Replacement fields with a format spec, an attribute or an index
    lookup, and nested fields, are outside the fragment modelled here;
    the model answers them with this marker. *)
Definition NotModelled (what : string) : Exc := mkExc ["NotModelled"] [what].

(** Field numbering: not yet decided, automatic (next index), manual. *)
Inductive Numbering := Undecided | Automatic (next : nat) | Manual.

(** Cut a field at the first ['!'] or [':']. *)
Fixpoint cut_name (f : string) : string * string :=
  match f with
  | EmptyString => (EmptyString, EmptyString)
  | String a f' =>
      if Ascii.eqb a "!" || Ascii.eqb a ":" then (EmptyString, f)
      else let '(n, r) := cut_name f' in (String a n, r)
  end.

(** The conversion character and the format spec of a field. *)
Definition parse_field (rest : string) : result (option ascii * string) :=
  match rest with
  | EmptyString => Ok (None, EmptyString)
  | String "!" EmptyString =>
      Raise (ValueError "end of string while looking for conversion specifier")
  | String "!" (String c EmptyString) => Ok (Some c, EmptyString)
  | String "!" (String c (String ":" spec)) => Ok (Some c, spec)
  | String "!" (String c _) =>
      Raise (ValueError "expected ':' after conversion specifier")
  | String _ spec => Ok (None, spec)
  end.

(** The object a field names. *)
Definition field_object (name : string) (num : Numbering) (args : list Arg)
  : result (Arg * Numbering) :=
  let get (i : nat) (num' : Numbering) :=
    match args !! i with
    | Some a => Ok (a, num')
    | None => Raise (IndexError "Replacement index out of range for positional args tuple")
    end in
  match name with
  | EmptyString =>
      match num with
      | Manual => Raise (ValueError
          "cannot switch from manual field specification to automatic field numbering")
      | Undecided => get O (Automatic 1)
      | Automatic i => get i (Automatic (S i))
      end
  | _ =>
      match PyStr.digits name with
      | Some i =>
          match num with
          | Automatic _ => Raise (ValueError
              "cannot switch from automatic field numbering to manual field specification")
          | _ => get (Z.to_nat i) Manual
          end
      | None =>
          if PyStr.has_char "." name || PyStr.has_char "[" name
          then Raise (NotModelled "attribute or index lookup in a field name")
          else Raise (KeyError name)
      end
  end.

(** [!s], [!r] and [!a] are the only conversions. *)
Definition do_conversion (c : option ascii) (a : Arg) : result string :=
  match c with
  | None => Ok (str_arg a)
  | Some "s"%char => Ok (str_arg a)
  | Some "r"%char => Ok (repr_arg a)
  | Some "a"%char => Ok (repr_arg a)
  | Some c => Raise (ValueError ("Unknown conversion specifier " +:+ str1 c))
  end.

(** One replacement field: look the object up, convert it, render it. *)
Definition render_field (f : string) (num : Numbering) (args : list Arg)
  : result (string * Numbering) :=
  let '(name, rest) := cut_name f in
  (cs <~ parse_field rest ;;
   on <~ field_object name num args ;;
   s <~ do_conversion (fst cs) (fst on) ;;
   match snd cs with
   | EmptyString => Ok (s, snd on)
   | _ => Raise (NotModelled "format spec")
   end)%py.

(** The scan of the template: [field] is [None] in literal text and holds
    the characters read so far (latest first) inside a field. *)
Fixpoint format_go (tpl : string) (field : option string) (num : Numbering)
    (args : list Arg) : result (list string) :=
  match field, tpl with
  | None, EmptyString => Ok []
  | None, String "{" (String "{" tpl') =>
      (l <~ format_go tpl' None num args ;; Ok ("{" :: l))%py
  | None, String "{" tpl' => format_go tpl' (Some EmptyString) num args
  | None, String "}" (String "}" tpl') =>
      (l <~ format_go tpl' None num args ;; Ok ("}" :: l))%py
  | None, String "}" _ =>
      Raise (ValueError "Single '}' encountered in format string")
  | None, String a tpl' =>
      (l <~ format_go tpl' None num args ;; Ok (str1 a :: l))%py
  | Some buf, EmptyString =>
      match buf with
      | EmptyString => Raise (ValueError "Single '{' encountered in format string")
      | _ => Raise (ValueError "expected '}' before end of string")
      end
  | Some buf, String "}" tpl' =>
      (sn <~ render_field (String.rev buf) num args ;;
       l <~ format_go tpl' None (snd sn) args ;;
       Ok (fst sn :: l))%py
  | Some buf, String "{" _ => Raise (NotModelled "nested replacement field")
  | Some buf, String a tpl' => format_go tpl' (Some (String a buf)) num args
  end.

(** [tpl.format(a0, a1, ...)] *)
Definition format (tpl : string) (args : list Arg) : result string :=
  (l <~ format_go tpl None Undecided args ;; Ok (fold_right String.append EmptyString l))%py.

End PyFmt.

(** ** [os.path.splitext] *)

Module OsPath.

(** The loop of [genericpath._splitext] that skips the leading dots of
    the file name: [true] as soon as one of the [n] characters from
    offset [i] on is not a dot. *)
Fixpoint has_nondot (p : string) (i n : nat) : bool :=
  match n with
  | O => false
  | S n' =>
      match String.get i p with
      | Some a => if Ascii.eqb a "." then has_nondot p (S i) n' else true
      | None => true
      end
  end.

Definition splitext (p : string) : string * string :=
  let sepIndex := PyStr.rfind "/" p in
  let dotIndex := PyStr.rfind "." p in
  if (dotIndex >? sepIndex)
     && has_nondot p (Z.to_nat (sepIndex + 1)) (Z.to_nat (dotIndex - (sepIndex + 1)))
  then (PyStr.take (Z.to_nat dotIndex) p, PyStr.drop (Z.to_nat dotIndex) p)
  else (p, EmptyString).

End OsPath.

(** ** Segments, series and containers *)

(** A [Segment(a, b)] of GPS times. *)
Record Segment := mkSegment { seg_start : Q; seg_end : Q }.

(** [a <= start and b >= end] for [a, b = seg] *)
Definition covers (seg : Segment) (start end_ : Q) : bool :=
  Qle_bool (seg_start seg) start && Qle_bool end_ (seg_end seg).

(** A [Quantity]: a number and the name of its unit. *)
Record Quantity := mkQuantity { q_value : Q; q_unit : string }.

(** Modelled from the spec: the [TimeSeries] and [StateVector] classes of
    [gwpy.timeseries], which are not among the sources.  A series has its
    samples, the time of the first one, the spacing between them, a unit
    (its string form; the empty string is the dimensionless unit), a name,
    and for a state vector the names of its bits. *)
Record Series := mkSeries {
  series_cls : Cls;
  series_value : list Q;
  series_x0 : Q;
  series_dx : Quantity;
  series_unit : string;
  series_name : string;
  series_bits : gmap Z string
}.

Definition sample_rate (s : Series) : Q := / q_value (series_dx s).

(** [series.span] *)
Definition series_span (s : Series) : Segment :=
  mkSegment (series_x0 s)
            (series_x0 s + inject_Z (Z.of_nat (length (series_value s))) * q_value (series_dx s)).

(** [isinstance(series, StateVector)] *)
Definition is_StateVector (s : Series) : bool :=
  bool_decide (series_cls s = StateVector).

(** [series.bits = bits] *)
Definition set_bits (s : Series) (bits : gmap Z string) : Series :=
  mkSeries (series_cls s) (series_value s) (series_x0 s) (series_dx s)
           (series_unit s) (series_name s) bits.

(** [series.override_unit(unit)] *)
Definition override_unit (s : Series) (u : string) : Series :=
  mkSeries (series_cls s) (series_value s) (series_x0 s) (series_dx s)
           u (series_name s) (series_bits s).

(** Index of the sample at time [t]: [int((t - x0) // dx)], kept within
    the series (a spacing of zero, which has no floor division, is not
    modelled). *)
Definition sample_index (s : Series) (t : Q) : nat :=
  let i := Qfloor ((t - series_x0 s) / q_value (series_dx s)) in
  Z.to_nat (Z.min (Z.max 0 i) (Z.of_nat (length (series_value s)))).

(** Modelled from the spec: [Series.crop], which is not among the sources.
    The series is restricted to the intersection of [[start, end)] with
    its own span; a bound that is absent, or at or beyond the matching end
    of the series, leaves that end alone. *)
Definition crop (s : Series) (start end_ : option Q) : Series :=
  let n := length (series_value s) in
  let idx0 := match start with
              | Some a => if Qle_bool a (series_x0 s) then O else sample_index s a
              | None => O
              end in
  let idx1 := match end_ with
              | Some b => if Qle_bool (seg_end (series_span s)) b then n else sample_index s b
              | None => n
              end in
  mkSeries (series_cls s)
           (take (idx1 - idx0) (drop idx0 (series_value s)))
           (Qred (series_x0 s + inject_Z (Z.of_nat idx0) * q_value (series_dx s)))
           (series_dx s) (series_unit s) (series_name s) (series_bits s).

(** Modelled from the spec: [Series.copy], a series with the same content
    in storage of its own. *)
Definition copy (s : Series) : Series := s.

(** Modelled from the spec: [Series.append(other, resize=True)], which is
    not among the sources.  The samples of [other] are put after those of
    the series, whose storage grows; contiguity is not verified. *)
Definition append (s other : Series) : Series :=
  mkSeries (series_cls s) (series_value s ++ series_value other) (series_x0 s)
           (series_dx s) (series_unit s) (series_name s) (series_bits s).

(** The payload of a dataset: numbers, or byte strings. *)
Inductive Payload :=
| NumArray (l : list Q)
| BytesArray (l : list string).

Record Dataset := mkDataset { ds_value : Payload; ds_attrs : gmap string PyVal }.

(** An open HDF5 file: its datasets by path. *)
Abbreviation Container := (gmap string Dataset).

(** Modelled from the spec: [gwpy.io.hdf5.find_dataset], which is not among
    the sources: the dataset at [path], an error if there is none. *)
Definition find_dataset (h5f : Container) (path : string) : result Dataset :=
  match h5f !! path with
  | Some d => Ok d
  | None => Raise (KeyError ("Unable to open object (object '" +:+ path +:+ "' doesn't exist)"))
  end.

(** [dataset.attrs[key]] *)
Definition attr (d : Dataset) (key : string) : result PyVal :=
  match ds_attrs d !! key with
  | Some v => Ok v
  | None => Raise (KeyError ("Can't open attribute (can't locate attribute: '" +:+ key +:+ "')"))
  end.

(** The samples of a numeric payload; a series cannot be built from byte
    strings. *)
Definition samples (p : Payload) : result (list Q) :=
  match p with
  | NumArray l => Ok l
  | BytesArray _ => Raise (TypeError "data type not understood")
  end.

Module Utf8.

Definition between (lo hi n : nat) : bool := ((lo <=? n) && (n <=? hi))%nat.
Definition cont (n : nat) : bool := between 128 191 n.

(** Well-formed UTF-8 byte sequences. *)
Fixpoint valid (l : list nat) : bool :=
  match l with
  | [] => true
  | a :: l1 =>
      if (a <? 128)%nat then valid l1
      else match l1 with
      | [] => false
      | b :: l2 =>
          if between 194 223 a then cont b && valid l2
          else match l2 with
          | [] => false
          | c :: l3 =>
              if between 224 239 a then
                (if (a =? 224)%nat then between 160 191 b
                 else if (a =? 237)%nat then between 128 159 b
                 else cont b) && cont c && valid l3
              else match l3 with
              | [] => false
              | d :: l4 =>
                  if between 240 244 a then
                    (if (a =? 240)%nat then between 144 191 b
                     else if (a =? 244)%nat then between 128 143 b
                     else cont b) && cont c && cont d && valid l4
                  else false
              end
          end
      end
  end.

(** [bytes.decode(b, 'utf-8')] *)
Definition decode (b : string) : result string :=
  if valid (map nat_of_ascii (list_ascii_of_string b)) then Ok b
  else Raise (UnicodeDecodeError "'utf-8' codec can't decode bytes")
.

End Utf8.

(** ** The collaborators of the module

    What [losc.py] imports from other packages, or calls on objects that
    other packages define, is not fixed here: every result below holds
    whatever these do. *)

Class Externals := {
  (** the readable object [get_readable_fileobj] yields *)
  FileObj : Type;
  (** [gwpy.time.to_gps] *)
  to_gps : PyVal -> result Q;
  (** [gwosc.locate.get_urls(detector, start, end, **url_kw)] *)
  get_urls : string -> Z -> Z -> gmap string PyVal -> result (list string);
  (** [urlparse(url).netloc] *)
  urlparse_netloc : string -> result string;
  (** [gwpy.io.cache.file_segment] *)
  file_segment : string -> result Segment;
  (** [Segment.__and__] *)
  segment_and : Segment -> Segment -> result Segment;
  (** [bool_env('GWPY_CACHE', False)] *)
  bool_env_GWPY_CACHE : bool;
  (** entering [get_readable_fileobj(url, cache=, show_progress=)] *)
  get_readable_fileobj : string -> bool -> bool -> result FileObj;
  (** [h5py.File(fobj, 'r')], as [with_read_hdf5] opens its argument *)
  open_hdf5 : FileObj -> result Container;
  (** [cls.read] for every format other than ['hdf5.losc'] (whose readers
      this module registers), and when no format is named *)
  registry_read : Cls -> FileObj -> list PyVal -> gmap string PyVal -> result Series;
  (** [gwpy.detector.units.parse_unit], giving the name of the unit *)
  parse_unit : PyVal -> result string;
  (** the number in [Quantity(value, unit)] *)
  quantity_value : PyVal -> result Q;
  (** how many seconds one of a unit is, when it is a unit of time *)
  seconds_per : string -> option Q
}.

Section Losc.

Context `{Ext : Externals}.
Local Open Scope py_scope.

(** *** Constructors of the series classes *)

(** [Quantity(value, unit)] *)
Definition mk_quantity (value : PyVal) (unit : string) : result Quantity :=
  v <~ quantity_value value ;; Ok (mkQuantity v unit).

(** [(1 / dt).to('Hertz')] *)
Definition to_Hertz_inv (dt : Quantity) : result Q :=
  match seconds_per (q_unit dt) with
  | Some k => Ok (/ (q_value dt * k))
  | None => Raise (UnitConversionError
                     ("'1 / " +:+ q_unit dt +:+ "' and 'Hz' are not convertible"))
  end.

(** Modelled from the spec: [TimeSeries(data, epoch=, sample_rate=, unit=,
    name=, copy=)], which is not among the sources.  The sample interval
    is the reciprocal of the rate, in seconds. *)
Definition new_TimeSeries (nddata : Payload) (epoch : PyVal) (rate : Q)
    (unit : PyVal) (name : string) (copy_ : bool) : result Series :=
  data <~ samples nddata ;;
  u <~ parse_unit unit ;;
  x0 <~ to_gps epoch ;;
  Ok (mkSeries TimeSeries data x0 (mkQuantity (/ rate) "s") u name ∅).

(** The names of the bits by position. *)
Definition bits_of_list (names : list string) : gmap Z string :=
  list_to_map (zip (Z.of_nat <$> seq 0 (length names)) names).

(** Modelled from the spec: [StateVector(data, bits=, epoch=, name=, dx=,
    copy=)], which is not among the sources; a state vector is
    dimensionless. *)
Definition new_StateVector (nddata : Payload) (bits : list string) (epoch : PyVal)
    (name : string) (dx : Quantity) (copy_ : bool) : result Series :=
  data <~ samples nddata ;;
  x0 <~ to_gps epoch ;;
  Ok (mkSeries StateVector data x0 dx "" name (bits_of_list bits)).

(** [l[i]] *)
Definition index {A} (l : list A) (i : nat) : result A :=
  match l !! i with
  | Some a => Ok a
  | None => Raise (IndexError "list index out of range")
  end.

(** [[f(x) for x in l]], stopping at the first failure. *)
Fixpoint map_result {A B} (f : A -> result B) (l : list A) : result (list B) :=
  match l with
  | [] => Ok []
  | x :: l' => y <~ f x ;; ys <~ map_result f l' ;; Ok (y :: ys)
  end.

(** *** I/O: the two readers *)

Definition read_losc_hdf5 (h5f : Container) (path : string)
    (start end_ : option Q) (copy_ : bool) : result Series :=
  dataset <~ find_dataset h5f path ;;
  (* read data *)
  let nddata := ds_value dataset in
  (* read metadata *)
  xu <~ attr dataset "Xunits" ;;
  xunit <~ parse_unit xu ;;
  epoch <~ attr dataset "Xstart" ;;
  xs <~ attr dataset "Xspacing" ;;
  dt <~ mk_quantity xs xunit ;;
  unit <~ attr dataset "Yunits" ;;
  (* build and return *)
  rate <~ to_Hertz_inv dt ;;
  name <~ index (PyStr.rsplit1 "/" path) 1 ;;
  ts <~ new_TimeSeries nddata epoch rate unit name copy_ ;;
  Ok (crop ts start end_).

(** The byte strings of a payload. *)
Definition byte_strings (p : Payload) : result (list string) :=
  match p with
  | BytesArray l => Ok l
  | NumArray _ => Raise (TypeError "cannot convert to bytes")
  end.

Definition read_losc_hdf5_state (f : Container) (path : string)
    (start end_ : option Q) (copy_ : bool) : result Series :=
  (* find data *)
  dataset <~ find_dataset f (path +:+ "/DQmask") ;;
  maskset <~ find_dataset f (path +:+ "/DQDescriptions") ;;
  (* read data *)
  let nddata := ds_value dataset in
  raw <~ byte_strings (ds_value maskset) ;;
  bits <~ map_result Utf8.decode raw ;;
  (* read metadata *)
  epoch <~ attr dataset "Xstart" ;;
  dt <~ try_else (attr dataset "Xspacing") ["KeyError"]
          (fun _ => Ok (mkQuantity 1 "s"))
          (fun dt =>
             xu <~ attr dataset "Xunits" ;;
             xunit <~ parse_unit xu ;;
             mk_quantity dt xunit) ;;
  sv <~ new_StateVector nddata bits epoch "Data quality" dt copy_ ;;
  Ok (crop sv start end_).

(** *** Dispatch to the readers *)

(** How Python binds the arguments of a call to the parameters that
    follow the first one: positional arguments in order, then keywords. *)
Definition bind_args (params : list string) (args : list PyVal)
    (kwargs : gmap string PyVal) : result (gmap string PyVal) :=
  if (length params <? length args)%nat
  then Raise (TypeError "too many positional arguments")
  else
    let positional : gmap string PyVal := list_to_map (zip params args) in
    if negb (bool_decide (dom kwargs ⊆ list_to_set (C := gset string) params))
    then Raise (TypeError "got an unexpected keyword argument")
    else if negb (bool_decide (dom positional ∩ dom kwargs = (∅ : gset string)))
    then Raise (TypeError "got multiple values for argument")
    else Ok (positional ∪ kwargs).

(** The readers are given a path that is a string, bounds that are
    numbers or [None], and a flag. *)
Definition as_path (v : option PyVal) (dflt : string) : result string :=
  match v with
  | None => Ok dflt
  | Some (VStr s) => Ok s
  | Some _ => Raise (TypeError "path is not a string")
  end.

Definition as_bound (v : option PyVal) : result (option Q) :=
  match v with
  | None | Some VNone => Ok None
  | Some (VNum q) => Ok (Some q)
  | Some (VInt z) => Ok (Some (inject_Z z))
  | Some _ => Raise (TypeError "bound is not a number")
  end.

Definition as_flag (v : option PyVal) : bool :=
  match v with
  | None => false
  | Some v => truthy v
  end.

(** [reader(fobj, *args, **kwargs)] for the readers registered at the end
    of the module, each wrapped in [with_read_hdf5]. *)
Definition call_reader (cls : Cls) (fobj : FileObj) (args : list PyVal)
    (kwargs : gmap string PyVal) : result Series :=
  h5f <~ open_hdf5 fobj ;;
  b <~ bind_args ["path"; "start"; "end"; "copy"] args kwargs ;;
  path <~ as_path (b !! "path")
            (match cls with TimeSeries => "strain/Strain" | StateVector => "quality/simple" end) ;;
  start <~ as_bound (b !! "start") ;;
  end_ <~ as_bound (b !! "end") ;;
  match cls with
  | TimeSeries => read_losc_hdf5 h5f path start end_ (as_flag (b !! "copy"))
  | StateVector => read_losc_hdf5_state h5f path start end_ (as_flag (b !! "copy"))
  end.

(** [cls.read(fobj, *args, **kwargs)]: the registry takes the [format]
    keyword and calls the reader registered under it. *)
Definition cls_read (cls : Cls) (fobj : FileObj) (args : list PyVal)
    (kwargs : gmap string PyVal) : result Series :=
  match kwargs !! "format" with
  | Some (VStr "hdf5.losc") => call_reader cls fobj args (delete "format" kwargs)
  | _ => registry_read cls fobj args kwargs
  end.

(** *** Utilities *)

Definition _download_file (url : string) (cache verbose : PyVal) : M FileObj :=
  let cache := match cache with
               | VNone => bool_env_GWPY_CACHE
               | v => truthy v
               end in
  emit (EvOpen url cache (truthy verbose)) ;;;
  lift (get_readable_fileobj url cache (truthy verbose)).

(** [with _download_file(...) as rem: body]: the file is released when
    the body is left, whichever way. *)
Definition with_download (url : string) (cache verbose : PyVal)
    {A} (body : FileObj -> M A) : M A :=
  rem <- _download_file url cache verbose ;;
  let '(t, r) := body rem in
  (t ++ [EvClose url], r).

(** [kwargs.pop(key, default)] *)
Definition pop (key : string) (dflt : PyVal) (kwargs : gmap string PyVal)
  : PyVal * gmap string PyVal :=
  (default dflt (kwargs !! key), delete key kwargs).

(** [kwargs.setdefault(key, value)] *)
Definition setdefault (key : string) (v : PyVal) (kwargs : gmap string PyVal)
  : gmap string PyVal :=
  match kwargs !! key with
  | Some _ => kwargs
  | None => <[key := v]> kwargs
  end.

(** The extension the format is matched on. *)
Definition url_ext (url : string) : string :=
  if PyStr.endswith url ".gz"
  then snd (OsPath.splitext (PyStr.take (String.length url - 3) url))
  else snd (OsPath.splitext url).

(** The [if ext == ...: kwargs.setdefault('format', ...)] chain. *)
Definition match_format (ext : string) (kwargs : gmap string PyVal)
  : gmap string PyVal :=
  if String.eqb ext ".hdf5" then setdefault "format" (VStr "hdf5.losc") kwargs
  else if String.eqb ext ".txt" then setdefault "format" (VStr "ascii.losc") kwargs
  else if String.eqb ext ".gwf" then setdefault "format" (VStr "gwf") kwargs
  else kwargs.

(** [a, b = bit.split(':', 1)] *)
Definition unpack2 (l : list string) : result (string * string) :=
  match l with
  | [a; b] => Ok (a, b)
  | _ => Raise (ValueError "not enough values to unpack (expected 2, got 1)")
  end.

(** [int(a)] *)
Definition int_of_str (a : string) : result Z :=
  match PyStr.int a with
  | Some z => Ok z
  | None => Raise (ValueError ("invalid literal for int() with base 10: " +:+ PyFmt.repr a))
  end.

(** The loop over the tokens of the unit string, filling [bits]. *)
Fixpoint parse_bits (tokens : list string) (bits : gmap Z string)
  : result (gmap Z string) :=
  match tokens with
  | [] => Ok bits
  | bit :: rest =>
      ab <~ unpack2 (PyStr.split1 ":" bit) ;;
      i <~ int_of_str (fst ab) ;;
      parse_bits rest (<[i := snd ab]> bits)
  end.

(** [cls.read], for the class held in [kwargs]. *)
Definition read_as (cls : PyVal) (rem : FileObj) (args : list PyVal)
    (kwargs : gmap string PyVal) : result Series :=
  match cls with
  | VCls c => cls_read c rem args kwargs
  | _ => Raise (mkExc ["AttributeError"; "Exception"; "BaseException"]
                      ["object has no attribute 'read'"])
  end.

(** Internal function for fetching a single LOSC file and returning a
    Series *)
Definition _fetch_losc_data_file (url : string) (args : list PyVal)
    (kwargs : gmap string PyVal) : M Series :=
  let '(cls, kwargs) := pop "cls" (VCls TimeSeries) kwargs in
  let '(cache, kwargs) := pop "cache" VNone kwargs in
  let '(verbose, kwargs) := pop "verbose" (VBool false) kwargs in
  (* match file format *)
  let ext := url_ext url in
  let kwargs := match_format ext kwargs in
  with_download url cache verbose (fun rem =>
    (if truthy verbose then print_end "Reading data..." " " else ret tt) ;;;
    match read_as cls rem args kwargs with
    | Raise exc =>
        if exc_isinstance exc "Exception" then
          (if truthy verbose then print "" else ret tt) ;;;
          raise (mkExc (exc_mro exc)
                       ["Failed to read LOSC data from " +:+ PyFmt.repr url
                        +:+ ": " +:+ PyFmt.str_exc exc])
        else raise exc
    | Ok series =>
        (* parse bits from unit in GWF *)
        series <-
          (if String.eqb ext ".gwf" && is_StateVector series then
             try_except
               (bits <- lift (parse_bits (PyStr.split (series_unit series)) ∅) ;;
                ret (override_unit (set_bits series bits) ""))
               ["TypeError"; "ValueError"]
               (fun _ => ret series)
           else ret series) ;;
        (if truthy verbose then print "[Done]" else ret tt) ;;;
        ret series
    end).

(** *** Remote data access *)

(** [{key: kwargs.pop(key) for key in keys if key in kwargs}], giving the
    new dictionary and what is left of [kwargs]. *)
Fixpoint pop_keys (keys : list string) (kwargs : gmap string PyVal)
  : gmap string PyVal * gmap string PyVal :=
  match keys with
  | [] => (∅, kwargs)
  | key :: keys' =>
      match kwargs !! key with
      | Some v => let '(out, kw) := pop_keys keys' (delete key kwargs) in (<[key := v]> out, kw)
      | None => pop_keys keys' kwargs
      end
  end.

(** [if 'sample_rate' in url_kw: ...], format as Hertz *)
Definition format_sample_rate (url_kw : gmap string PyVal)
  : result (gmap string PyVal) :=
  match url_kw !! "sample_rate" with
  | Some v => hz <~ quantity_value v ;; Ok (<["sample_rate" := VNum hz]> url_kw)
  | None => Ok url_kw
  end.

(** The scan for a file that covers the request. *)
Fixpoint pick_covering (cache : list string) (start end_ : Q) : result (option string) :=
  match cache with
  | [] => Ok None
  | url :: rest =>
      seg <~ file_segment url ;;
      if covers seg start end_
      then Ok (Some url)
      else pick_covering rest start end_
  end.

(** [if len(cache) and 'events' in cache[0]: ...] *)
Definition event_dataset (cache : list string) (start end_ : Q) : result (list string) :=
  match cache with
  | url0 :: _ =>
      if PyStr.contains "events" url0 then
        found <~ pick_covering cache start end_ ;;
        Ok (match found with Some url => [url] | None => cache end)
      else Ok cache
  | [] => Ok cache
  end.

(** [if len(cache) and cache[0].endswith('.gwf'): ...]: the positional
    arguments of the reader, and what is left of [kwargs]. *)
Definition channel_args (cache : list string) (detector : string) (cls : Cls)
    (kwargs : gmap string PyVal) : result (list PyVal * gmap string PyVal) :=
  match cache with
  | url0 :: _ =>
      if PyStr.endswith url0 ".gwf" then
        match kwargs !! "channel" with
        | Some c => Ok ([c], delete "channel" kwargs)
        | None => (* no specified channel *)
            name <~ (if bool_decide (cls = StateVector)
                     then PyFmt.format "{}:LOSC-DQMASK" [PyFmt.FStr detector]
                     else PyFmt.format "{}:LOSC-STRAIN" [PyFmt.FStr detector]) ;;
            Ok ([VStr name], kwargs)
        end
      else Ok ([], kwargs)
  | [] => Ok ([], kwargs)
  end.

(** The [for url in cache] loop that reads the data; [out] is [None]
    until the first file has been read.  The keywords are those of a
    request that has none named [url]: Python refuses such a keyword at
    the call of [_fetch_losc_data_file], whose first parameter has this
    name, and the loop below does not. *)
Fixpoint read_data (cache : list string) (span : Segment) (args : list PyVal)
    (kwargs : gmap string PyVal) (out : option Series) : M (option Series) :=
  match cache with
  | [] => ret out
  | url :: rest =>
      seg <- lift (file_segment url) ;;
      keep <- lift (segment_and seg span) ;;
      print url ;;;
      file <- _fetch_losc_data_file url args kwargs ;;
      let new := crop file (Some (seg_start keep)) (Some (seg_end keep)) in
      read_data rest span args kwargs
        (Some (match out with
               | None => copy new
               | Some out => append out new
               end))
  end.

(** The status line of a verbose call. *)
Definition status_line (cache : list string) (start end_ : Q) : M unit :=
  url0 <- lift (index cache 0) ;;
  host <- lift (urlparse_netloc url0) ;;
  text <- lift (PyFmt.format "Fetched {0!d} URLs from {1} for [{2!d} .. {3!d})"
                  [PyFmt.FInt (Z.of_nat (length cache)); PyFmt.FStr host;
                   PyFmt.FInt (Qfloor start); PyFmt.FInt (Qfloor end_)]) ;;
  print text.

(** Fetch LOSC data for a given detector *)
Definition fetch_losc_data (detector : string) (start end_ : PyVal) (cls : Cls)
    (kwargs : gmap string PyVal) : M (option Series) :=
  (* format arguments *)
  start <- lift (to_gps start) ;;
  end_ <- lift (to_gps end_) ;;
  let span := mkSegment start end_ in
  let kwargs := <["end" := VNum end_]> (<["start" := VNum start]> kwargs) in
  (* find URLs *)
  let '(url_kw, kwargs) :=
    pop_keys ["sample_rate"; "tag"; "version"; "host"; "format"] kwargs in
  url_kw <- lift (format_sample_rate url_kw) ;;
  cache <- lift (get_urls detector (Qfloor start) (Qceiling end_) url_kw) ;;
  (if truthy (default (VBool false) (kwargs !! "verbose"))
   then status_line cache start end_ else ret tt) ;;;
  (* if event dataset, pick shortest file that covers the request *)
  cache <- lift (event_dataset cache start end_) ;;
  ak <- lift (channel_args cache detector cls kwargs) ;;
  let '(args, kwargs) := ak in
  (* read data *)
  let kwargs := <["cls" := VCls cls]> kwargs in
  read_data cache span args kwargs None.

End Losc.

(** ** An archive to compute with

    One choice of collaborators, used to run the functions above on
    concrete requests: file names follow the convention
    [<obs>-<description>-<start>-<duration>.<ext>], and the remote files are
    given by a table. *)

Module Archive.

(** What a URL holds: an HDF5 file, or a frame file, given by the series
    its reader decodes from it. *)
Inductive RemoteFile :=
| Hdf5 (c : Container)
| Frame (s : Series).

(** [s.split(c)] *)
Fixpoint split_on (c : ascii) (s : string) : list string :=
  match s with
  | EmptyString => [EmptyString]
  | String a s' =>
      if Ascii.eqb a c then EmptyString :: split_on c s'
      else match split_on c s' with
           | w :: ws => String a w :: ws
           | [] => [String a EmptyString]
           end
  end.

Definition basename (url : string) : string :=
  PyStr.drop (Z.to_nat (PyStr.rfind "/" url + 1)) url.

(** The segment a file name announces. *)
Definition name_segment (url : string) : result Segment :=
  match split_on "-" (basename url) with
  | [_; _; start; dur] =>
      match PyStr.digits start, PyStr.digits (hd EmptyString (split_on "." dur)) with
      | Some a, Some d => Ok (mkSegment (inject_Z a) (inject_Z (a + d)))
      | _, _ => Raise (ValueError "could not convert string to float")
      end
  | _ => Raise (ValueError "Failed to parse as LIGO-T050017-compatible filename")
  end.

Definition Qmax (a b : Q) : Q := if Qle_bool a b then b else a.
Definition Qmin (a b : Q) : Q := if Qle_bool a b then a else b.

(** The intersection as the spec has it: an interval, possibly empty. *)
Definition segment_and_total (a b : Segment) : result Segment :=
  Ok (mkSegment (Qmax (seg_start a) (seg_start b)) (Qmin (seg_end a) (seg_end b))).

(** The intersection that refuses segments that do not intersect. *)
Definition segment_and_strict (a b : Segment) : result Segment :=
  if Qle_bool (seg_end a) (seg_start b) || Qle_bool (seg_end b) (seg_start a)
  then Raise (ValueError "segments do not intersect")
  else segment_and_total a b.

(** The host of a URL: what stands between [//] and the next [/]. *)
Fixpoint after_slashes (s : string) : string :=
  match s with
  | String "/" (String "/" r) => r
  | String _ r => after_slashes r
  | EmptyString => EmptyString
  end.

Definition netloc (url : string) : string :=
  hd EmptyString (split_on "/" (after_slashes url)).

Definition number (v : PyVal) : result Q :=
  match v with
  | VInt z => Ok (inject_Z z)
  | VNum q => Ok q
  | _ => Raise (TypeError "not a number")
  end.

Definition unit_name (v : PyVal) : result string :=
  match v with
  | VStr s => Ok s
  | _ => Raise (TypeError "not a unit")
  end.

Definition seconds (u : string) : option Q :=
  if String.eqb u "s" || String.eqb u "second" then Some 1%Q
  else if String.eqb u "ms" then Some (1 # 1000)%Q
  else None.

(** The collaborators: the locator answers [urls], the files are those
    of [files], and [strict] chooses the intersection of segments. *)
Definition world (urls : list string) (files : gmap string RemoteFile)
    (strict : bool) : Externals := {|
  FileObj := RemoteFile;
  to_gps := number;
  get_urls := fun _ _ _ _ =>
    match urls with
    | [] => Raise (ValueError "Cannot find a LOSC dataset matching the request")
    | _ => Ok urls
    end;
  urlparse_netloc := fun url => Ok (netloc url);
  file_segment := name_segment;
  segment_and := if strict then segment_and_strict else segment_and_total;
  bool_env_GWPY_CACHE := false;
  get_readable_fileobj := fun url _ _ =>
    match files !! url with
    | Some f => Ok f
    | None => Raise (mkExc ["HTTPError"; "URLError"; "OSError"; "Exception"; "BaseException"]
                            ["HTTP Error 404: Not Found"])
    end;
  open_hdf5 := fun f =>
    match f with
    | Hdf5 c => Ok c
    | Frame _ => Raise (mkExc ["OSError"; "Exception"; "BaseException"]
                             ["Unable to open file (file signature not found)"])
    end;
  registry_read := fun _ f _ _ =>
    match f with
    | Frame s => Ok s
    | Hdf5 _ => Raise (mkExc ["IORegistryError"; "Exception"; "BaseException"]
                            ["Format could not be identified"])
    end;
  parse_unit := unit_name;
  quantity_value := number;
  seconds_per := seconds
|}.

(** A strain file: [data] sampled every [dt] seconds from [x0] on. *)
Definition strain_file (x0 : Z) (dt : Q) (data : list Q) : RemoteFile :=
  Hdf5 {[ "strain/Strain" :=
    mkDataset (NumArray data)
      (<["Xunits" := VStr "second"]> (<["Xstart" := VInt x0]>
       (<["Xspacing" := VNum dt]> (<["Yunits" := VStr "strain"]> ∅)))) ]}.

(** A data-quality file with two flags, one mask value per second. *)
Definition quality_file (x0 : Z) (mask : list Q) : Container :=
  <["quality/simple/DQmask" := mkDataset (NumArray mask) (<["Xstart" := VInt x0]> ∅)]>
  (<["quality/simple/DQDescriptions" :=
       mkDataset (BytesArray ["NO_CBC_HW_INJ"; "NO_BURST_HW_INJ"]) ∅]> ∅).

(** A state vector as a frame reader returns it, its unit still holding
    the raw text of the frame. *)
Definition frame_state (x0 : Z) (unit : string) (mask : list Q) : Series :=
  mkSeries StateVector mask (inject_Z x0) (mkQuantity 1 "s") unit
           "H1:LOSC-DQMASK" {[ 0 := "Bit 0" ]}.

End Archive.

(** ** Vocabulary of the statements *)

(** A path whose last component has a character that is not a dot, so
    that a dot after it starts an extension. *)
Definition named (stem : string) : Prop :=
  exists a c b, stem = a +:+ String c b /\ c <> "."%char /\ c <> "/"%char
                /\ PyStr.has_char "/" b = false.

(** The series put together from the pieces read, in order: a copy of the
    first, and the others appended to it. *)
Definition assemble (pieces : list Series) : option Series :=
  match pieces with
  | [] => None
  | p :: ps => Some (fold_left append ps (copy p))
  end.

(** The text printed while one file is read. *)
Definition reading_prints (verbose : PyVal) (done : bool) : list Event :=
  if truthy verbose
  then [EvPrint "Reading data... "; EvPrint ((if done then "[Done]" else "") +:+ PyStr.nl)]
  else [].

(** The message of the exception that leaves the single-file fetch. *)
Definition failure_message (url : string) (exc : Exc) : string :=
  "Failed to read LOSC data from " +:+ PyFmt.repr url +:+ ": " +:+ PyFmt.str_exc exc.

Section Vocabulary.

Context `{Ext : Externals}.

(** The options the single-file fetch takes out of its keywords. *)
Definition cls_of (kwargs : gmap string PyVal) : PyVal :=
  default (VCls TimeSeries) (kwargs !! "cls").

Definition verbose_of (kwargs : gmap string PyVal) : PyVal :=
  default (VBool false) (kwargs !! "verbose").

Definition use_cache (kwargs : gmap string PyVal) : bool :=
  match default VNone (kwargs !! "cache") with
  | VNone => bool_env_GWPY_CACHE
  | v => truthy v
  end.

(** The keywords that reach the reader of a file. *)
Definition reader_kwargs (url : string) (kwargs : gmap string PyVal)
  : gmap string PyVal :=
  match_format (url_ext url) (delete "verbose" (delete "cache" (delete "cls" kwargs))).

(** What the single-file fetch makes of the series a reader returned. *)
Definition unit_bits (url : string) (series : Series) : Series :=
  if String.eqb (url_ext url) ".gwf" && is_StateVector series then
    match parse_bits (PyStr.split (series_unit series)) ∅ with
    | Ok bits => override_unit (set_bits series bits) ""
    | Raise _ => series
    end
  else series.

(** A token of the unit string that cannot be read as [<index>:<name>]:
    it has no colon, or what precedes its first colon is not an integer. *)
Definition bad_token (bit : string) : Prop :=
  match PyStr.split1 ":" bit with
  | [a; _] => PyStr.int a = None
  | _ => True
  end.

(** The keywords of a request once [start] and [end] are in: those for
    the locator, and the others. *)
Definition split_kwargs (start end_ : Q) (kwargs : gmap string PyVal)
  : gmap string PyVal * gmap string PyVal :=
  pop_keys ["sample_rate"; "tag"; "version"; "host"; "format"]
           (<["end" := VNum end_]> (<["start" := VNum start]> kwargs)).

(** [piece] is what the loop makes of [url]: the file read, cropped to the
    part of the request that the name of the file announces. *)
Definition piece_of (span : Segment) (args : list PyVal) (kwargs : gmap string PyVal)
    (url : string) (piece : Series) : Prop :=
  exists seg keep t file,
    file_segment url = Ok seg /\ segment_and seg span = Ok keep /\
    _fetch_losc_data_file url args kwargs = (t, Ok file) /\
    piece = crop file (Some (seg_start keep)) (Some (seg_end keep)).

(** The result of the loop that started with [out]. *)
Definition assemble_from (out : option Series) (pieces : list Series) : option Series :=
  match out with
  | None => assemble pieces
  | Some o => Some (fold_left append pieces o)
  end.

(** The name the assembler gives the channel of a frame file. *)
Definition losc_channel (detector : string) (cls : Cls) : string :=
  detector +:+ (if bool_decide (cls = StateVector) then ":LOSC-DQMASK" else ":LOSC-STRAIN").

(** The format chosen for an extension, when the caller names none. *)
Definition format_of_ext (e : string) : option PyVal :=
  if String.eqb e "hdf5" then Some (VStr "hdf5.losc")
  else if String.eqb e "txt" then Some (VStr "ascii.losc")
  else if String.eqb e "gwf" then Some (VStr "gwf")
  else None.

(** How the single-file fetch ends, from the way the reader ended. *)
Definition fetched (url : string) (r : result Series) : result Series :=
  match r with
  | Ok series => Ok (unit_bits url series)
  | Raise exc =>
      if exc_isinstance exc "Exception"
      then Raise (mkExc (exc_mro exc) [failure_message url exc])
      else Raise exc
  end.

(** [piece] is what the loop makes of [url] when the file opens and its
    reader, called with the positional arguments [args] and the keywords
    of the file, returns: the series of the reader, after the treatment
    of the unit of a frame file, cropped to the part of the request that
    the name of the file announces. *)
Definition read_piece (span : Segment) (args : list PyVal) (kwargs : gmap string PyVal)
    (url : string) (piece : Series) : Prop :=
  exists seg keep rem series,
    file_segment url = Ok seg /\ segment_and seg span = Ok keep /\
    get_readable_fileobj url (use_cache kwargs) (truthy (verbose_of kwargs)) = Ok rem /\
    read_as (cls_of kwargs) rem args (reader_kwargs url kwargs) = Ok series /\
    piece = crop (unit_bits url series) (Some (seg_start keep)) (Some (seg_end keep)).

End Vocabulary.

(** ** Requests to compute with *)

Module Examples.

Import Archive.

(** Files of the continuous archive, sixteen seconds each. *)
Definition u1 : string :=
  "https://losc.ligo.org/archive/data/S6/999292928/H-H1_LOSC_4_V1-1000000000-16.hdf5".
Definition u2 : string :=
  "https://losc.ligo.org/archive/data/S6/999292928/H-H1_LOSC_4_V1-1000000016-16.hdf5".
Definition u_far : string :=
  "https://losc.ligo.org/archive/data/S6/999292928/H-H1_LOSC_4_V1-1000000064-16.hdf5".

(** Files of an event release, which overlap. *)
Definition ev1 : string :=
  "https://losc.ligo.org/events/GW/H-H1_LOSC_4_V1-1000000000-16.hdf5".
Definition ev2 : string :=
  "https://losc.ligo.org/events/GW/H-H1_LOSC_4_V1-1000000008-16.hdf5".
Definition ev3 : string :=
  "https://losc.ligo.org/events/GW/H-H1_LOSC_4_V1-1000000016-16.hdf5".

(** A frame file with a state vector, and a file that is not what its
    name says. *)
Definition gwf : string :=
  "https://losc.ligo.org/archive/data/S6/999292928/H-H1_LOSC_4_V1-1000000000-16.gwf".
Definition broken : string :=
  "https://losc.ligo.org/archive/data/S6/999292928/H-H1_LOSC_4_V1-1000000032-16.hdf5".

(** The state vector of [gwf] as the frame reader returns it: the second
    token of its unit has no colon. *)
Definition raw_state : Series := frame_state 1000000000 "0:DATA oops" [3; 1; 0; 3]%Q.

(** One sample every four seconds in each file. *)
Definition files : gmap string RemoteFile :=
  list_to_map
    [ (u1, strain_file 1000000000 4 [1; 2; 3; 4]%Q);
      (u2, strain_file 1000000016 4 [5; 6; 7; 8]%Q);
      (u_far, strain_file 1000000064 4 [9; 10; 11; 12]%Q);
      (ev1, strain_file 1000000000 4 [21; 22; 23; 24]%Q);
      (ev2, strain_file 1000000008 4 [31; 32; 33; 34]%Q);
      (ev3, strain_file 1000000016 4 [41; 42; 43; 44]%Q);
      (gwf, Frame raw_state);
      (broken, Frame raw_state) ].

(** A file whose dataset is not inside a group. *)
Definition root_file : Container :=
  {[ "Strain" :=
       mkDataset (NumArray [1; 2; 3; 4]%Q)
         (<["Xunits" := VStr "second"]> (<["Xstart" := VInt 1000000000]>
          (<["Xspacing" := VNum 4]> (<["Yunits" := VStr "strain"]> ∅)))) ]}.

(** The same dataset inside the group [strain]. *)
Definition strain_container : Container :=
  {[ "strain/Strain" :=
       mkDataset (NumArray [1; 2; 3; 4]%Q)
         (<["Xunits" := VStr "second"]> (<["Xstart" := VInt 1000000000]>
          (<["Xspacing" := VNum 4]> (<["Yunits" := VStr "strain"]> ∅)))) ]}.

(** Data-quality files: as released, with a spacing in a unit that is
    not given, and without a start. *)
Definition quality : Container := quality_file 1000000000 [3; 1; 0; 3]%Q.

Definition quality_no_units : Container :=
  <["quality/simple/DQmask" :=
      mkDataset (NumArray [3; 1]%Q)
        (<["Xstart" := VInt 1000000000]> (<["Xspacing" := VInt 1]> ∅))]> quality.

Definition quality_no_start : Container :=
  <["quality/simple/DQmask" := mkDataset (NumArray [3; 1]%Q) ∅]> quality.

Definition quality_bad_units : Container :=
  <["quality/simple/DQmask" :=
      mkDataset (NumArray [3; 1]%Q)
        (<["Xstart" := VInt 1000000000]> (<["Xspacing" := VInt 1]>
         (<["Xunits" := VInt 7]> ∅)))]> quality.

(** The collaborators for a locator that answers [urls]. *)
Definition lenient (urls : list string) : Externals := world urls files false.
Definition strict (urls : list string) : Externals := world urls files true.

End Examples.

(** ** Vocabulary of the further properties *)

(** The URLs a computation released, in order. *)
Definition closed (t : list Event) : list string :=
  omap (fun ev => match ev with EvClose u => Some u | _ => None end) t.

(** The texts a computation printed, in order. *)
Definition printed (t : list Event) : list string :=
  omap (fun ev => match ev with EvPrint text => Some text | _ => None end) t.

(** The file held after the events of [t], starting with [held]; [None]
    when a file is opened while another is held, or a file is released
    that is not the one held. *)
Fixpoint scope_after (held : option string) (t : list Event) : option (option string) :=
  match t with
  | [] => Some held
  | EvPrint _ :: t' => scope_after held t'
  | EvOpen u _ _ :: t' =>
      match held with
      | None => scope_after (Some u) t'
      | Some _ => None
      end
  | EvClose u :: t' =>
      match held with
      | Some v => if String.eqb u v then scope_after None t' else None
      | None => None
      end
  end.

(** A token [<index>:<name>] of a unit string: no colon in the index,
    which [int] reads as [i]. *)
Definition token_of (bit : string) (entry : Z * string) : Prop :=
  exists a, bit = a +:+ String ":" (snd entry)
            /\ PyStr.has_char ":" a = false /\ PyStr.int a = Some (fst entry).

(** What the events of a computation say of the way files are asked
    for: every file with the flags [cache] and [progress]. *)
Definition asks_with (cache progress : bool) (t : list Event) : Prop :=
  Forall (fun ev => match ev with
                    | EvOpen _ c v => c = cache /\ v = progress
                    | _ => True
                    end) t.


(** ** Further requests to compute with *)

Module Further.

Import Archive.

(** A frame file whose unit string reads well; a name holds a colon, and
    the index 0 comes twice. *)
Definition gwf_ok : string :=
  "https://losc.ligo.org/archive/data/S6/999292928/H-H1_LOSC_4_V1-1000000016-16.gwf".

Definition named_state : Series :=
  frame_state 1000000016 "0:DATA 1:CBC:CAT1 0:ALL" [3; 1; 0; 3]%Q.

(** A URL that the archive does not hold. *)
Definition missing : string :=
  "https://losc.ligo.org/archive/data/S6/999292928/H-H1_LOSC_4_V1-1000000048-16.hdf5".

(** A file whose name does not follow the convention. *)
Definition odd_name : string := "https://losc.ligo.org/events/GW/strain.hdf5".

Definition files : gmap string RemoteFile :=
  <[gwf_ok := Frame named_state]> Examples.files.

Definition lenient (urls : list string) : Externals := world urls files false.

(** A strain file sampled every 250 milliseconds. *)
Definition strain_ms : Container :=
  {[ "strain/Strain" :=
       mkDataset (NumArray [1; 2; 3; 4]%Q)
         (<["Xunits" := VStr "ms"]> (<["Xstart" := VInt 1000000000]>
          (<["Xspacing" := VInt 250]> (<["Yunits" := VStr "strain"]> ∅)))) ]}.

(** Data-quality files: sampled every 250 milliseconds, and with a
    description that is not UTF-8. *)
Definition quality_ms : Container :=
  <["quality/simple/DQmask" :=
      mkDataset (NumArray [3; 1]%Q)
        (<["Xstart" := VInt 1000000000]> (<["Xspacing" := VInt 250]>
         (<["Xunits" := VStr "ms"]> ∅)))]> Examples.quality.

Definition latin1 : string := String (ascii_of_nat 233) "t".

Definition quality_latin1 : Container :=
  <["quality/simple/DQDescriptions" :=
      mkDataset (BytesArray ["NO_CBC_HW_INJ"; latin1]) ∅]> Examples.quality.

(** The same collaborators, with a reader that is interrupted. *)
Definition interrupted (urls : list string) : Externals := {|
  FileObj := RemoteFile;
  to_gps := number;
  get_urls := fun _ _ _ _ => Ok urls;
  urlparse_netloc := fun url => Ok (netloc url);
  file_segment := name_segment;
  segment_and := segment_and_total;
  bool_env_GWPY_CACHE := true;
  get_readable_fileobj := fun url _ _ =>
    match files !! url with
    | Some f => Ok f
    | None => Raise (mkExc ["HTTPError"; "URLError"; "OSError"; "Exception"; "BaseException"]
                            ["HTTP Error 404: Not Found"])
    end;
  open_hdf5 := fun _ => Raise (mkExc ["KeyboardInterrupt"; "BaseException"] []);
  registry_read := fun _ _ _ _ => Raise (mkExc ["KeyboardInterrupt"; "BaseException"] []);
  parse_unit := unit_name;
  quantity_value := number;
  seconds_per := seconds
|}.

End Further.

(** * Properties *)

(** ** Facts about strings *)

Section StringFacts.

Implicit Types s p e : string.

Lemma str_app_nil_l s : "" +:+ s = s.
Proof. reflexivity. Qed.

Lemma str_app_cons a s1 s2 : String a s1 +:+ s2 = String a (s1 +:+ s2).
Proof. reflexivity. Qed.

Lemma str_app_nil_r s : s +:+ "" = s.
Proof. induction s as [|a s IH]; [done|]. by rewrite str_app_cons, IH. Qed.

Lemma str_app_assoc s1 s2 s3 : (s1 +:+ s2) +:+ s3 = s1 +:+ (s2 +:+ s3).
Proof. induction s1 as [|a s1 IH]; [done|]. by rewrite !str_app_cons, IH. Qed.

Lemma str_length_app s1 s2 :
  String.length (s1 +:+ s2) = (String.length s1 + String.length s2)%nat.
Proof. induction s1 as [|a s1 IH]; [done|]. rewrite str_app_cons. cbn. by rewrite IH. Qed.

Lemma take_app_length s1 s2 : PyStr.take (String.length s1) (s1 +:+ s2) = s1.
Proof.
  induction s1 as [|a s1 IH]; [by destruct s2|].
  rewrite str_app_cons. cbn. by rewrite IH.
Qed.

Lemma drop_app_length s1 s2 : PyStr.drop (String.length s1) (s1 +:+ s2) = s2.
Proof. induction s1 as [|a s1 IH]; [by destruct s2|]. by rewrite str_app_cons. Qed.

Lemma take_drop n s : PyStr.take n s +:+ PyStr.drop n s = s.
Proof.
  revert s; induction n as [|n IH]; intros [|a s]; try done.
  cbn [PyStr.take PyStr.drop]. by rewrite str_app_cons, IH.
Qed.

Lemma take_length n s :
  (n <= String.length s)%nat -> String.length (PyStr.take n s) = n.
Proof.
  revert s; induction n as [|n IH]; intros [|a s]; cbn; intros; try done; try lia.
  rewrite IH; lia.
Qed.

Lemma get_app_length s1 a s2 :
  String.get (String.length s1) (s1 +:+ String a s2) = Some a.
Proof. induction s1 as [|b s1 IH]; [done|]. by rewrite str_app_cons. Qed.

Lemma has_char_app c s1 s2 :
  PyStr.has_char c (s1 +:+ s2) = PyStr.has_char c s1 || PyStr.has_char c s2.
Proof.
  induction s1 as [|a s1 IH]; [done|].
  rewrite str_app_cons. cbn. rewrite IH. by destruct (Ascii.eqb a c).
Qed.

Lemma rfind_from_app c s1 s2 i last :
  PyStr.rfind_from c (s1 +:+ s2) i last
  = PyStr.rfind_from c s2 (i + PyStr.len s1) (PyStr.rfind_from c s1 i last).
Proof.
  unfold PyStr.len.
  revert i last; induction s1 as [|a s1 IH]; intros i last.
  - rewrite str_app_nil_l. cbn. f_equal; lia.
  - rewrite str_app_cons. cbn [PyStr.rfind_from String.length]. rewrite IH. f_equal. lia.
Qed.

Lemma rfind_from_absent c s i last :
  PyStr.has_char c s = false -> PyStr.rfind_from c s i last = last.
Proof.
  revert i last; induction s as [|a s IH]; intros i last; cbn; [done|].
  intros [Ha Hs]%orb_false_iff. rewrite Ha. by apply IH.
Qed.

Lemma rfind_from_range c s i last :
  last < i -> last <= PyStr.rfind_from c s i last < i + PyStr.len s.
Proof.
  unfold PyStr.len.
  revert i last; induction s as [|a s IH]; intros i last Hl;
    cbn [PyStr.rfind_from String.length].
  - lia.
  - destruct (Ascii.eqb a c).
    + specialize (IH (i + 1) i ltac:(lia)). lia.
    + specialize (IH (i + 1) last ltac:(lia)). lia.
Qed.

(** The last occurrence of [c] in [s +:+ c +:+ e], when [e] has none. *)
Lemma rfind_last c s e :
  PyStr.has_char c e = false ->
  PyStr.rfind c (s +:+ String c e) = PyStr.len s.
Proof.
  intros He. unfold PyStr.rfind. rewrite rfind_from_app.
  cbn [PyStr.rfind_from]. rewrite Ascii.eqb_refl.
  rewrite rfind_from_absent by done. lia.
Qed.

Lemma has_nondot_found p i n k a :
  (i <= k < i + n)%nat -> String.get k p = Some a -> a <> "."%char ->
  OsPath.has_nondot p i n = true.
Proof.
  revert i; induction n as [|n IH]; intros i Hk Hget Ha; [lia|].
  cbn. destruct (String.get i p) as [b|] eqn:Hb; [|done].
  destruct (Ascii.eqb_spec b ".") as [->|]; [|done].
  destruct (decide (i = k)) as [->|]; [congruence|].
  apply IH; [lia|done..].
Qed.

Lemma endswith_app s suf : PyStr.endswith (s +:+ suf) suf = true.
Proof.
  unfold PyStr.endswith. rewrite str_length_app.
  destruct (Nat.ltb_spec (String.length s + String.length suf) (String.length suf)); [lia|].
  replace (String.length s + String.length suf - String.length suf)%nat
    with (String.length s) by lia.
  rewrite drop_app_length. apply String.eqb_refl.
Qed.

Lemma endswith_inv s suf :
  PyStr.endswith s suf = true ->
  s = PyStr.take (String.length s - String.length suf) s +:+ suf.
Proof.
  unfold PyStr.endswith.
  destruct (Nat.ltb_spec (String.length s) (String.length suf)); [done|].
  intros Heq%String.eqb_eq.
  set (n := (String.length s - String.length suf)%nat) in *.
  transitivity (PyStr.take n s +:+ PyStr.drop n s);
    [symmetry; apply take_drop | by rewrite Heq].
Qed.

End StringFacts.


(** ** The extension of a URL *)

Lemma splitext_suffix stem e :
  named stem -> PyStr.has_char "." e = false -> PyStr.has_char "/" e = false ->
  OsPath.splitext (stem +:+ String "." e) = (stem, String "." e).
Proof.
  intros (a & c & b & -> & Hc1 & Hc2 & Hb) He1 He2.
  unfold OsPath.splitext.
  rewrite rfind_last by done.
  set (stem := a +:+ String c b).
  assert (Hsep : PyStr.rfind "/" (stem +:+ String "." e) = PyStr.rfind "/" a).
  { unfold PyStr.rfind, stem. rewrite !rfind_from_app.
    rewrite (rfind_from_absent _ (String "." e)) by (cbn; by rewrite He2).
    rewrite rfind_from_absent; [done|].
    cbn. rewrite Hb. by destruct (Ascii.eqb_spec c "/"). }
  rewrite Hsep.
  pose proof (rfind_from_range "/" a 0 (-1) ltac:(lia)) as Hr.
  fold (PyStr.rfind "/" a) in Hr.
  assert (Hlen : PyStr.len stem = PyStr.len a + 1 + PyStr.len b).
  { unfold stem, PyStr.len. rewrite str_length_app. cbn. lia. }
  assert (Hgt : (PyStr.len stem >? PyStr.rfind "/" a) = true).
  { apply Z.gtb_lt. unfold PyStr.len in *. lia. }
  rewrite Hgt. cbn [andb].
  rewrite (has_nondot_found _ _ _ (String.length a) c).
  - unfold PyStr.len. rewrite Nat2Z.id.
    by rewrite take_app_length, drop_app_length.
  - unfold PyStr.len in *. lia.
  - unfold stem. rewrite str_app_assoc, str_app_cons. apply get_app_length.
  - done.
Qed.

Lemma endswith_dot_ext stem e x :
  PyStr.has_char "." e = false -> PyStr.has_char "." x = false ->
  PyStr.endswith (stem +:+ String "." e) (String "." x) = true -> e = x.
Proof.
  intros He Hx Hend.
  apply endswith_inv in Hend.
  set (p := PyStr.take _ _) in Hend.
  assert (Hl : PyStr.len stem = PyStr.len p).
  { rewrite <-(rfind_last "." stem e), <-(rfind_last "." p x) by done.
    by rewrite <-Hend. }
  assert (Hd : PyStr.drop (String.length stem) (stem +:+ String "." e)
               = PyStr.drop (String.length p) (p +:+ String "." x)).
  { rewrite <-Hend. f_equal. unfold PyStr.len in Hl. lia. }
  rewrite !drop_app_length in Hd. congruence.
Qed.

(** The extension that is looked at: that of a name without [.gz], and
    that of what precedes one [.gz]. *)
Lemma url_ext_plain stem e :
  named stem -> PyStr.has_char "." e = false -> PyStr.has_char "/" e = false ->
  e <> "gz" -> url_ext (stem +:+ String "." e) = String "." e.
Proof.
  intros Hn He1 He2 Hgz. unfold url_ext.
  destruct (PyStr.endswith _ ".gz") eqn:Hend.
  - apply endswith_dot_ext in Hend; done.
  - by rewrite splitext_suffix.
Qed.

Lemma url_ext_gz stem e :
  named stem -> PyStr.has_char "." e = false -> PyStr.has_char "/" e = false ->
  url_ext (stem +:+ String "." e +:+ ".gz") = String "." e.
Proof.
  intros Hn He1 He2. unfold url_ext.
  rewrite <-str_app_assoc.
  rewrite endswith_app.
  rewrite str_length_app.
  replace (String.length (stem +:+ String "." e) + String.length ".gz" - 3)%nat
    with (String.length (stem +:+ String "." e)) by (cbn; lia).
  rewrite take_app_length. by rewrite splitext_suffix.
Qed.


(** ** Facts about the readers *)

(** One step of a chain of fallible steps in a hypothesis. *)
Ltac rstep :=
match goal with
| H : context [rbind ?r _] |- _ =>
    let E := fresh "E" in destruct r eqn:E; cbn [rbind] in H
| H : context [try_else ?r _ _ _] |- _ =>
    let E := fresh "E" in destruct r eqn:E; cbn [try_else] in H
end.

Section ReaderFacts.
Context `{Ext : Externals}.

Lemma rsplit1_last dir base :
  PyStr.has_char "/" base = false ->
  PyStr.rsplit1 "/" (dir +:+ String "/" base) = [dir; base].
Proof.
  intros Hb. unfold PyStr.rsplit1. rewrite rfind_last by done.
  unfold PyStr.len. destruct (Z.ltb_spec (Z.of_nat (String.length dir)) 0); [lia|].
  rewrite Nat2Z.id. rewrite take_app_length.
  change (String "/" base) with ("/" +:+ base).
  rewrite <-str_app_assoc.
  replace (S (String.length dir)) with (String.length (dir +:+ "/"))
    by (rewrite str_length_app; cbn; lia).
  by rewrite drop_app_length.
Qed.

Lemma rsplit1_whole path :
  PyStr.has_char "/" path = false -> PyStr.rsplit1 "/" path = [path].
Proof.
  intros Hp. unfold PyStr.rsplit1, PyStr.rfind.
  by rewrite rfind_from_absent.
Qed.

Lemma crop_name s a b : series_name (crop s a b) = series_name s.
Proof. reflexivity. Qed.

Lemma crop_dx s a b : series_dx (crop s a b) = series_dx s.
Proof. reflexivity. Qed.

(** A path without a slash never gives a series. *)
Lemma read_losc_hdf5_no_slash h5f path start end_ copy_ s :
  PyStr.has_char "/" path = false ->
  read_losc_hdf5 h5f path start end_ copy_ <> Ok s.
Proof.
  intros Hp Hr. unfold read_losc_hdf5 in Hr.
  repeat (rstep; [|discriminate]).
  rewrite rsplit1_whole in * by done. discriminate.
Qed.

Lemma read_losc_hdf5_no_slash_raises h5f path start end_ copy_ dataset xu xunit epoch xs dt k yu :
  PyStr.has_char "/" path = false ->
  h5f !! path = Some dataset ->
  ds_attrs dataset !! "Xunits" = Some xu -> parse_unit xu = Ok xunit ->
  ds_attrs dataset !! "Xstart" = Some epoch ->
  ds_attrs dataset !! "Xspacing" = Some xs -> quantity_value xs = Ok dt ->
  ds_attrs dataset !! "Yunits" = Some yu ->
  seconds_per xunit = Some k ->
  read_losc_hdf5 h5f path start end_ copy_ = Raise (IndexError "list index out of range").
Proof.
  intros Hp Hd Hxu Hpu Hx0 Hxs Hq Hyu Hk.
  unfold read_losc_hdf5, find_dataset, attr, mk_quantity, to_Hertz_inv.
  rewrite Hd. cbn [rbind]. rewrite Hxu. cbn [rbind]. rewrite Hpu. cbn [rbind].
  rewrite Hx0. cbn [rbind]. rewrite Hxs. cbn [rbind]. rewrite Hq. cbn [rbind].
  rewrite Hyu. cbn [rbind q_unit]. rewrite Hk. cbn [rbind].
  by rewrite rsplit1_whole.
Qed.

(** What the reader returns for a path [dir/base]. *)
Lemma read_losc_hdf5_ok h5f dir base start end_ copy_ dataset xu xunit epoch xs dt k yu data unit x0 :
  PyStr.has_char "/" base = false ->
  h5f !! (dir +:+ String "/" base) = Some dataset ->
  ds_attrs dataset !! "Xunits" = Some xu -> parse_unit xu = Ok xunit ->
  ds_attrs dataset !! "Xstart" = Some epoch ->
  ds_attrs dataset !! "Xspacing" = Some xs -> quantity_value xs = Ok dt ->
  ds_attrs dataset !! "Yunits" = Some yu ->
  seconds_per xunit = Some k ->
  samples (ds_value dataset) = Ok data -> parse_unit yu = Ok unit -> to_gps epoch = Ok x0 ->
  read_losc_hdf5 h5f (dir +:+ String "/" base) start end_ copy_
  = Ok (crop (mkSeries TimeSeries data x0 (mkQuantity (/ / (dt * k)) "s") unit base ∅)
             start end_).
Proof.
  intros Hp Hd Hxu Hpu Hx0 Hxs Hq Hyu Hk Hs Hu Hg.
  unfold read_losc_hdf5, find_dataset, attr, mk_quantity, to_Hertz_inv.
  rewrite Hd. cbn [rbind]. rewrite Hxu. cbn [rbind]. rewrite Hpu. cbn [rbind].
  rewrite Hx0. cbn [rbind]. rewrite Hxs. cbn [rbind]. rewrite Hq. cbn [rbind].
  rewrite Hyu. cbn [rbind q_unit]. rewrite Hk. cbn [rbind].
  rewrite rsplit1_last by done. cbn [index lookup list_lookup rbind].
  unfold new_TimeSeries. rewrite Hs. cbn [rbind]. rewrite Hu. cbn [rbind].
  rewrite Hg. reflexivity.
Qed.

Lemma read_losc_hdf5_name h5f dir base start end_ copy_ s :
  PyStr.has_char "/" base = false ->
  read_losc_hdf5 h5f (dir +:+ String "/" base) start end_ copy_ = Ok s ->
  series_name s = base.
Proof.
  intros Hp Hr. unfold read_losc_hdf5 in Hr.
  repeat (rstep; [|discriminate]).
  rewrite rsplit1_last in * by done.
  cbn in *. simplify_eq.
  unfold new_TimeSeries in *.
  repeat (rstep; [|discriminate]). by simplify_eq.
Qed.

Lemma read_losc_hdf5_state_name f path start end_ copy_ s :
  read_losc_hdf5_state f path start end_ copy_ = Ok s ->
  series_name s = "Data quality".
Proof.
  intros Hr. unfold read_losc_hdf5_state in Hr.
  repeat (rstep; [|discriminate]).
  unfold new_StateVector in *.
  repeat (rstep; [|discriminate]). by simplify_eq.
Qed.

End ReaderFacts.

(** ** The single-file fetch *)

Section FetchFile.

Context `{Ext : Externals}.

Lemma unpack2_ValueError l e :
  unpack2 l = Raise e -> exc_isinstance e "ValueError" = true.
Proof.
  destruct l as [|a [|b [|c l]]]; cbn; intros; by simplify_eq.
Qed.

Lemma int_of_str_ValueError a e :
  int_of_str a = Raise e -> exc_isinstance e "ValueError" = true.
Proof.
  unfold int_of_str. destruct (PyStr.int a); intros; by simplify_eq.
Qed.

(** The loop over the tokens fails with a [ValueError] only. *)
Lemma parse_bits_ValueError tokens bits e :
  parse_bits tokens bits = Raise e -> exc_isinstance e "ValueError" = true.
Proof.
  revert bits; induction tokens as [|bit rest IH]; intros bits; cbn; [done|].
  destruct (unpack2 _) as [[a b]|e1] eqn:E1; cbn.
  - destruct (int_of_str a) as [i|e2] eqn:E2; cbn.
    + apply IH.
    + intros; simplify_eq. by eapply int_of_str_ValueError.
  - intros; simplify_eq. by eapply unpack2_ValueError.
Qed.

(** It fails as soon as one token is bad. *)
Lemma parse_bits_bad_token tokens bits bit :
  bit ∈ tokens -> bad_token bit -> exists e, parse_bits tokens bits = Raise e.
Proof.
  intros Hin Hbad. revert bits.
  induction tokens as [|t rest IH]; intros bits; [by apply elem_of_nil in Hin|].
  cbn. destruct (unpack2 _) as [[a b]|e1] eqn:E1; cbn; [|eauto].
  destruct (int_of_str a) as [i|e2] eqn:E2; cbn; [|eauto].
  apply elem_of_cons in Hin as [->|Hin]; [|by apply IH].
  exfalso. unfold bad_token in Hbad. unfold unpack2 in E1.
  destruct (PyStr.split1 ":" t) as [|a' [|b' [|c l]]]; try discriminate.
  simplify_eq. unfold int_of_str in E2. by rewrite Hbad in E2.
Qed.

Lemma fetch_file_eq url args kwargs :
  _fetch_losc_data_file url args kwargs =
  let c := use_cache kwargs in
  let v := truthy (verbose_of kwargs) in
  match get_readable_fileobj url c v with
  | Raise e => ([EvOpen url c v], Raise e)
  | Ok rem =>
      match read_as (cls_of kwargs) rem args (reader_kwargs url kwargs) with
      | Ok series =>
          (EvOpen url c v :: reading_prints (verbose_of kwargs) true ++ [EvClose url],
           Ok (unit_bits url series))
      | Raise exc =>
          if exc_isinstance exc "Exception"
          then (EvOpen url c v :: reading_prints (verbose_of kwargs) false ++ [EvClose url],
                Raise (mkExc (exc_mro exc) [failure_message url exc]))
          else (EvOpen url c v :: (if v then [EvPrint "Reading data... "] else [])
                  ++ [EvClose url], Raise exc)
      end
  end.
Proof.
  unfold _fetch_losc_data_file, pop, with_download, _download_file.
  rewrite !lookup_delete_ne by done.
  fold (cls_of kwargs) (verbose_of kwargs) (reader_kwargs url kwargs).
  assert (Hc : match default VNone (kwargs !! "cache") with
               | VNone => bool_env_GWPY_CACHE
               | _ => truthy (default VNone (kwargs !! "cache"))
               end = use_cache kwargs)
    by (unfold use_cache; by destruct (default VNone (kwargs !! "cache"))).
  cbv zeta. rewrite Hc. clear Hc.
  set (c := use_cache kwargs). set (vb := verbose_of kwargs).
  unfold bind, emit, lift, print, print_end, ret, raise, reading_prints, unit_bits,
    try_except.
  destruct (get_readable_fileobj url c (truthy vb)) as [rem|e]; [|done].
  destruct (read_as _ rem args _) as [series|exc].
  - destruct (String.eqb (url_ext url) ".gwf" && is_StateVector series).
    + destruct (parse_bits _ ∅) as [bits|e] eqn:Hp.
      * by destruct (truthy vb).
      * assert (existsb (exc_isinstance e) ["TypeError"; "ValueError"] = true) as ->.
        { cbn [existsb]. rewrite (parse_bits_ValueError _ _ _ Hp).
          by rewrite orb_true_r. }
        by destruct (truthy vb).
    + by destruct (truthy vb).
  - destruct (exc_isinstance exc "Exception"); by destruct (truthy vb).
Qed.

(** Exactly one file is opened, the one asked for. *)
Lemma fetch_file_opened url args kwargs :
  opened (trace (_fetch_losc_data_file url args kwargs)) = [url].
Proof.
  rewrite fetch_file_eq. cbv zeta.
  destruct (get_readable_fileobj _ _ _); [|done].
  destruct (read_as _ _ _ _).
  - unfold reading_prints. by destruct (truthy _).
  - unfold reading_prints.
    destruct (exc_isinstance _ _); by destruct (truthy _).
Qed.

End FetchFile.

(** ** The assembler *)

Section Assembler.

Context `{Ext : Externals}.

Lemma opened_app t1 t2 : opened (t1 ++ t2) = opened t1 ++ opened t2.
Proof. apply omap_app. Qed.

Lemma opened_print text t : opened (EvPrint text :: t) = opened t.
Proof. reflexivity. Qed.

Lemma outcome_pair {A} (t : list Event) (r : result A) : outcome (t, r) = r.
Proof. reflexivity. Qed.

Lemma trace_pair {A} (t : list Event) (r : result A) : trace (t, r) = t.
Proof. reflexivity. Qed.

Lemma bind_eq {A B} (m : M A) (f : A -> M B) :
  bind m f = match outcome m with
             | Ok a => (trace m ++ trace (f a), outcome (f a))
             | Raise e => (trace m, Raise e)
             end.
Proof.
  destruct m as [t [a|e]]; cbn; [|done]. by destruct (f a).
Qed.

(** One turn of the loop. *)
Lemma read_data_cons url rest span args kwargs out seg keep :
  file_segment url = Ok seg -> segment_and seg span = Ok keep ->
  read_data (url :: rest) span args kwargs out =
  match outcome (_fetch_losc_data_file url args kwargs) with
  | Ok file =>
      let new := crop file (Some (seg_start keep)) (Some (seg_end keep)) in
      let r := read_data rest span args kwargs
                 (Some (match out with None => copy new | Some o => append o new end)) in
      (EvPrint (url +:+ PyStr.nl) :: trace (_fetch_losc_data_file url args kwargs) ++ trace r,
       outcome r)
  | Raise e =>
      (EvPrint (url +:+ PyStr.nl) :: trace (_fetch_losc_data_file url args kwargs), Raise e)
  end.
Proof.
  intros Hs Hk. cbn [read_data]. rewrite Hs. cbn [bind lift]. rewrite Hk.
  unfold lift, print, emit. cbn [bind].
  destruct (_fetch_losc_data_file url args kwargs) as [t [file|e]]; cbn; [|done].
  by destruct (read_data rest _ _ _ _).
Qed.

(** The files are opened in the order of the list, without a gap, up to
    the point where the loop stops. *)
Lemma read_data_opened_prefix cache span args kwargs out :
  opened (trace (read_data cache span args kwargs out)) `prefix_of` cache.
Proof.
  revert out; induction cache as [|url rest IH]; intros out; [done|].
  destruct (file_segment url) as [seg|e] eqn:Hs.
  2:{ cbn [read_data]. rewrite Hs. cbn. apply prefix_nil. }
  destruct (segment_and seg span) as [keep|e] eqn:Hk.
  2:{ cbn [read_data]. rewrite Hs. cbn. rewrite Hk. cbn. apply prefix_nil. }
  rewrite (read_data_cons _ _ _ _ _ _ _ _ Hs Hk).
  pose proof (fetch_file_opened url args kwargs) as Ho.
  destruct (outcome (_fetch_losc_data_file url args kwargs)) as [file|e].
  - cbv zeta. rewrite trace_pair, opened_print, opened_app, Ho.
    apply prefix_cons, IH.
  - rewrite trace_pair, opened_print, Ho. apply prefix_cons, prefix_nil.
Qed.

(** When every file can be read, every file is read, and the pieces are
    put together in the order of the list. *)
Lemma read_data_all cache span args kwargs out pieces :
  Forall2 (piece_of span args kwargs) cache pieces ->
  outcome (read_data cache span args kwargs out) = Ok (assemble_from out pieces)
  /\ opened (trace (read_data cache span args kwargs out)) = cache.
Proof.
  intros HF. revert out.
  induction HF as [|url piece rest pieces (seg & keep & t & file & Hs & Hk & Hf & ->) HF IH];
    intros out.
  - cbn. by destruct out.
  - rewrite (read_data_cons _ _ _ _ _ _ _ _ Hs Hk).
    pose proof (fetch_file_opened url args kwargs) as Ho.
    rewrite Hf in Ho |- *.
    change (outcome (t, Ok file)) with (Ok file).
    change (trace (t, Ok file)) with t in *.
    cbv beta iota zeta. set (new := crop file _ _).
    destruct (IH (Some match out with None => copy new | Some o => append o new end))
      as [IH1 IH2].
    split.
    + rewrite outcome_pair, IH1. by destruct out.
    + by rewrite trace_pair, opened_print, opened_app, Ho, IH2.
Qed.

(** A file that cannot be read ends the loop. *)
Lemma read_data_abort url rest span args kwargs out seg keep e :
  file_segment url = Ok seg -> segment_and seg span = Ok keep ->
  outcome (_fetch_losc_data_file url args kwargs) = Raise e ->
  outcome (read_data (url :: rest) span args kwargs out) = Raise e
  /\ opened (trace (read_data (url :: rest) span args kwargs out)) = [url].
Proof.
  intros Hs Hk Hf. rewrite (read_data_cons _ _ _ _ _ _ _ _ Hs Hk), Hf.
  split; [done|]. rewrite trace_pair, opened_print.
  apply fetch_file_opened.
Qed.

End Assembler.

(** ** The request *)

Section Request.

Context `{Ext : Externals}.

(** Keys that are not taken out stay as they were. *)
Lemma pop_keys_other keys (kwargs : gmap string PyVal) k :
  k ∉ keys -> (pop_keys keys kwargs).2 !! k = kwargs !! k.
Proof.
  revert kwargs; induction keys as [|key keys IH]; intros kwargs Hk; [done|].
  apply not_elem_of_cons in Hk as [Hne Hk]. cbn [pop_keys].
  destruct (kwargs !! key) as [v|] eqn:Hv.
  - specialize (IH (delete key kwargs) Hk).
    destruct (pop_keys keys (delete key kwargs)) as [o kw]. cbn [snd] in *.
    rewrite IH. by apply lookup_delete_ne.
  - by apply IH.
Qed.

Lemma split_kwargs_other s e (kwargs : gmap string PyVal) k :
  k ∉ ["sample_rate"; "tag"; "version"; "host"; "format"] ->
  k <> "start" -> k <> "end" ->
  (split_kwargs s e kwargs).2 !! k = kwargs !! k.
Proof.
  intros Hk H1 H2. unfold split_kwargs. rewrite pop_keys_other by done.
  by rewrite !lookup_insert_ne.
Qed.

Lemma split_kwargs_verbose s e (kwargs : gmap string PyVal) :
  (split_kwargs s e kwargs).2 !! "verbose" = kwargs !! "verbose".
Proof. apply split_kwargs_other; [by apply (bool_decide_unpack _)|done..]. Qed.

Lemma split_kwargs_channel s e (kwargs : gmap string PyVal) :
  (split_kwargs s e kwargs).2 !! "channel" = kwargs !! "channel".
Proof. apply split_kwargs_other; [by apply (bool_decide_unpack _)|done..]. Qed.

(** The call, once the locator has answered. *)
Lemma fetch_losc_data_eq detector start end_ cls kwargs s e url_kw cache0 :
  to_gps start = Ok s -> to_gps end_ = Ok e ->
  format_sample_rate (split_kwargs s e kwargs).1 = Ok url_kw ->
  get_urls detector (Qfloor s) (Qceiling e) url_kw = Ok cache0 ->
  fetch_losc_data detector start end_ cls kwargs =
  ((if truthy (verbose_of kwargs) then status_line cache0 s e else ret tt) ;;;
   cache <- lift (event_dataset cache0 s e) ;;
   ak <- lift (channel_args cache detector cls (split_kwargs s e kwargs).2) ;;
   read_data cache (mkSegment s e) ak.1 (<["cls" := VCls cls]> ak.2) None)%py.
Proof.
  intros Hs He Hf Hg. unfold fetch_losc_data.
  rewrite Hs. cbn [bind lift]. rewrite He. cbn [bind lift].
  fold (split_kwargs s e kwargs).
  pose proof (split_kwargs_verbose s e kwargs) as Hv.
  destruct (split_kwargs s e kwargs) as [ukw kw]. cbn [fst snd] in *.
  rewrite Hf. cbn [bind lift]. rewrite Hg. cbn [bind lift].
  unfold verbose_of. rewrite <-Hv.
  rewrite ?app_nil_l.
  destruct (if truthy _ then _ else _) as [t [[]|x]]; cbn [bind]; [|done].
  destruct (event_dataset cache0 s e) as [cache|x]; cbn [bind lift]; [|done].
  destruct (channel_args cache detector cls kw) as [[args kw']|x]; cbn [bind lift]; [|done].
  cbn [fst snd]. by destruct (read_data cache _ _ _ _).
Qed.

(** The status line of a verbose call cannot be built. *)
Lemma status_line_raises url0 rest s e :
  exists exc, status_line (url0 :: rest) s e = ([], Raise exc)
    /\ (forall host, urlparse_netloc url0 = Ok host ->
        exc = ValueError "Unknown conversion specifier d").
Proof.
  unfold status_line. cbn [index lookup list_lookup bind lift].
  destruct (urlparse_netloc url0) as [host|x]; cbn [bind lift].
  - eexists; split; [reflexivity|]. by intros ? [= <-].
  - eexists; split; [reflexivity|]. by intros ? [=].
Qed.

(** The scan stops at the first file that covers the request. *)
Lemma pick_covering_first pre url post s e seg :
  Forall (fun v => exists sg, file_segment v = Ok sg /\ covers sg s e = false) pre ->
  file_segment url = Ok seg -> covers seg s e = true ->
  pick_covering (pre ++ url :: post) s e = Ok (Some url).
Proof.
  intros Hpre Hs Hc. induction Hpre as [|v pre (sg & Hv & Hn) _ IH]; cbn.
  - by rewrite Hs; cbn; rewrite Hc.
  - rewrite Hv. cbn. by rewrite Hn.
Qed.

Lemma channel_args_eq url0 rest detector cls (kwargs : gmap string PyVal) :
  kwargs !! "channel" = None ->
  channel_args (url0 :: rest) detector cls kwargs =
  Ok (if PyStr.endswith url0 ".gwf" then [VStr (losc_channel detector cls)] else [],
      kwargs).
Proof.
  intros Hc. unfold channel_args, losc_channel.
  destruct (PyStr.endswith url0 ".gwf"); [|done].
  rewrite Hc. by destruct (bool_decide (cls = StateVector)).
Qed.

(** Whatever the request, the files opened are the first ones of the
    list that the choice among event files leaves. *)
Lemma fetch_opened_prefix detector start end_ cls kwargs s e url_kw cache0 cache :
  to_gps start = Ok s -> to_gps end_ = Ok e ->
  format_sample_rate (split_kwargs s e kwargs).1 = Ok url_kw ->
  get_urls detector (Qfloor s) (Qceiling e) url_kw = Ok cache0 ->
  event_dataset cache0 s e = Ok cache ->
  opened (trace (fetch_losc_data detector start end_ cls kwargs)) `prefix_of` cache.
Proof.
  intros Hs He Hf Hg Hev.
  rewrite (fetch_losc_data_eq _ _ _ _ _ _ _ _ _ Hs He Hf Hg), Hev.
  assert (exists t r, (if truthy (verbose_of kwargs)
                             then status_line cache0 s e else ret tt) = (t, r)
                            /\ opened t = []) as (t & r & Hst & Ht).
  { destruct (truthy _); [|by eexists _, _].
    unfold status_line, index, print, emit, lift.
    destruct (cache0 !! 0%nat); cbn [bind]; [|by eexists _, _].
    destruct (urlparse_netloc _); cbn [bind]; [|by eexists _, _].
    destruct (PyFmt.format _ _); cbn [bind]; by eexists _, _. }
  rewrite Hst. clear Hst.
  destruct r as [[]|x]; cbn [bind lift].
  2:{ rewrite trace_pair, Ht. apply prefix_nil. }
  destruct (channel_args _ _ _ _) as [[args kw]|x]; cbn [bind lift fst snd].
  - destruct (read_data cache _ _ _ _) as [t' r'] eqn:Hr.
    rewrite ?app_nil_l, trace_pair, opened_app, Ht, app_nil_l.
    change t' with (trace (t', r')). rewrite <-Hr. apply read_data_opened_prefix.
  - rewrite ?app_nil_r, trace_pair, Ht. apply prefix_nil.
Qed.

End Request.

(** ** The readers *)

Section Readers.

Context `{Ext : Externals}.

(** C10. For every input, the series that [read_losc_hdf5_state] returns
    is named ['Data quality'], whatever the path; [read_losc_hdf5] names
    its series after the last component of the path. *)
Theorem state_vector_name_is_fixed (f : Container) path start end_ copy_ sv :
  read_losc_hdf5_state f path start end_ copy_ = Ok sv ->
  series_name sv = "Data quality"
  /\ (forall (h5f : Container) dir base start' end' copy' ts,
        PyStr.has_char "/" base = false ->
        read_losc_hdf5 h5f (dir +:+ String "/" base) start' end' copy' = Ok ts ->
        series_name ts = base).
Proof.
  intros Hsv. split.
  - by eapply read_losc_hdf5_state_name.
  - intros h5f dir base start' end' copy' ts Hb Hts. by eapply read_losc_hdf5_name.
Qed.

Lemma KeyError_isinstance msg : exc_isinstance (KeyError msg) "KeyError" = true.
Proof. reflexivity. Qed.

(** C6. [read_losc_hdf5_state] fails when the dataset [<path>/DQmask] is
    missing.  When both datasets are there and the descriptions decode:
    without [Xstart] it fails; without [Xspacing] it returns a series
    sampled every second; with [Xspacing] it fails when [Xunits] is
    missing or is not a unit, and when the spacing is not a number; and a
    start that is not a time makes it fail. *)
Theorem read_losc_hdf5_state_failures (f : Container) path start end_ copy_ :
  (f !! (path +:+ "/DQmask") = None ->
   exists msg, read_losc_hdf5_state f path start end_ copy_ = Raise (KeyError msg))
  /\
  (forall dataset maskset raw bits,
     f !! (path +:+ "/DQmask") = Some dataset ->
     f !! (path +:+ "/DQDescriptions") = Some maskset ->
     byte_strings (ds_value maskset) = Ok raw ->
     map_result Utf8.decode raw = Ok bits ->
     (ds_attrs dataset !! "Xstart" = None ->
      exists msg, read_losc_hdf5_state f path start end_ copy_ = Raise (KeyError msg))
     /\
     (forall epoch,
        ds_attrs dataset !! "Xstart" = Some epoch ->
        (ds_attrs dataset !! "Xspacing" = None ->
         (forall data x0,
            samples (ds_value dataset) = Ok data -> to_gps epoch = Ok x0 ->
            read_losc_hdf5_state f path start end_ copy_
            = Ok (crop (mkSeries StateVector data x0 (mkQuantity 1 "s") ""
                                 "Data quality" (bits_of_list bits)) start end_))
         /\
         (forall data x,
            samples (ds_value dataset) = Ok data -> to_gps epoch = Raise x ->
            read_losc_hdf5_state f path start end_ copy_ = Raise x))
        /\
        (forall xs,
           ds_attrs dataset !! "Xspacing" = Some xs ->
           (ds_attrs dataset !! "Xunits" = None ->
            exists msg, read_losc_hdf5_state f path start end_ copy_ = Raise (KeyError msg))
           /\
           (forall xu x,
              ds_attrs dataset !! "Xunits" = Some xu -> parse_unit xu = Raise x ->
              read_losc_hdf5_state f path start end_ copy_ = Raise x)
           /\
           (forall xu xunit x,
              ds_attrs dataset !! "Xunits" = Some xu -> parse_unit xu = Ok xunit ->
              quantity_value xs = Raise x ->
              read_losc_hdf5_state f path start end_ copy_ = Raise x)))).
Proof.
  split.
  - intros Hm. unfold read_losc_hdf5_state, find_dataset. rewrite Hm. by eexists.
  - intros dataset maskset raw bits Hd Hm Hraw Hbits.
    unfold read_losc_hdf5_state, find_dataset, attr, mk_quantity, new_StateVector.
    rewrite Hd, Hm. cbn [rbind]. rewrite Hraw. cbn [rbind]. rewrite Hbits. cbn [rbind].
    split.
    + intros Hx. rewrite Hx. by eexists.
    + intros epoch Hx. rewrite Hx. cbn [rbind]. split.
      * intros Hsp. rewrite Hsp. cbn [try_else existsb].
        rewrite KeyError_isinstance. cbn [orb rbind]. split.
        -- intros data x0 Hs Hg. rewrite Hs. cbn [rbind]. by rewrite Hg.
        -- intros data x Hs Hg. rewrite Hs. cbn [rbind]. by rewrite Hg.
      * intros xs Hsp. rewrite Hsp. cbn [try_else].
        split; [|split].
        -- intros Hu. rewrite Hu. by eexists.
        -- intros xu x Hu Hp. rewrite Hu. cbn [rbind]. by rewrite Hp.
        -- intros xu xunit x Hu Hp Hq.
           rewrite Hu. cbn [rbind]. rewrite Hp. cbn [rbind]. by rewrite Hq.
Qed.

End Readers.

(** C5. The reader of plain series given the path of a dataset outside any
    group: the dataset [Strain] is found and has its four attributes, and
    the call ends in an [IndexError] where the name of the series is taken
    from the path. *)
Theorem read_losc_hdf5_root_dataset :
  read_losc_hdf5 (Ext := Examples.lenient []) Examples.root_file "Strain" None None false
  = Raise (IndexError "list index out of range").
Proof. vm_compute. reflexivity. Qed.

(** The same dataset inside a group is read. *)
Lemma read_losc_hdf5_group_dataset :
  read_losc_hdf5 (Ext := Examples.lenient []) Examples.strain_container "strain/Strain"
    None None false
  = Ok (mkSeries TimeSeries [1; 2; 3; 4]%Q 1000000000 (mkQuantity (/ / (4 * 1)) "s")
                 "strain" "Strain" ∅).
Proof. vm_compute. reflexivity. Qed.

Lemma state_vector_name_is_fixed_witness :
  series_name (crop (mkSeries StateVector [3; 1; 0; 3]%Q 1000000000 (mkQuantity 1 "s") ""
                 "Data quality"
                 (bits_of_list ["NO_CBC_HW_INJ"; "NO_BURST_HW_INJ"])) None None)
    = "Data quality"
  /\ series_name (mkSeries TimeSeries [1; 2; 3; 4]%Q 1000000000
                    (mkQuantity (/ / (4 * 1)) "s") "strain" "Strain" ∅) = "Strain".
Proof.
  edestruct (state_vector_name_is_fixed (Ext := Examples.lenient [])
               Examples.quality "quality/simple" None None false) as [Hsv Hts].
  - vm_compute. reflexivity.
  - split; [exact Hsv|].
    apply (Hts Examples.strain_container "strain" "Strain" None None false).
    + reflexivity.
    + vm_compute. reflexivity.
Defined.

Lemma read_losc_hdf5_state_failures_witness :
  (exists msg, read_losc_hdf5_state (Ext := Examples.lenient []) ∅ "quality/simple"
                 None None false = Raise (KeyError msg))
  /\ read_losc_hdf5_state (Ext := Examples.lenient []) Examples.quality "quality/simple"
       None None false
     = Ok (crop (mkSeries StateVector [3; 1; 0; 3]%Q (inject_Z 1000000000)
                   (mkQuantity 1 "s") "" "Data quality"
                   (bits_of_list ["NO_CBC_HW_INJ"; "NO_BURST_HW_INJ"])) None None)
  /\ (exists msg, read_losc_hdf5_state (Ext := Examples.lenient []) Examples.quality_no_start
                    "quality/simple" None None false = Raise (KeyError msg))
  /\ (exists msg, read_losc_hdf5_state (Ext := Examples.lenient []) Examples.quality_no_units
                    "quality/simple" None None false = Raise (KeyError msg))
  /\ read_losc_hdf5_state (Ext := Examples.lenient []) Examples.quality_bad_units
       "quality/simple" None None false = Raise (TypeError "not a unit").
Proof.
  split; [|split; [|split; [|split]]].
  - apply (read_losc_hdf5_state_failures (Ext := Examples.lenient []) ∅ "quality/simple"
             None None false).
    reflexivity.
  - edestruct (read_losc_hdf5_state_failures (Ext := Examples.lenient []) Examples.quality
                 "quality/simple" None None false) as [_ H].
    edestruct H as [_ H']; [reflexivity..|].
    edestruct H' as [[Hok _] _]; [reflexivity..|].
    apply Hok; reflexivity.
  - edestruct (read_losc_hdf5_state_failures (Ext := Examples.lenient [])
                 Examples.quality_no_start "quality/simple" None None false) as [_ H].
    edestruct H as [Hno _]; [reflexivity..|].
    apply Hno; reflexivity.
  - edestruct (read_losc_hdf5_state_failures (Ext := Examples.lenient [])
                 Examples.quality_no_units "quality/simple" None None false) as [_ H].
    edestruct H as [_ H']; [reflexivity..|].
    edestruct H' as [_ Hsp]; [reflexivity..|].
    edestruct Hsp as [Hno _]; [reflexivity..|].
    apply Hno; reflexivity.
  - edestruct (read_losc_hdf5_state_failures (Ext := Examples.lenient [])
                 Examples.quality_bad_units "quality/simple" None None false) as [_ H].
    edestruct H as [_ H']; [reflexivity..|].
    edestruct H' as [_ Hsp]; [reflexivity..|].
    edestruct Hsp as [_ [Hbad _]]; [reflexivity..|].
    eapply Hbad; reflexivity.
Defined.

(** ** Claims about the single-file fetch *)

Section FetchFileClaims.

Context `{Ext : Externals}.

Lemma setdefault_lookup key v (kwargs : gmap string PyVal) :
  setdefault key v kwargs !! key = Some (default v (kwargs !! key)).
Proof.
  unfold setdefault. destruct (kwargs !! key) eqn:H; cbn.
  - done.
  - by rewrite lookup_insert_eq.
Qed.

Lemma match_format_lookup e (kwargs : gmap string PyVal) :
  match_format (String "." e) kwargs !! "format"
  = match kwargs !! "format" with
    | Some f => Some f
    | None => format_of_ext e
    end.
Proof.
  unfold match_format, format_of_ext.
  change (String.eqb (String "." e) ".hdf5") with (String.eqb e "hdf5").
  change (String.eqb (String "." e) ".txt") with (String.eqb e "txt").
  change (String.eqb (String "." e) ".gwf") with (String.eqb e "gwf").
  destruct (String.eqb e "hdf5"); [|destruct (String.eqb e "txt");
                                     [|destruct (String.eqb e "gwf")]];
    rewrite ?setdefault_lookup; by destruct (kwargs !! "format").
Qed.

Lemma reader_kwargs_format url (kwargs : gmap string PyVal) e :
  url_ext url = String "." e ->
  reader_kwargs url kwargs !! "format"
  = match kwargs !! "format" with
    | Some f => Some f
    | None => format_of_ext e
    end.
Proof.
  intros He. unfold reader_kwargs. rewrite He, match_format_lookup.
  by rewrite !lookup_delete_ne.
Qed.

(** The single-file fetch ends as the call of [cls.read] makes it end. *)
Lemma fetch_file_outcome url args kwargs rem :
  get_readable_fileobj url (use_cache kwargs) (truthy (verbose_of kwargs)) = Ok rem ->
  outcome (_fetch_losc_data_file url args kwargs)
  = fetched url (read_as (cls_of kwargs) rem args (reader_kwargs url kwargs)).
Proof.
  intros Hrem. rewrite fetch_file_eq. cbv zeta. rewrite Hrem. unfold fetched.
  destruct (read_as _ rem args _) as [series|exc]; [done|].
  by destruct (exc_isinstance exc "Exception").
Qed.

(** Under the format that [.hdf5] selects, the reader that this module
    registers is called, with the other keywords. *)
Lemma cls_read_registered cls rem args (kwargs : gmap string PyVal) :
  kwargs !! "format" = None ->
  cls_read cls rem args (setdefault "format" (VStr "hdf5.losc") kwargs)
  = call_reader cls rem args kwargs.
Proof.
  intros Hf. unfold setdefault, cls_read. rewrite Hf, lookup_insert_eq.
  by rewrite delete_insert_eq, delete_id.
Qed.

Lemma cls_read_unnamed cls rem args (kwargs : gmap string PyVal) :
  kwargs !! "format" = None ->
  cls_read cls rem args kwargs = registry_read cls rem args kwargs.
Proof. intros Hf. unfold cls_read. by rewrite Hf. Qed.

(** C8. The single-file fetch chooses the reader from the extension of
    the URL, one [.gz] at its end set aside: for a URL [<stem>.<e>] or
    [<stem>.<e>.gz] that can be opened, the fetch ends as the reader
    chosen for [.<e>] makes it end.  A format that the caller names is
    kept, and [cls.read] is called with it.  When the caller names none:
    for [hdf5] the reader that this module registers for the target class
    is called ([read_losc_hdf5] for a [TimeSeries], [read_losc_hdf5_state]
    for a [StateVector]); for [txt] and for [gwf] [cls.read] is called
    with the format ['ascii.losc'] and ['gwf']; for any other extension
    (so for [<stem>.hdf5.gz.gz], whose [e] is [gz]) it is called with no
    format. *)
Theorem format_follows_extension url stem e args (kwargs : gmap string PyVal) rem cls :
  named stem -> PyStr.has_char "." e = false -> PyStr.has_char "/" e = false ->
  (url = stem +:+ String "." e /\ e <> "gz") \/ url = stem +:+ String "." e +:+ ".gz" ->
  get_readable_fileobj url (use_cache kwargs) (truthy (verbose_of kwargs)) = Ok rem ->
  cls_of kwargs = VCls cls ->
  let others := delete "verbose" (delete "cache" (delete "cls" kwargs)) in
  (forall f,
     kwargs !! "format" = Some f ->
     others !! "format" = Some f
     /\ outcome (_fetch_losc_data_file url args kwargs)
        = fetched url (cls_read cls rem args others))
  /\ (kwargs !! "format" = None ->
      (e = "hdf5" ->
       outcome (_fetch_losc_data_file url args kwargs)
       = fetched url (call_reader cls rem args others))
      /\ (e = "hdf5" -> args = [] -> others = ∅ ->
          forall h5f, open_hdf5 rem = Ok h5f ->
          outcome (_fetch_losc_data_file url args kwargs)
          = fetched url
              match cls with
              | TimeSeries => read_losc_hdf5 h5f "strain/Strain" None None false
              | StateVector => read_losc_hdf5_state h5f "quality/simple" None None false
              end)
      /\ (e = "txt" ->
          outcome (_fetch_losc_data_file url args kwargs)
          = fetched url
              (registry_read cls rem args (<["format" := VStr "ascii.losc"]> others)))
      /\ (e = "gwf" ->
          outcome (_fetch_losc_data_file url args kwargs)
          = fetched url (registry_read cls rem args (<["format" := VStr "gwf"]> others)))
      /\ (e <> "hdf5" -> e <> "txt" -> e <> "gwf" ->
          outcome (_fetch_losc_data_file url args kwargs)
          = fetched url (registry_read cls rem args others))).
Proof.
  intros Hn He1 He2 Hurl Hrem Hcls others.
  assert (Hext : url_ext url = String "." e).
  { destruct Hurl as [[-> Hgz]| ->].
    - by apply url_ext_plain.
    - by apply url_ext_gz. }
  assert (Hout : outcome (_fetch_losc_data_file url args kwargs)
                 = fetched url (cls_read cls rem args (match_format (String "." e) others))).
  { rewrite (fetch_file_outcome _ _ _ _ Hrem), Hcls. unfold reader_kwargs.
    by rewrite Hext. }
  assert (Hoth : others !! "format" = kwargs !! "format").
  { unfold others. by rewrite !lookup_delete_ne. }
  split.
  - intros f Hf. rewrite Hf in Hoth. split; [done|].
    rewrite Hout. f_equal. f_equal. unfold match_format, setdefault. rewrite Hoth.
    by repeat (destruct (String.eqb _ _); [done|]).
  - intros Hf. rewrite Hf in Hoth. split; [|split; [|split; [|split]]].
    + intros ->. rewrite Hout.
      change (match_format ".hdf5" others) with (setdefault "format" (VStr "hdf5.losc") others).
      by rewrite cls_read_registered.
    + intros -> -> Hempty h5f Ho. rewrite Hout.
      change (match_format ".hdf5" others) with (setdefault "format" (VStr "hdf5.losc") others).
      rewrite cls_read_registered by done. rewrite Hempty.
      unfold call_reader. rewrite Ho. by destruct cls.
    + intros ->. rewrite Hout.
      change (match_format ".txt" others) with (setdefault "format" (VStr "ascii.losc") others).
      unfold setdefault. rewrite Hoth. unfold cls_read. by rewrite lookup_insert_eq.
    + intros ->. rewrite Hout.
      change (match_format ".gwf" others) with (setdefault "format" (VStr "gwf") others).
      unfold setdefault. rewrite Hoth. unfold cls_read. by rewrite lookup_insert_eq.
    + intros H1 H2 H3. rewrite Hout. unfold match_format.
      change (String.eqb (String "." e) ".hdf5") with (String.eqb e "hdf5").
      change (String.eqb (String "." e) ".txt") with (String.eqb e "txt").
      change (String.eqb (String "." e) ".gwf") with (String.eqb e "gwf").
      apply String.eqb_neq in H1, H2, H3. rewrite H1, H2, H3.
      by rewrite cls_read_unnamed.
Qed.

Lemma split_go_nonempty cur s bit :
  bit ∈ PyStr.split_go cur s -> cur = None -> s <> "".
Proof. intros Hin -> ->. cbn in Hin. by apply elem_of_nil in Hin. Qed.

(** C3 (amended). When the reader of a [.gwf] file returns a state vector
    and one token of its unit string has no colon, or no integer before
    its first colon, the single-file fetch does not raise and discards
    what it had parsed: it returns the series as the reader gave it, bits
    untouched and unit still the raw string, which is not dimensionless. *)
Theorem bad_unit_token_leaves_series url args kwargs rem series bit :
  get_readable_fileobj url (use_cache kwargs) (truthy (verbose_of kwargs)) = Ok rem ->
  read_as (cls_of kwargs) rem args (reader_kwargs url kwargs) = Ok series ->
  url_ext url = ".gwf" -> is_StateVector series = true ->
  bit ∈ PyStr.split (series_unit series) -> bad_token bit ->
  outcome (_fetch_losc_data_file url args kwargs) = Ok series
  /\ series_unit series <> "".
Proof.
  intros Hrem Hread Hext Hsv Hin Hbad. split.
  - rewrite fetch_file_eq. cbv zeta. rewrite Hrem, Hread.
    rewrite outcome_pair. unfold unit_bits. rewrite Hext, Hsv. cbn [String.eqb andb].
    change (String.eqb ".gwf" ".gwf") with true. cbn [andb].
    destruct (parse_bits_bad_token _ ∅ _ Hin Hbad) as [e ->]. done.
  - by eapply split_go_nonempty.
Qed.

(** C4 (amended). When the reader of a file fails with an exception [exc]
    (an [Exception]), the single-file fetch raises an exception of the
    same class whose only argument is
    ["Failed to read LOSC data from <repr(url)>: <str(exc)>"]; the file
    was opened once and is released; and the loop over the files stops
    there: no file after this one is opened. *)
Theorem read_failure_is_reraised url args kwargs rem exc :
  get_readable_fileobj url (use_cache kwargs) (truthy (verbose_of kwargs)) = Ok rem ->
  read_as (cls_of kwargs) rem args (reader_kwargs url kwargs) = Raise exc ->
  exc_isinstance exc "Exception" = true ->
  _fetch_losc_data_file url args kwargs
  = (EvOpen url (use_cache kwargs) (truthy (verbose_of kwargs))
       :: reading_prints (verbose_of kwargs) false ++ [EvClose url],
     Raise (mkExc (exc_mro exc) [failure_message url exc]))
  /\ exc_class (mkExc (exc_mro exc) [failure_message url exc]) = exc_class exc
  /\ opened (trace (_fetch_losc_data_file url args kwargs)) = [url]
  /\ (forall rest span out seg keep,
        file_segment url = Ok seg -> segment_and seg span = Ok keep ->
        outcome (read_data (url :: rest) span args kwargs out)
        = Raise (mkExc (exc_mro exc) [failure_message url exc])
        /\ opened (trace (read_data (url :: rest) span args kwargs out)) = [url]).
Proof.
  intros Hrem Hread Hexc.
  assert (Heq : _fetch_losc_data_file url args kwargs
    = (EvOpen url (use_cache kwargs) (truthy (verbose_of kwargs))
         :: reading_prints (verbose_of kwargs) false ++ [EvClose url],
       Raise (mkExc (exc_mro exc) [failure_message url exc]))).
  { rewrite fetch_file_eq. cbv zeta. by rewrite Hrem, Hread, Hexc. }
  split; [done|]. split; [done|]. split; [apply fetch_file_opened|].
  intros rest span out seg keep Hs Hk.
  apply (read_data_abort _ _ _ _ _ _ _ _ _ Hs Hk). by rewrite Heq.
Qed.

End FetchFileClaims.

Lemma named_snoc a c : c <> "."%char -> c <> "/"%char -> named (a +:+ String c "").
Proof. intros H1 H2. by exists a, c, "". Qed.

Lemma format_follows_extension_witness :
  outcome (_fetch_losc_data_file (Ext := Examples.lenient []) Examples.u1 [] ∅)
  = fetched Examples.u1
      (read_losc_hdf5 (Ext := Examples.lenient [])
         {[ "strain/Strain" :=
              mkDataset (NumArray [1; 2; 3; 4]%Q)
                (<["Xunits" := VStr "second"]> (<["Xstart" := VInt 1000000000]>
                 (<["Xspacing" := VNum 4]> (<["Yunits" := VStr "strain"]> ∅)))) ]}
         "strain/Strain" None None false)
  /\ outcome (_fetch_losc_data_file (Ext := Examples.lenient []) Examples.gwf []
                {[ "cls" := VCls StateVector ]})
     = fetched Examples.gwf
         (registry_read (Externals := Examples.lenient []) StateVector
            (Archive.Frame Examples.raw_state) [] {[ "format" := VStr "gwf" ]}).
Proof.
  split.
  - edestruct (format_follows_extension (Ext := Examples.lenient []) Examples.u1
      "https://losc.ligo.org/archive/data/S6/999292928/H-H1_LOSC_4_V1-1000000000-16"
      "hdf5" [] ∅) as [_ H].
    + by apply (named_snoc
        "https://losc.ligo.org/archive/data/S6/999292928/H-H1_LOSC_4_V1-1000000000-1" "6").
    + reflexivity.
    + reflexivity.
    + left. split; [reflexivity|discriminate].
    + reflexivity.
    + reflexivity.
    + destruct H as (_ & Hreg & _); [reflexivity|]. by apply Hreg.
  - edestruct (format_follows_extension (Ext := Examples.lenient []) Examples.gwf
      "https://losc.ligo.org/archive/data/S6/999292928/H-H1_LOSC_4_V1-1000000000-16"
      "gwf" [] {[ "cls" := VCls StateVector ]}) as [_ H].
    + by apply (named_snoc
        "https://losc.ligo.org/archive/data/S6/999292928/H-H1_LOSC_4_V1-1000000000-1" "6").
    + reflexivity.
    + reflexivity.
    + left. split; [reflexivity|discriminate].
    + reflexivity.
    + reflexivity.
    + destruct H as (_ & _ & _ & Hgwf & _); [reflexivity|]. by apply Hgwf.
Defined.

Lemma bad_unit_token_leaves_series_witness :
  outcome (_fetch_losc_data_file (Ext := Examples.lenient [Examples.gwf]) Examples.gwf []
             {[ "cls" := VCls StateVector ]}) = Ok Examples.raw_state
  /\ series_unit Examples.raw_state <> "".
Proof.
  eapply (bad_unit_token_leaves_series (Ext := Examples.lenient [Examples.gwf])
            Examples.gwf [] {[ "cls" := VCls StateVector ]} _ Examples.raw_state "oops").
  - reflexivity.
  - reflexivity.
  - reflexivity.
  - reflexivity.
  - vm_compute. apply list_elem_of_further, list_elem_of_here.
  - exact I.
Defined.

(** C3, as stated, fails: the state vector of [gwf] comes back with the
    unit and the bits the reader gave it; the unit is not made
    dimensionless and the bits are not emptied. *)
Lemma bad_unit_token_keeps_unit :
  outcome (_fetch_losc_data_file (Ext := Examples.lenient [Examples.gwf]) Examples.gwf []
             {[ "cls" := VCls StateVector ]})
  = Ok (mkSeries StateVector [3; 1; 0; 3]%Q (inject_Z 1000000000) (mkQuantity 1 "s")
          "0:DATA oops" "H1:LOSC-DQMASK" {[ 0 := "Bit 0" ]})
  /\ "0:DATA oops" <> ""
  /\ ({[ 0 := "Bit 0" ]} : gmap Z string) !! 0 = Some "Bit 0".
Proof. split; [vm_compute; reflexivity|]. split; [discriminate|reflexivity]. Qed.

Lemma read_failure_is_reraised_witness :
  outcome (_fetch_losc_data_file (Ext := Examples.lenient [Examples.broken])
             Examples.broken [] ∅)
  = Raise (mkExc ["OSError"; "Exception"; "BaseException"]
             [failure_message Examples.broken
                (mkExc ["OSError"; "Exception"; "BaseException"]
                       ["Unable to open file (file signature not found)"])])
  /\ opened (trace (_fetch_losc_data_file (Ext := Examples.lenient [Examples.broken])
                      Examples.broken [] ∅)) = [Examples.broken].
Proof.
  edestruct (read_failure_is_reraised (Ext := Examples.lenient [Examples.broken])
               Examples.broken [] ∅) as (Heq & _ & Hop & _).
  - reflexivity.
  - reflexivity.
  - reflexivity.
  - split; [|exact Hop]. rewrite Heq. reflexivity.
Defined.

(** C4, as stated, fails: the message starts with
    "Failed to read LOSC data from " and quotes the URL as [repr] does; it
    does not start with "Failed to read data from ". *)
Lemma failure_message_has_other_words :
  outcome (_fetch_losc_data_file (Ext := Examples.lenient [Examples.broken])
             Examples.broken [] ∅)
  = Raise (mkExc ["OSError"; "Exception"; "BaseException"]
      ["Failed to read LOSC data from 'https://losc.ligo.org/archive/data/S6/999292928/H-H1_LOSC_4_V1-1000000032-16.hdf5': Unable to open file (file signature not found)"])
  /\ PyStr.startswith
       "Failed to read LOSC data from 'https://losc.ligo.org/archive/data/S6/999292928/H-H1_LOSC_4_V1-1000000032-16.hdf5': Unable to open file (file signature not found)"
       "Failed to read data from " = false.
Proof. split; vm_compute; reflexivity. Qed.

(** ** Claims about the assembler *)

Section AssemblerClaims.

Context `{Ext : Externals}.

Lemma channel_args_ok cache detector cls (kwargs : gmap string PyVal) :
  exists ak, channel_args cache detector cls kwargs = Ok ak.
Proof.
  unfold channel_args. destruct cache as [|url0 rest]; [by eexists|].
  destruct (PyStr.endswith url0 ".gwf"); [|by eexists].
  destruct (kwargs !! "channel"); [by eexists|].
  destruct (bool_decide (cls = StateVector)); by eexists.
Qed.

Lemma read_data_single_opened url span args kwargs out seg keep :
  file_segment url = Ok seg -> segment_and seg span = Ok keep ->
  opened (trace (read_data [url] span args kwargs out)) = [url].
Proof.
  intros Hs Hk. rewrite (read_data_cons _ _ _ _ _ _ _ _ Hs Hk).
  pose proof (fetch_file_opened url args kwargs) as Ho.
  destruct (outcome (_fetch_losc_data_file url args kwargs)).
  - cbv zeta. rewrite trace_pair, opened_print, opened_app, Ho. done.
  - by rewrite trace_pair, opened_print.
Qed.

Lemma fold_append_value ps p :
  series_value (fold_left append ps p)
  = series_value p ++ concat (series_value <$> ps).
Proof.
  revert p; induction ps as [|q ps IH]; intros p; cbn.
  - by rewrite app_nil_r.
  - rewrite IH. cbn. by rewrite <-app_assoc.
Qed.

Lemma assemble_value pieces out :
  assemble pieces = Some out -> series_value out = concat (series_value <$> pieces).
Proof.
  destruct pieces as [|p ps]; [done|]. intros [= <-].
  apply fold_append_value.
Qed.

Lemma match_format_other ext (kwargs : gmap string PyVal) k :
  k <> "format" -> match_format ext kwargs !! k = kwargs !! k.
Proof.
  intros Hk. unfold match_format, setdefault.
  repeat (destruct (String.eqb ext _); [destruct (kwargs !! "format"); [done|];
                                         by rewrite lookup_insert_ne|]).
  done.
Qed.

(** C9. A call with a true [verbose], once the locator has returned at
    least one URL, ends with an exception before any file is opened and
    before anything is printed; when [urlparse] returns, the exception is
    the [ValueError] that [str.format] raises for the conversion [!d] of
    the status line. *)
Theorem verbose_call_raises detector start end_ cls kwargs s e url_kw url0 rest :
  to_gps start = Ok s -> to_gps end_ = Ok e ->
  format_sample_rate (split_kwargs s e kwargs).1 = Ok url_kw ->
  get_urls detector (Qfloor s) (Qceiling e) url_kw = Ok (url0 :: rest) ->
  truthy (verbose_of kwargs) = true ->
  exists exc,
    fetch_losc_data detector start end_ cls kwargs = ([], Raise exc)
    /\ (forall host, urlparse_netloc url0 = Ok host ->
        exc = ValueError "Unknown conversion specifier d")
    /\ (forall a0 a1 a2 a3,
        PyFmt.format "Fetched {0!d} URLs from {1} for [{2!d} .. {3!d})" [a0; a1; a2; a3]
        = Raise (ValueError "Unknown conversion specifier d")).
Proof.
  intros Hs He Hf Hg Hv.
  rewrite (fetch_losc_data_eq _ _ _ _ _ _ _ _ _ Hs He Hf Hg), Hv.
  destruct (status_line_raises url0 rest s e) as (exc & -> & Hexc).
  exists exc. split; [done|]. split; [done|]. reflexivity.
Qed.

Lemma read_piece_is_piece span args kwargs url piece :
  read_piece span args kwargs url piece -> piece_of span args kwargs url piece.
Proof.
  intros (seg & keep & rem & series & Hs & Hk & Hrem & Hread & ->).
  exists seg, keep. eexists _, (unit_bits url series).
  split; [done|]. split; [done|]. split; [|done].
  rewrite fetch_file_eq. cbv zeta. by rewrite Hrem, Hread.
Qed.

(** When the reader of every file returns, the call returns what the
    pieces put together give. *)
Lemma fetch_reads_pieces detector start end_ cls kwargs s e url_kw cache0 cache args kw
    pieces :
  to_gps start = Ok s -> to_gps end_ = Ok e ->
  format_sample_rate (split_kwargs s e kwargs).1 = Ok url_kw ->
  get_urls detector (Qfloor s) (Qceiling e) url_kw = Ok cache0 ->
  truthy (verbose_of kwargs) = false ->
  event_dataset cache0 s e = Ok cache ->
  channel_args cache detector cls (split_kwargs s e kwargs).2 = Ok (args, kw) ->
  Forall2 (read_piece (mkSegment s e) args (<["cls" := VCls cls]> kw)) cache pieces ->
  outcome (fetch_losc_data detector start end_ cls kwargs) = Ok (assemble pieces)
  /\ opened (trace (fetch_losc_data detector start end_ cls kwargs)) = cache.
Proof.
  intros Hs He Hf Hg Hv Hev Hch HF.
  rewrite (fetch_losc_data_eq _ _ _ _ _ _ _ _ _ Hs He Hf Hg), Hv, Hev.
  cbn [bind ret lift]. rewrite Hch. cbn [bind lift fst snd].
  assert (HF' : Forall2 (piece_of (mkSegment s e) args (<["cls" := VCls cls]> kw))
                        cache pieces).
  { eapply Forall2_impl; [exact HF|]. intros url piece. apply read_piece_is_piece. }
  destruct (read_data_all _ _ _ _ None _ HF') as [Hout Hop].
  destruct (read_data cache _ _ _ _) as [t r].
  by rewrite !app_nil_l.
Qed.

(** C7 (amended). What is passed to the readers follows the first URL
    of the list, as the choice among event files leaves it.  When it ends
    in [.gwf] and the caller gives no channel, the reader of every file
    of the list, whatever the format of that file, is called with one
    positional argument, ["<detector>:LOSC-DQMASK"] for a [StateVector]
    and ["<detector>:LOSC-STRAIN"] otherwise.  When it does not end in
    [.gwf], the readers are called with no positional argument, and a
    channel that the caller gave is among the keywords they are called
    with.  In both cases, when every reader returns, the call returns the
    pieces put together. *)
Theorem frame_channel_name detector start end_ cls kwargs s e url_kw cache0 url0 rest
    pieces :
  to_gps start = Ok s -> to_gps end_ = Ok e ->
  format_sample_rate (split_kwargs s e kwargs).1 = Ok url_kw ->
  get_urls detector (Qfloor s) (Qceiling e) url_kw = Ok cache0 ->
  truthy (verbose_of kwargs) = false ->
  event_dataset cache0 s e = Ok (url0 :: rest) ->
  let kw := <["cls" := VCls cls]> (split_kwargs s e kwargs).2 in
  (PyStr.endswith url0 ".gwf" = true -> kwargs !! "channel" = None ->
   Forall2 (read_piece (mkSegment s e) [VStr (losc_channel detector cls)] kw)
           (url0 :: rest) pieces ->
   outcome (fetch_losc_data detector start end_ cls kwargs) = Ok (assemble pieces))
  /\ (PyStr.endswith url0 ".gwf" = false ->
      (forall url, reader_kwargs url kw !! "channel" = kwargs !! "channel")
      /\ (Forall2 (read_piece (mkSegment s e) [] kw) (url0 :: rest) pieces ->
          outcome (fetch_losc_data detector start end_ cls kwargs) = Ok (assemble pieces)))
  /\ losc_channel detector StateVector = detector +:+ ":LOSC-DQMASK"
  /\ losc_channel detector TimeSeries = detector +:+ ":LOSC-STRAIN".
Proof.
  intros Hs He Hf Hg Hv Hev kw.
  split; [|split; [|done]].
  - intros Hgwf Hc HF.
    assert (Hch : channel_args (url0 :: rest) detector cls (split_kwargs s e kwargs).2
                  = Ok ([VStr (losc_channel detector cls)], (split_kwargs s e kwargs).2)).
    { rewrite channel_args_eq by (by rewrite split_kwargs_channel). by rewrite Hgwf. }
    apply (fetch_reads_pieces _ _ _ _ _ _ _ _ _ _ _ _ _ Hs He Hf Hg Hv Hev Hch HF).
  - intros Hgwf. split.
    + intros url. unfold reader_kwargs, kw. rewrite match_format_other by done.
      rewrite !lookup_delete_ne, lookup_insert_ne by done. apply split_kwargs_channel.
    + intros HF.
      assert (Hch : channel_args (url0 :: rest) detector cls (split_kwargs s e kwargs).2
                    = Ok ([], (split_kwargs s e kwargs).2)).
      { unfold channel_args. by rewrite Hgwf. }
      apply (fetch_reads_pieces _ _ _ _ _ _ _ _ _ _ _ _ _ Hs He Hf Hg Hv Hev Hch HF).
Qed.

(** C1 (amended). When the first URL of the list contains [events], the
    list is scanned in order, and the first URL whose segment covers the
    request is kept alone: no other file is opened, and that one is,
    unless the call stops before. *)
Theorem event_files_first_covering detector start end_ cls kwargs s e url_kw
    pre url post seg :
  to_gps start = Ok s -> to_gps end_ = Ok e ->
  format_sample_rate (split_kwargs s e kwargs).1 = Ok url_kw ->
  get_urls detector (Qfloor s) (Qceiling e) url_kw = Ok (pre ++ url :: post) ->
  PyStr.contains "events" (hd "" (pre ++ url :: post)) = true ->
  Forall (fun v => exists sg, file_segment v = Ok sg /\ covers sg s e = false) pre ->
  file_segment url = Ok seg -> covers seg s e = true ->
  event_dataset (pre ++ url :: post) s e = Ok [url]
  /\ opened (trace (fetch_losc_data detector start end_ cls kwargs)) `prefix_of` [url]
  /\ (forall keep,
        truthy (verbose_of kwargs) = false ->
        segment_and seg (mkSegment s e) = Ok keep ->
        opened (trace (fetch_losc_data detector start end_ cls kwargs)) = [url]).
Proof.
  intros Hs He Hf Hg Hevents Hpre Hseg Hcov.
  assert (Hev : event_dataset (pre ++ url :: post) s e = Ok [url]).
  { unfold event_dataset.
    destruct (pre ++ url :: post) as [|url0 l] eqn:Hl.
    - by destruct pre.
    - cbn [hd] in Hevents. rewrite Hevents, <-Hl.
      by rewrite (pick_covering_first _ _ _ _ _ _ Hpre Hseg Hcov). }
  split; [done|]. split.
  - by eapply fetch_opened_prefix.
  - intros keep Hv Hk.
    rewrite (fetch_losc_data_eq _ _ _ _ _ _ _ _ _ Hs He Hf Hg), Hv, Hev.
    cbn [bind ret lift].
    destruct (channel_args_ok [url] detector cls (split_kwargs s e kwargs).2)
      as [[args kw] ->].
    cbn [bind lift fst snd].
    pose proof (read_data_single_opened url (mkSegment s e) args
                  (<["cls" := VCls cls]> kw) None seg keep Hseg Hk) as Ho.
    destruct (read_data [url] _ _ _ _) as [t r]. by rewrite !app_nil_l.
Qed.

(** C2 (amended). For each URL of the list, in order, the part of the
    request that the file covers is computed and the file is read and
    cropped to it, whether that part is empty or not: no URL is passed
    over.  When every file can be read, the result is a copy of the first
    piece with the other pieces appended in the order of the list. *)
Theorem assembly_reads_every_candidate detector start end_ cls kwargs s e url_kw
    cache0 cache args kw pieces :
  to_gps start = Ok s -> to_gps end_ = Ok e ->
  format_sample_rate (split_kwargs s e kwargs).1 = Ok url_kw ->
  get_urls detector (Qfloor s) (Qceiling e) url_kw = Ok cache0 ->
  truthy (verbose_of kwargs) = false ->
  event_dataset cache0 s e = Ok cache ->
  channel_args cache detector cls (split_kwargs s e kwargs).2 = Ok (args, kw) ->
  Forall2 (piece_of (mkSegment s e) args (<["cls" := VCls cls]> kw)) cache pieces ->
  outcome (fetch_losc_data detector start end_ cls kwargs) = Ok (assemble pieces)
  /\ opened (trace (fetch_losc_data detector start end_ cls kwargs)) = cache
  /\ (forall out, assemble pieces = Some out ->
        series_value out = concat (series_value <$> pieces)).
Proof.
  intros Hs He Hf Hg Hv Hev Hch HF.
  rewrite (fetch_losc_data_eq _ _ _ _ _ _ _ _ _ Hs He Hf Hg), Hv, Hev.
  cbn [bind ret lift]. rewrite Hch. cbn [bind lift fst snd].
  destruct (read_data_all _ _ _ _ None _ HF) as [Hout Hop].
  destruct (read_data cache _ _ _ _) as [t r].
  rewrite !app_nil_l. split; [done|]. split; [done|]. apply assemble_value.
Qed.

End AssemblerClaims.

(** ** The claims on concrete requests *)

Lemma verbose_call_raises_witness :
  exists exc,
    fetch_losc_data (Ext := Examples.lenient [Examples.u1; Examples.u2]) "H1"
      (VInt 1000000004) (VInt 1000000024) TimeSeries {[ "verbose" := VBool true ]}
    = ([], Raise exc)
    /\ (forall host,
          urlparse_netloc (Externals := Examples.lenient [Examples.u1; Examples.u2])
            Examples.u1 = Ok host ->
          exc = ValueError "Unknown conversion specifier d")
    /\ (forall a0 a1 a2 a3,
        PyFmt.format "Fetched {0!d} URLs from {1} for [{2!d} .. {3!d})" [a0; a1; a2; a3]
        = Raise (ValueError "Unknown conversion specifier d")).
Proof.
  eapply (verbose_call_raises (Ext := Examples.lenient [Examples.u1; Examples.u2])).
  - reflexivity.
  - reflexivity.
  - reflexivity.
  - reflexivity.
  - reflexivity.
Defined.

Lemma frame_channel_name_witness :
  outcome (fetch_losc_data (Ext := Further.lenient [Further.gwf_ok]) "H1"
             (VInt 1000000016) (VInt 1000000032) StateVector ∅)
  = Ok (assemble
          [crop (unit_bits Further.gwf_ok Further.named_state)
             (Some 1000000016%Q) (Some 1000000032%Q)]).
Proof.
  edestruct (frame_channel_name (Ext := Further.lenient [Further.gwf_ok]) "H1"
               (VInt 1000000016) (VInt 1000000032) StateVector ∅
               1000000016 1000000032 ∅ [Further.gwf_ok] Further.gwf_ok []
               [crop (unit_bits Further.gwf_ok Further.named_state)
                  (Some 1000000016%Q) (Some 1000000032%Q)]) as [H _].
  - reflexivity.
  - reflexivity.
  - reflexivity.
  - reflexivity.
  - reflexivity.
  - reflexivity.
  - apply H; [reflexivity..|].
    constructor; [|constructor].
    eexists _, _, _, _. repeat split; reflexivity.
Defined.

(** C7, as stated, fails.  The list is a frame file followed by an HDF5
    file and the caller gives no channel: the reader of the HDF5 file is
    called with the name made for the frame file, which it takes for the
    path of its dataset, and the call fails; the same HDF5 file alone is
    read.  And with an HDF5 file first, a channel that the caller gives
    reaches the reader as a keyword, which it refuses. *)
Lemma channel_reaches_other_readers :
  PyStr.endswith Examples.u2 ".gwf" = false
  /\ outcome (fetch_losc_data (Ext := Examples.lenient [Examples.gwf; Examples.u2]) "H1"
                (VInt 1000000000) (VInt 1000000032) TimeSeries ∅)
     = Raise (mkExc ["KeyError"; "LookupError"; "Exception"; "BaseException"]
                [failure_message Examples.u2
                   (KeyError "Unable to open object (object 'H1:LOSC-STRAIN' doesn't exist)")])
  /\ outcome (fetch_losc_data (Ext := Examples.lenient [Examples.u2]) "H1"
                (VInt 1000000016) (VInt 1000000032) TimeSeries ∅)
     = Ok (Some (mkSeries TimeSeries [5; 6; 7; 8]%Q (inject_Z 1000000016)
                   (mkQuantity 4 "s") "strain" "Strain" ∅))
  /\ PyStr.endswith Examples.u1 ".gwf" = false
  /\ reader_kwargs Examples.u1
       (<["cls" := VCls TimeSeries]>
          (split_kwargs 1000000000 1000000016 {[ "channel" := VStr "H1:LOSC-STRAIN" ]}).2)
       !! "channel" = Some (VStr "H1:LOSC-STRAIN")
  /\ match outcome (fetch_losc_data (Ext := Examples.lenient [Examples.u1]) "H1"
                      (VInt 1000000000) (VInt 1000000016) TimeSeries
                      {[ "channel" := VStr "H1:LOSC-STRAIN" ]}) with
     | Raise exc => exc_class exc
     | Ok _ => ""
     end = "TypeError"
  /\ outcome (fetch_losc_data (Ext := Examples.lenient [Examples.u1]) "H1"
                (VInt 1000000000) (VInt 1000000016) TimeSeries ∅)
     = Ok (Some (mkSeries TimeSeries [1; 2; 3; 4]%Q (inject_Z 1000000000)
                   (mkQuantity 4 "s") "strain" "Strain" ∅)).
Proof. repeat split; vm_compute; reflexivity. Qed.

Lemma event_files_first_covering_witness :
  event_dataset (Ext := Examples.lenient [Examples.ev1; Examples.ev2; Examples.ev3])
    [Examples.ev1; Examples.ev2; Examples.ev3]
    (inject_Z 1000000010) (inject_Z 1000000020) = Ok [Examples.ev2]
  /\ opened (trace (fetch_losc_data
                      (Ext := Examples.lenient [Examples.ev1; Examples.ev2; Examples.ev3])
                      "H1" (VInt 1000000010) (VInt 1000000020) TimeSeries ∅))
     = [Examples.ev2].
Proof.
  edestruct (event_files_first_covering
               (Ext := Examples.lenient [Examples.ev1; Examples.ev2; Examples.ev3])
               "H1" (VInt 1000000010) (VInt 1000000020) TimeSeries ∅
               (inject_Z 1000000010) (inject_Z 1000000020) ∅
               [Examples.ev1] Examples.ev2 [Examples.ev3]) as (Hev & _ & Hop).
  - reflexivity.
  - reflexivity.
  - reflexivity.
  - reflexivity.
  - reflexivity.
  - constructor; [|constructor]. eexists. split; reflexivity.
  - reflexivity.
  - reflexivity.
  - split; [exact Hev|]. eapply Hop; reflexivity.
Defined.

(** C1, as stated, fails: [ev2] belongs to the event collection and is
    the one file that covers the whole request, but the first URL of the
    list does not contain [events]; the list is left as it is and the
    three files are opened. *)
Lemma later_event_file_is_not_chosen :
  PyStr.contains "events" Examples.ev2 = true
  /\ PyStr.contains "events" Examples.u1 = false
  /\ (Archive.name_segment Examples.ev2
      = Ok (mkSegment (inject_Z 1000000008) (inject_Z 1000000024))
      /\ covers (mkSegment (inject_Z 1000000008) (inject_Z 1000000024))
           (inject_Z 1000000010) (inject_Z 1000000020) = true)
  /\ (Archive.name_segment Examples.u1
      = Ok (mkSegment (inject_Z 1000000000) (inject_Z 1000000016))
      /\ covers (mkSegment (inject_Z 1000000000) (inject_Z 1000000016))
           (inject_Z 1000000010) (inject_Z 1000000020) = false)
  /\ (Archive.name_segment Examples.ev3
      = Ok (mkSegment (inject_Z 1000000016) (inject_Z 1000000032))
      /\ covers (mkSegment (inject_Z 1000000016) (inject_Z 1000000032))
           (inject_Z 1000000010) (inject_Z 1000000020) = false)
  /\ event_dataset (Ext := Examples.lenient [Examples.u1; Examples.ev2; Examples.ev3])
       [Examples.u1; Examples.ev2; Examples.ev3]
       (inject_Z 1000000010) (inject_Z 1000000020)
     = Ok [Examples.u1; Examples.ev2; Examples.ev3]
  /\ opened (trace (fetch_losc_data
                      (Ext := Examples.lenient [Examples.u1; Examples.ev2; Examples.ev3])
                      "H1" (VInt 1000000010) (VInt 1000000020) TimeSeries ∅))
     = [Examples.u1; Examples.ev2; Examples.ev3].
Proof. repeat split; vm_compute; reflexivity. Qed.

Lemma assembly_reads_every_candidate_witness :
  outcome (fetch_losc_data (Ext := Examples.lenient [Examples.u1; Examples.u2]) "H1"
             (VInt 1000000004) (VInt 1000000024) TimeSeries ∅)
  = Ok (Some (mkSeries TimeSeries [2; 3; 4; 5; 6]%Q (inject_Z 1000000004)
                (mkQuantity 4 "s") "strain" "Strain" ∅))
  /\ opened (trace (fetch_losc_data (Ext := Examples.lenient [Examples.u1; Examples.u2])
                      "H1" (VInt 1000000004) (VInt 1000000024) TimeSeries ∅))
     = [Examples.u1; Examples.u2].
Proof.
  edestruct (assembly_reads_every_candidate
               (Ext := Examples.lenient [Examples.u1; Examples.u2])
               "H1" (VInt 1000000004) (VInt 1000000024) TimeSeries ∅
               (inject_Z 1000000004) (inject_Z 1000000024) ∅
               [Examples.u1; Examples.u2] [Examples.u1; Examples.u2] []
               (split_kwargs (inject_Z 1000000004) (inject_Z 1000000024) ∅).2
               [mkSeries TimeSeries [2; 3; 4]%Q (inject_Z 1000000004)
                  (mkQuantity 4 "s") "strain" "Strain" ∅;
                mkSeries TimeSeries [5; 6]%Q (inject_Z 1000000016)
                  (mkQuantity 4 "s") "strain" "Strain" ∅])
    as (Hout & Hop & _).
  - reflexivity.
  - reflexivity.
  - reflexivity.
  - reflexivity.
  - reflexivity.
  - reflexivity.
  - reflexivity.
  - constructor; [|constructor; [|constructor]].
    + eexists _, _, _, _. repeat split; reflexivity.
    + eexists _, _, _, _. repeat split; reflexivity.
  - split; [exact Hout|exact Hop].
Defined.

(** C2, as stated, fails: the part of the request that [u_far] covers is
    empty, and [u_far] is opened and read all the same; with an
    intersection that refuses segments that do not meet, the call ends in
    an error.  In neither case is the file passed over. *)
Lemma empty_keep_is_fetched :
  (Archive.name_segment Examples.u_far
   = Ok (mkSegment (inject_Z 1000000064) (inject_Z 1000000080))
   /\ Archive.segment_and_total
        (mkSegment (inject_Z 1000000064) (inject_Z 1000000080))
        (mkSegment (inject_Z 1000000004) (inject_Z 1000000012))
      = Ok (mkSegment (inject_Z 1000000064) (inject_Z 1000000012)))
  /\ opened (trace (fetch_losc_data (Ext := Examples.lenient [Examples.u1; Examples.u_far])
                      "H1" (VInt 1000000004) (VInt 1000000012) TimeSeries ∅))
     = [Examples.u1; Examples.u_far]
  /\ outcome (fetch_losc_data (Ext := Examples.strict [Examples.u1; Examples.u_far])
                "H1" (VInt 1000000004) (VInt 1000000012) TimeSeries ∅)
     = Raise (ValueError "segments do not intersect").
Proof. repeat split; vm_compute; reflexivity. Qed.

(** * Further properties *)

(** ** Opening and releasing one file *)

Section FetchFileMore.

Context `{Ext : Externals}.

(** X1. When the URL can be opened, the single-file fetch opens it once
    and releases it once, and the release is the last thing it does,
    whether the reader returns, fails, or is interrupted. *)
Theorem fetch_file_releases url args kwargs rem :
  get_readable_fileobj url (use_cache kwargs) (truthy (verbose_of kwargs)) = Ok rem ->
  opened (trace (_fetch_losc_data_file url args kwargs)) = [url]
  /\ closed (trace (_fetch_losc_data_file url args kwargs)) = [url]
  /\ last (trace (_fetch_losc_data_file url args kwargs)) = Some (EvClose url)
  /\ scope_after None (trace (_fetch_losc_data_file url args kwargs)) = Some None.
Proof.
  intros Hrem. split; [apply fetch_file_opened|].
  rewrite fetch_file_eq. cbv zeta. rewrite Hrem.
  unfold reading_prints.
  destruct (read_as _ rem args _) as [series|exc];
    [|destruct (exc_isinstance exc "Exception")];
    destruct (truthy (verbose_of kwargs)); cbn; by rewrite String.eqb_refl.
Qed.

(** X2. When the URL cannot be opened, the exception leaves the
    single-file fetch as it is: its message is not rewritten, the reader
    is not called and nothing is released; in the loop over the files the
    call ends there. *)
Theorem download_failure_is_not_wrapped url args kwargs x :
  get_readable_fileobj url (use_cache kwargs) (truthy (verbose_of kwargs)) = Raise x ->
  _fetch_losc_data_file url args kwargs
  = ([EvOpen url (use_cache kwargs) (truthy (verbose_of kwargs))], Raise x)
  /\ (forall rest span out seg keep,
        file_segment url = Ok seg -> segment_and seg span = Ok keep ->
        outcome (read_data (url :: rest) span args kwargs out) = Raise x
        /\ opened (trace (read_data (url :: rest) span args kwargs out)) = [url]
        /\ closed (trace (read_data (url :: rest) span args kwargs out)) = []).
Proof.
  intros Hrem.
  assert (Heq : _fetch_losc_data_file url args kwargs
                = ([EvOpen url (use_cache kwargs) (truthy (verbose_of kwargs))], Raise x)).
  { rewrite fetch_file_eq. cbv zeta. by rewrite Hrem. }
  split; [done|]. intros rest span out seg keep Hs Hk.
  rewrite (read_data_cons _ _ _ _ _ _ _ _ Hs Hk), Heq. by cbn.
Qed.

(** X3. An exception of the reader that is not an [Exception] (a
    keyboard interrupt) is not rewritten: it leaves the single-file fetch
    as it is, after the file has been released. *)
Theorem interrupt_passes_unchanged url args kwargs rem exc :
  get_readable_fileobj url (use_cache kwargs) (truthy (verbose_of kwargs)) = Ok rem ->
  read_as (cls_of kwargs) rem args (reader_kwargs url kwargs) = Raise exc ->
  exc_isinstance exc "Exception" = false ->
  outcome (_fetch_losc_data_file url args kwargs) = Raise exc
  /\ closed (trace (_fetch_losc_data_file url args kwargs)) = [url].
Proof.
  intros Hrem Hread Hexc. rewrite fetch_file_eq. cbv zeta.
  rewrite Hrem, Hread, Hexc. by destruct (truthy (verbose_of kwargs)).
Qed.

Lemma find_first c a b :
  PyStr.has_char c a = false ->
  PyStr.find c (a +:+ String c b) = Some (String.length a).
Proof.
  induction a as [|x a IH]; intros Ha.
  - rewrite str_app_nil_l. cbn. by rewrite Ascii.eqb_refl.
  - rewrite str_app_cons. cbn in *.
    apply orb_false_iff in Ha as [Hx Ha]. rewrite Hx, IH by done. done.
Qed.

(** Only the first colon of a token cuts it. *)
Lemma split1_first c a b :
  PyStr.has_char c a = false ->
  PyStr.split1 c (a +:+ String c b) = [a; b].
Proof.
  intros Ha. unfold PyStr.split1. rewrite find_first by done.
  rewrite take_app_length.
  change (String c b) with (String c "" +:+ b). rewrite <-str_app_assoc.
  replace (S (String.length a)) with (String.length (a +:+ String c ""))
    by (rewrite str_length_app; cbn; lia).
  by rewrite drop_app_length.
Qed.

Lemma parse_bits_tokens tokens entries bits :
  Forall2 token_of tokens entries ->
  parse_bits tokens bits
  = Ok (foldl (fun m (e : Z * string) => <[e.1 := e.2]> m) bits entries).
Proof.
  intros HF. revert bits.
  induction HF as [|bit [i name] tokens entries (a & -> & Ha & Hi) _ IH]; intros bits.
  - done.
  - cbn [parse_bits snd fst] in *. rewrite split1_first by done. cbn [unpack2 rbind fst snd].
    unfold int_of_str. rewrite Hi. cbn [rbind]. by rewrite IH.
Qed.

Lemma foldl_insert_union (entries : list (Z * string)) (m0 : gmap Z string) :
  foldl (fun m (e : Z * string) => <[e.1 := e.2]> m) m0 entries
  = list_to_map (reverse entries) ∪ m0.
Proof.
  revert m0; induction entries as [|[i x] es IH]; intros m0.
  - cbn. by rewrite (left_id ∅ (∪)).
  - cbn [foldl fst snd]. rewrite IH, reverse_cons, list_to_map_app.
    cbn [list_to_map foldr fst snd uncurry].
    rewrite <-(assoc_L (∪)). f_equal.
    by rewrite insert_empty, <-insert_union_singleton_l.
Qed.

(** X4. When the reader of a [.gwf] file returns a state vector and every
    token of its unit string is [<index>:<name>], the bits of the series
    become the names by index and its unit becomes dimensionless.  A name
    keeps the colons it holds after the first, and of two tokens with the
    same index the later one is kept. *)
Theorem unit_tokens_become_bits url args kwargs rem series entries :
  get_readable_fileobj url (use_cache kwargs) (truthy (verbose_of kwargs)) = Ok rem ->
  read_as (cls_of kwargs) rem args (reader_kwargs url kwargs) = Ok series ->
  url_ext url = ".gwf" -> is_StateVector series = true ->
  Forall2 token_of (PyStr.split (series_unit series)) entries ->
  outcome (_fetch_losc_data_file url args kwargs)
  = Ok (override_unit (set_bits series (list_to_map (reverse entries))) "")
  /\ (forall es i name,
        entries = es ++ [(i, name)] ->
        (list_to_map (reverse entries) : gmap Z string) !! i = Some name).
Proof.
  intros Hrem Hread Hext Hsv HF. split.
  - rewrite fetch_file_eq. cbv zeta. rewrite Hrem, Hread, outcome_pair.
    unfold unit_bits. rewrite Hext, Hsv.
    change (String.eqb ".gwf" ".gwf") with true. cbn [andb].
    rewrite (parse_bits_tokens _ _ _ HF), foldl_insert_union.
    by rewrite (right_id ∅ (∪)).
  - intros es i name ->. rewrite reverse_app. cbn. apply lookup_insert_eq.
Qed.

End FetchFileMore.

Lemma fetch_file_releases_witness :
  closed (trace (_fetch_losc_data_file (Ext := Examples.lenient []) Examples.broken [] ∅))
  = [Examples.broken]
  /\ last (trace (_fetch_losc_data_file (Ext := Examples.lenient []) Examples.broken [] ∅))
     = Some (EvClose Examples.broken).
Proof.
  edestruct (fetch_file_releases (Ext := Examples.lenient []) Examples.broken [] ∅)
    as (_ & Hc & Hl & _).
  - reflexivity.
  - split; [exact Hc|exact Hl].
Defined.

Lemma download_failure_is_not_wrapped_witness :
  _fetch_losc_data_file (Ext := Further.lenient []) Further.missing [] ∅
  = ([EvOpen Further.missing false false],
     Raise (mkExc ["HTTPError"; "URLError"; "OSError"; "Exception"; "BaseException"]
                  ["HTTP Error 404: Not Found"])).
Proof.
  refine (proj1 (download_failure_is_not_wrapped (Ext := Further.lenient [])
                   Further.missing [] ∅ _ _)).
  reflexivity.
Defined.

Lemma interrupt_passes_unchanged_witness :
  outcome (_fetch_losc_data_file (Ext := Further.interrupted []) Examples.u1 [] ∅)
  = Raise (mkExc ["KeyboardInterrupt"; "BaseException"] [])
  /\ closed (trace (_fetch_losc_data_file (Ext := Further.interrupted []) Examples.u1 [] ∅))
     = [Examples.u1].
Proof.
  eapply (interrupt_passes_unchanged (Ext := Further.interrupted []) Examples.u1 [] ∅).
  - reflexivity.
  - reflexivity.
  - reflexivity.
Defined.

Lemma unit_tokens_become_bits_witness :
  outcome (_fetch_losc_data_file (Ext := Further.lenient []) Further.gwf_ok []
             {[ "cls" := VCls StateVector ]})
  = Ok (override_unit
          (set_bits Further.named_state
             (list_to_map (reverse [(0, "DATA"); (1, "CBC:CAT1"); (0, "ALL")]))) "")
  /\ (list_to_map (reverse [(0, "DATA"); (1, "CBC:CAT1"); (0, "ALL")]) : gmap Z string) !! 0
     = Some "ALL".
Proof.
  edestruct (unit_tokens_become_bits (Ext := Further.lenient []) Further.gwf_ok []
               {[ "cls" := VCls StateVector ]} (Archive.Frame Further.named_state)
               Further.named_state [(0, "DATA"); (1, "CBC:CAT1"); (0, "ALL")])
    as [Hout Hlast].
  - reflexivity.
  - reflexivity.
  - reflexivity.
  - reflexivity.
  - change (PyStr.split (series_unit Further.named_state))
      with ["0:DATA"; "1:CBC:CAT1"; "0:ALL"].
    constructor; [by exists "0"|].
    constructor; [by exists "1"|].
    constructor; [by exists "0"|constructor].
  - split; [exact Hout|]. by apply (Hlast [(0, "DATA"); (1, "CBC:CAT1")]).
Defined.

(** ** The keywords of a request *)

Section RequestMore.

Context `{Ext : Externals}.

Lemma pop_keys_taken keys (kwargs : gmap string PyVal) k :
  (pop_keys keys kwargs).1 !! k = if bool_decide (k ∈ keys) then kwargs !! k else None.
Proof.
  revert kwargs; induction keys as [|key keys IH]; intros kwargs; [done|].
  cbn [pop_keys]. destruct (decide (k = key)) as [->|Hne].
  - rewrite bool_decide_eq_true_2 by apply list_elem_of_here.
    destruct (kwargs !! key) as [v|] eqn:Hv.
    + destruct (pop_keys keys (delete key kwargs)) as [o kw]. cbn [fst].
      by rewrite lookup_insert_eq.
    + rewrite IH. by destruct (bool_decide _).
  - assert (Hin : bool_decide (k ∈ key :: keys) = bool_decide (k ∈ keys)).
    { apply bool_decide_ext. rewrite elem_of_cons.
      split; [by intros [?|?]|by right]. }
    rewrite Hin. destruct (kwargs !! key) as [v|] eqn:Hv.
    + specialize (IH (delete key kwargs)).
      destruct (pop_keys keys (delete key kwargs)) as [o kw]. cbn [fst] in *.
      rewrite lookup_insert_ne, IH by done. by rewrite lookup_delete_ne.
    + apply IH.
Qed.


Lemma filter_keys_lookup (keys : list string) (kwargs : gmap string PyVal) k :
  filter (fun kv => kv.1 ∈ keys) kwargs !! k
  = if bool_decide (k ∈ keys) then kwargs !! k else None.
Proof.
  apply option_eq. intros v. rewrite map_lookup_filter_Some. cbn.
  case_bool_decide as Hin.
  - split; [by intros [? _]|by intros ?; split].
  - split; [by intros [_ ?]|done].
Qed.

(** The call up to the answer of the locator. *)
Lemma fetch_losc_data_asks detector start end_ cls kwargs s e url_kw :
  to_gps start = Ok s -> to_gps end_ = Ok e ->
  format_sample_rate (split_kwargs s e kwargs).1 = Ok url_kw ->
  (forall x, get_urls detector (Qfloor s) (Qceiling e) url_kw = Raise x ->
     fetch_losc_data detector start end_ cls kwargs = ([], Raise x)).
Proof.
  intros Hs He Hf x Hg. unfold fetch_losc_data.
  rewrite Hs. cbn [bind lift]. rewrite He. cbn [bind lift].
  fold (split_kwargs s e kwargs).
  destruct (split_kwargs s e kwargs) as [ukw kw]. cbn [fst] in Hf. rewrite Hf.
  cbn [bind lift]. by rewrite Hg.
Qed.

(** X5. What the locator is asked.  [get_urls] is called with the
    detector, the times [int(start)] and [ceil(end)], and as keywords the
    keywords of the caller that are named [sample_rate], [tag],
    [version], [host] and [format], and no other; [sample_rate] is
    replaced by the number of [Quantity(sample_rate, 'Hz').value], the
    others are passed as they are.  When [get_urls] fails on these
    arguments the call ends with its exception, nothing opened or
    printed; when the sample rate is not a quantity the locator is not
    asked. *)
Theorem locator_is_asked_with detector start end_ cls (kwargs : gmap string PyVal) s e :
  to_gps start = Ok s -> to_gps end_ = Ok e ->
  let named :=
    filter (fun kv => kv.1 ∈ ["sample_rate"; "tag"; "version"; "host"; "format"]) kwargs in
  (forall v x,
     kwargs !! "sample_rate" = Some v -> quantity_value v = Raise x ->
     fetch_losc_data detector start end_ cls kwargs = ([], Raise x))
  /\ (forall asked,
        match kwargs !! "sample_rate" with
        | None => asked = named
        | Some v =>
            exists hz, quantity_value v = Ok hz /\ asked = <["sample_rate" := VNum hz]> named
        end ->
        format_sample_rate (split_kwargs s e kwargs).1 = Ok asked
        /\ (forall x,
              get_urls detector (Qfloor s) (Qceiling e) asked = Raise x ->
              fetch_losc_data detector start end_ cls kwargs = ([], Raise x))
        /\ (get_urls detector (Qfloor s) (Qceiling e) asked = Ok [] ->
            truthy (verbose_of kwargs) = false ->
            fetch_losc_data detector start end_ cls kwargs = ([], Ok None))).
Proof.
  intros Hs He named.
  assert (Hnamed : (split_kwargs s e kwargs).1 = named).
  { apply map_eq. intros k. unfold split_kwargs, named.
    rewrite pop_keys_taken, filter_keys_lookup.
    destruct (bool_decide (k ∈ _)) eqn:Hk; [|done].
    apply bool_decide_eq_true in Hk.
    rewrite !lookup_insert_ne; [done|..]; intros <-;
      repeat (apply elem_of_cons in Hk as [Hk|Hk]; [discriminate|]);
      by apply elem_of_nil in Hk. }
  assert (Hrate : named !! "sample_rate" = kwargs !! "sample_rate").
  { unfold named. rewrite filter_keys_lookup.
    by rewrite bool_decide_eq_true_2 by apply list_elem_of_here. }
  split.
  - intros v x Hv Hq. unfold fetch_losc_data.
    rewrite Hs. cbn [bind lift]. rewrite He. cbn [bind lift].
    fold (split_kwargs s e kwargs).
    destruct (split_kwargs s e kwargs) as [ukw kw]. cbn [fst] in Hnamed. subst ukw.
    unfold format_sample_rate. rewrite Hrate, Hv. cbn [rbind]. by rewrite Hq.
  - intros asked Hasked.
    assert (Hf : format_sample_rate (split_kwargs s e kwargs).1 = Ok asked).
    { rewrite Hnamed. unfold format_sample_rate. rewrite Hrate.
      destruct (kwargs !! "sample_rate") as [v|].
      - destruct Hasked as (hz & Hq & ->). by rewrite Hq.
      - by subst asked. }
    split; [done|]. split.
    + by apply fetch_losc_data_asks.
    + intros Hg Hv. rewrite (fetch_losc_data_eq _ _ _ _ _ _ _ _ _ Hs He Hf Hg). by rewrite Hv.
Qed.

Lemma channel_args_keeps cache detector cls (kwargs : gmap string PyVal) args kw k :
  channel_args cache detector cls kwargs = Ok (args, kw) ->
  k <> "channel" -> kw !! k = kwargs !! k.
Proof.
  unfold channel_args. intros H Hk.
  destruct cache as [|url0 rest]; [by simplify_eq|].
  destruct (PyStr.endswith url0 ".gwf"); [|by simplify_eq].
  destruct (kwargs !! "channel").
  - simplify_eq. by rewrite lookup_delete_ne.
  - destruct (bool_decide (cls = StateVector)); cbn in H; by simplify_eq.
Qed.

Lemma match_format_unnamed ext (kwargs : gmap string PyVal) :
  kwargs !! "format" = None ->
  match_format ext kwargs !! "format" = match_format ext ∅ !! "format".
Proof.
  intros Hf. unfold match_format.
  repeat (destruct (String.eqb ext _); [by rewrite !setdefault_lookup, Hf|]).
  done.
Qed.

(** The scan returns a file of the list that covers the request, or
    nothing when no file of the list does. *)
Lemma pick_covering_sound cache s e found :
  pick_covering cache s e = Ok found ->
  match found with
  | Some url => url ∈ cache /\ exists seg, file_segment url = Ok seg /\ covers seg s e = true
  | None => Forall (fun v => exists sg, file_segment v = Ok sg /\ covers sg s e = false) cache
  end.
Proof.
  revert found; induction cache as [|url rest IH]; intros found; cbn.
  - by intros [= <-].
  - destruct (file_segment url) as [seg|x] eqn:Hs; cbn; [|done].
    destruct (covers seg s e) eqn:Hc.
    + intros [= <-]. split; [apply list_elem_of_here|by exists seg].
    + intros H. specialize (IH _ H). destruct found as [u|].
      * destruct IH as [Hin Hex]. split; [by apply list_elem_of_further|done].
      * constructor; [by exists seg|done].
Qed.

Lemma pick_covering_raises pre url post s e x :
  Forall (fun v => exists sg, file_segment v = Ok sg /\ covers sg s e = false) pre ->
  file_segment url = Raise x ->
  pick_covering (pre ++ url :: post) s e = Raise x.
Proof.
  intros Hpre Hs. induction Hpre as [|v pre (sg & Hv & Hn) _ IH]; cbn.
  - by rewrite Hs.
  - rewrite Hv. cbn. by rewrite Hn.
Qed.

(** X7. The choice among event files changes the list in one way only:
    it keeps the list as it is, or replaces it by one of its files whose
    segment covers the request.  It replaces it only when the first URL
    contains [events]; and when that URL does and the list is kept, no
    file of the list covers the request. *)
Theorem event_dataset_sound cache s e chosen :
  event_dataset cache s e = Ok chosen ->
  (chosen = cache
   /\ (forall url0 rest, cache = url0 :: rest -> PyStr.contains "events" url0 = true ->
       Forall (fun v => exists sg, file_segment v = Ok sg /\ covers sg s e = false) cache))
  \/ (exists url0 rest url seg,
        cache = url0 :: rest /\ PyStr.contains "events" url0 = true
        /\ chosen = [url] /\ url ∈ cache
        /\ file_segment url = Ok seg /\ covers seg s e = true).
Proof.
  unfold event_dataset. destruct cache as [|url0 rest].
  { intros [= <-]. by left. }
  destruct (PyStr.contains "events" url0) eqn:Hev.
  2:{ intros [= <-]. left. split; [done|]. intros ?? [= <- <-]. congruence. }
  destruct (pick_covering (url0 :: rest) s e) as [found|x] eqn:Hp; cbn [rbind]; [|done].
  apply pick_covering_sound in Hp. intros [= <-]. destruct found as [url|].
  - destruct Hp as (Hin & seg & Hs & Hc). right. by exists url0, rest, url, seg.
  - left. done.
Qed.

(** X8. When the first URL contains [events] and the segment of a file
    cannot be told from its name before a file that covers the request
    has been met, the call ends with that exception: no file is opened
    and nothing is printed, whatever the files after it. *)
Theorem event_scan_failure_aborts detector start end_ cls kwargs s e url_kw
    pre url post x :
  to_gps start = Ok s -> to_gps end_ = Ok e ->
  format_sample_rate (split_kwargs s e kwargs).1 = Ok url_kw ->
  get_urls detector (Qfloor s) (Qceiling e) url_kw = Ok (pre ++ url :: post) ->
  truthy (verbose_of kwargs) = false ->
  PyStr.contains "events" (hd "" (pre ++ url :: post)) = true ->
  Forall (fun v => exists sg, file_segment v = Ok sg /\ covers sg s e = false) pre ->
  file_segment url = Raise x ->
  fetch_losc_data detector start end_ cls kwargs = ([], Raise x).
Proof.
  intros Hs He Hf Hg Hv Hevents Hpre Hseg.
  rewrite (fetch_losc_data_eq _ _ _ _ _ _ _ _ _ Hs He Hf Hg), Hv.
  unfold event_dataset.
  destruct (pre ++ url :: post) as [|url0 l] eqn:Hl; [by destruct pre|].
  cbn [hd] in Hevents. rewrite Hevents, <-Hl.
  by rewrite (pick_covering_raises _ _ _ _ _ _ Hpre Hseg).
Qed.

(** X9. When the locator answers with no URL, a call that is not verbose
    returns [None]: nothing is opened and nothing is printed.  A verbose
    call ends with the [IndexError] of [cache[0]]. *)
Theorem empty_answer_returns_nothing detector start end_ cls kwargs s e url_kw :
  to_gps start = Ok s -> to_gps end_ = Ok e ->
  format_sample_rate (split_kwargs s e kwargs).1 = Ok url_kw ->
  get_urls detector (Qfloor s) (Qceiling e) url_kw = Ok [] ->
  fetch_losc_data detector start end_ cls kwargs
  = ([], if truthy (verbose_of kwargs)
         then Raise (IndexError "list index out of range") else Ok None).
Proof.
  intros Hs He Hf Hg.
  rewrite (fetch_losc_data_eq _ _ _ _ _ _ _ _ _ Hs He Hf Hg).
  by destruct (truthy (verbose_of kwargs)).
Qed.

(** X10. A channel that the caller names is taken out of the keywords
    when the first URL of the list ends in [.gwf]: the reader of every
    file of the list is called with the channel as its one positional
    argument and without a keyword [channel], and when every reader
    returns, the call returns the pieces put together. *)
Theorem explicit_channel_is_positional detector start end_ cls kwargs s e url_kw
    cache0 url0 rest c pieces :
  to_gps start = Ok s -> to_gps end_ = Ok e ->
  format_sample_rate (split_kwargs s e kwargs).1 = Ok url_kw ->
  get_urls detector (Qfloor s) (Qceiling e) url_kw = Ok cache0 ->
  truthy (verbose_of kwargs) = false ->
  event_dataset cache0 s e = Ok (url0 :: rest) ->
  PyStr.endswith url0 ".gwf" = true ->
  kwargs !! "channel" = Some c ->
  let kw := <["cls" := VCls cls]> (delete "channel" (split_kwargs s e kwargs).2) in
  (forall url, reader_kwargs url kw !! "channel" = None)
  /\ (Forall2 (read_piece (mkSegment s e) [c] kw) (url0 :: rest) pieces ->
      outcome (fetch_losc_data detector start end_ cls kwargs) = Ok (assemble pieces)
      /\ opened (trace (fetch_losc_data detector start end_ cls kwargs)) = url0 :: rest).
Proof.
  intros Hs He Hf Hg Hv Hev Hgwf Hc kw. split.
  - intros url. unfold reader_kwargs, kw. rewrite match_format_other by done.
    rewrite !lookup_delete_ne, lookup_insert_ne by done. apply lookup_delete_eq.
  - intros HF.
    assert (Hch : channel_args (url0 :: rest) detector cls (split_kwargs s e kwargs).2
                  = Ok ([c], delete "channel" (split_kwargs s e kwargs).2)).
    { unfold channel_args. by rewrite Hgwf, split_kwargs_channel, Hc. }
    apply (fetch_reads_pieces _ _ _ _ _ _ _ _ _ _ _ _ _ Hs He Hf Hg Hv Hev Hch HF).
Qed.

End RequestMore.

Lemma locator_is_asked_with_witness :
  fetch_losc_data (Ext := Examples.lenient []) "H1" (VInt 1000000000) (VInt 1000000016)
    TimeSeries {[ "sample_rate" := VInt 4096; "channel" := VStr "H1:LOSC-STRAIN" ]}
  = ([], Raise (ValueError "Cannot find a LOSC dataset matching the request")).
Proof.
  edestruct (locator_is_asked_with (Ext := Examples.lenient []) "H1"
               (VInt 1000000000) (VInt 1000000016) TimeSeries
               {[ "sample_rate" := VInt 4096; "channel" := VStr "H1:LOSC-STRAIN" ]}
               1000000000 1000000016) as [_ H].
  - reflexivity.
  - reflexivity.
  - edestruct (H (<["sample_rate" := VNum 4096]> {[ "sample_rate" := VInt 4096 ]}))
      as (_ & Hfail & _).
    + exists 4096%Q. split; reflexivity.
    + apply Hfail. reflexivity.
Defined.

Lemma event_dataset_sound_witness :
  exists url seg,
    url ∈ [Examples.ev1; Examples.ev2; Examples.ev3]
    /\ [Examples.ev2] = [url]
    /\ file_segment (Externals := Examples.lenient []) url = Ok seg
    /\ covers seg 1000000010 1000000020 = true.
Proof.
  destruct (event_dataset_sound (Ext := Examples.lenient [])
              [Examples.ev1; Examples.ev2; Examples.ev3] 1000000010 1000000020
              [Examples.ev2] eq_refl)
    as [[Hsame _]|(url0 & rest & url & seg & _ & _ & Hch & Hin & Hs & Hc)].
  - discriminate Hsame.
  - by exists url, seg.
Defined.

Lemma event_scan_failure_aborts_witness :
  fetch_losc_data (Ext := Further.lenient [Examples.ev1; Further.odd_name; Examples.ev2])
    "H1" (VInt 1000000010) (VInt 1000000020) TimeSeries ∅
  = ([], Raise (ValueError "Failed to parse as LIGO-T050017-compatible filename")).
Proof.
  eapply (event_scan_failure_aborts
            (Ext := Further.lenient [Examples.ev1; Further.odd_name; Examples.ev2])
            "H1" (VInt 1000000010) (VInt 1000000020) TimeSeries ∅
            1000000010 1000000020 ∅ [Examples.ev1] Further.odd_name [Examples.ev2]).
  - reflexivity.
  - reflexivity.
  - reflexivity.
  - reflexivity.
  - reflexivity.
  - reflexivity.
  - constructor; [|constructor]. eexists. split; reflexivity.
  - reflexivity.
Defined.

Lemma empty_answer_returns_nothing_witness :
  fetch_losc_data (Ext := Further.interrupted []) "H1"
    (VInt 1000000000) (VInt 1000000016) TimeSeries ∅ = ([], Ok None).
Proof.
  exact (empty_answer_returns_nothing (Ext := Further.interrupted []) "H1"
           (VInt 1000000000) (VInt 1000000016) TimeSeries ∅ 1000000000 1000000016 ∅
           eq_refl eq_refl eq_refl eq_refl).
Defined.

Lemma explicit_channel_is_positional_witness :
  outcome (fetch_losc_data (Ext := Further.lenient [Further.gwf_ok]) "H1"
             (VInt 1000000016) (VInt 1000000032) StateVector
             {[ "channel" := VStr "H1:CUSTOM" ]})
  = Ok (assemble
          [crop (unit_bits Further.gwf_ok Further.named_state)
             (Some 1000000016%Q) (Some 1000000032%Q)])
  /\ opened (trace (fetch_losc_data (Ext := Further.lenient [Further.gwf_ok]) "H1"
                      (VInt 1000000016) (VInt 1000000032) StateVector
                      {[ "channel" := VStr "H1:CUSTOM" ]}))
     = [Further.gwf_ok].
Proof.
  edestruct (explicit_channel_is_positional (Ext := Further.lenient [Further.gwf_ok])
               "H1" (VInt 1000000016) (VInt 1000000032) StateVector
               {[ "channel" := VStr "H1:CUSTOM" ]} 1000000016 1000000032 ∅
               [Further.gwf_ok] Further.gwf_ok [] (VStr "H1:CUSTOM")
               [crop (unit_bits Further.gwf_ok Further.named_state)
                  (Some 1000000016%Q) (Some 1000000032%Q)]) as [_ H].
  - reflexivity.
  - reflexivity.
  - reflexivity.
  - reflexivity.
  - reflexivity.
  - reflexivity.
  - reflexivity.
  - reflexivity.
  - apply H. constructor; [|constructor].
    eexists _, _, _, _. repeat split; reflexivity.
Defined.

(** ** The whole call *)

Section CallMore.

Context `{Ext : Externals}.

Lemma closed_app t1 t2 : closed (t1 ++ t2) = closed t1 ++ closed t2.
Proof. apply omap_app. Qed.

Lemma printed_app t1 t2 : printed (t1 ++ t2) = printed t1 ++ printed t2.
Proof. apply omap_app. Qed.

Lemma scope_after_app held t1 t2 :
  scope_after held (t1 ++ t2) = scope_after held t1 ≫= fun h => scope_after h t2.
Proof.
  revert held; induction t1 as [|ev t1 IH]; intros held; [done|].
  destruct ev as [text|u c v|u]; cbn.
  - apply IH.
  - destruct held; [done|apply IH].
  - destruct held as [w|]; [|done]. destruct (String.eqb u w); [apply IH|done].
Qed.

(** How a call goes: it ends before the loop over the files, with an
    exception and without any event; or it is the loop. *)
Lemma fetch_losc_data_shape detector start end_ cls kwargs :
  (exists x, fetch_losc_data detector start end_ cls kwargs = ([], Raise x))
  \/ (exists s e url_kw cache0 cache args kw,
        to_gps start = Ok s /\ to_gps end_ = Ok e
        /\ format_sample_rate (split_kwargs s e kwargs).1 = Ok url_kw
        /\ get_urls detector (Qfloor s) (Qceiling e) url_kw = Ok cache0
        /\ truthy (verbose_of kwargs) = false
        /\ event_dataset cache0 s e = Ok cache
        /\ channel_args cache detector cls (split_kwargs s e kwargs).2 = Ok (args, kw)
        /\ fetch_losc_data detector start end_ cls kwargs
           = read_data cache (mkSegment s e) args (<["cls" := VCls cls]> kw) None).
Proof.
  destruct (to_gps start) as [s|x] eqn:Hs.
  2:{ left. exists x. unfold fetch_losc_data. by rewrite Hs. }
  destruct (to_gps end_) as [e|x] eqn:He.
  2:{ left. exists x. unfold fetch_losc_data. rewrite Hs. cbn [bind lift]. by rewrite He. }
  destruct (format_sample_rate (split_kwargs s e kwargs).1) as [url_kw|x] eqn:Hf.
  2:{ left. exists x. unfold fetch_losc_data.
      rewrite Hs. cbn [bind lift]. rewrite He. cbn [bind lift].
      fold (split_kwargs s e kwargs).
      destruct (split_kwargs s e kwargs) as [ukw kw]. cbn [fst] in Hf. by rewrite Hf. }
  destruct (get_urls detector (Qfloor s) (Qceiling e) url_kw) as [cache0|x] eqn:Hg.
  2:{ left. exists x. unfold fetch_losc_data.
      rewrite Hs. cbn [bind lift]. rewrite He. cbn [bind lift].
      fold (split_kwargs s e kwargs).
      destruct (split_kwargs s e kwargs) as [ukw kw]. cbn [fst] in Hf. rewrite Hf.
      cbn [bind lift]. by rewrite Hg. }
  rewrite (fetch_losc_data_eq _ _ _ _ _ _ _ _ _ Hs He Hf Hg).
  destruct (truthy (verbose_of kwargs)) eqn:Hv.
  { left. destruct cache0 as [|url0 rest].
    - by eexists.
    - destruct (status_line_raises url0 rest s e) as (exc & -> & _). by exists exc. }
  cbn [bind ret lift].
  destruct (event_dataset cache0 s e) as [cache|x] eqn:Hev; [|left; by exists x].
  destruct (channel_args_ok cache detector cls (split_kwargs s e kwargs).2)
    as [[args kw] Hch].
  right. exists s, e, url_kw, cache0, cache, args, kw.
  repeat (split; [done|]). rewrite Hch. cbn [bind lift fst snd].
  by destruct (read_data _ _ _ _ _).
Qed.

Lemma fetch_file_returned url args kwargs series :
  outcome (_fetch_losc_data_file url args kwargs) = Ok series ->
  closed (trace (_fetch_losc_data_file url args kwargs)) = [url].
Proof.
  rewrite fetch_file_eq. cbv zeta.
  destruct (get_readable_fileobj _ _ _); [|done].
  destruct (read_as _ _ _ _) as [sr|exc].
  - intros _. unfold reading_prints. by destruct (truthy _).
  - by destruct (exc_isinstance _ _).
Qed.

(** A loop that returns has opened and released every file of the
    list. *)
Lemma read_data_returned cache span args kwargs out r :
  outcome (read_data cache span args kwargs out) = Ok r ->
  opened (trace (read_data cache span args kwargs out)) = cache
  /\ closed (trace (read_data cache span args kwargs out)) = cache
  /\ (r = None <-> cache = [] /\ out = None).
Proof.
  revert out; induction cache as [|url rest IH]; intros out.
  - cbn. intros [= <-]. split; [done|]. split; [done|]. split; [done|by intros [_ ?]].
  - destruct (file_segment url) as [seg|x] eqn:Hs.
    2:{ cbn [read_data]. by rewrite Hs. }
    destruct (segment_and seg span) as [keep|x] eqn:Hk.
    2:{ cbn [read_data]. rewrite Hs. cbn [bind lift]. by rewrite Hk. }
    rewrite (read_data_cons _ _ _ _ _ _ _ _ Hs Hk).
    pose proof (fetch_file_opened url args kwargs) as Ho.
    pose proof (fetch_file_returned url args kwargs) as Hc.
    destruct (outcome (_fetch_losc_data_file url args kwargs)) as [file|x]; [|done].
    cbv zeta. rewrite outcome_pair, trace_pair. intros Hr.
    destruct (IH _ Hr) as (IH1 & IH2 & IH3).
    split; [|split].
    + by rewrite opened_print, opened_app, Ho, IH1.
    + change (closed (EvPrint ?a :: ?t)) with (closed t).
      by rewrite closed_app, (Hc file eq_refl), IH2.
    + split; [|by intros [? _]]. intros ->. by destruct (proj1 IH3 eq_refl).
Qed.

Lemma event_dataset_empty cache0 s e cache :
  event_dataset cache0 s e = Ok cache -> cache = [] <-> cache0 = [].
Proof.
  unfold event_dataset. destruct cache0 as [|url0 rest]; [by intros [= <-]|].
  destruct (PyStr.contains "events" url0); [|by intros [= <-]].
  destruct (pick_covering _ _ _) as [[u|]|x]; cbn [rbind]; intros; by simplify_eq.
Qed.

(** X11. A call that returns has read every file of the list, as the
    choice among event files left it: each was opened and released, in
    the order of the list; there is no result that comes from a part of
    the files.  Such a call was not verbose, and it returns [None] only
    when the locator gave no URL. *)
Theorem returned_call_read_every_file detector start end_ cls kwargs r :
  outcome (fetch_losc_data detector start end_ cls kwargs) = Ok r ->
  exists s e url_kw cache0 cache,
    to_gps start = Ok s /\ to_gps end_ = Ok e
    /\ format_sample_rate (split_kwargs s e kwargs).1 = Ok url_kw
    /\ get_urls detector (Qfloor s) (Qceiling e) url_kw = Ok cache0
    /\ event_dataset cache0 s e = Ok cache
    /\ truthy (verbose_of kwargs) = false
    /\ opened (trace (fetch_losc_data detector start end_ cls kwargs)) = cache
    /\ closed (trace (fetch_losc_data detector start end_ cls kwargs)) = cache
    /\ (r = None <-> cache0 = []).
Proof.
  intros Hr.
  destruct (fetch_losc_data_shape detector start end_ cls kwargs)
    as [[x Hx]|(s & e & url_kw & cache0 & cache & args & kw
                & Hs & He & Hf & Hg & Hv & Hev & Hch & Heq)].
  { by rewrite Hx in Hr. }
  rewrite Heq in Hr |- *.
  destruct (read_data_returned _ _ _ _ _ _ Hr) as (Ho & Hc & Hn).
  exists s, e, url_kw, cache0, cache. repeat (split; [done|]).
  rewrite <-(event_dataset_empty _ _ _ _ Hev). rewrite Hn. split; [by intros [? _]|done].
Qed.

Lemma fetch_file_quiet url args kwargs :
  truthy (verbose_of kwargs) = false ->
  printed (trace (_fetch_losc_data_file url args kwargs)) = [].
Proof.
  intros Hv. rewrite fetch_file_eq. cbv zeta. unfold reading_prints. rewrite Hv.
  destruct (get_readable_fileobj _ _ _); [|done].
  destruct (read_as _ _ _ _) as [sr|exc]; [done|].
  by destruct (exc_isinstance _ _).
Qed.

Lemma read_data_printed cache span args kwargs out :
  truthy (verbose_of kwargs) = false ->
  printed (trace (read_data cache span args kwargs out))
  = (fun url => url +:+ PyStr.nl) <$> opened (trace (read_data cache span args kwargs out)).
Proof.
  intros Hv. revert out; induction cache as [|url rest IH]; intros out; [done|].
  destruct (file_segment url) as [seg|x] eqn:Hs.
  2:{ cbn [read_data]. by rewrite Hs. }
  destruct (segment_and seg span) as [keep|x] eqn:Hk.
  2:{ cbn [read_data]. rewrite Hs. cbn [bind lift]. by rewrite Hk. }
  rewrite (read_data_cons _ _ _ _ _ _ _ _ Hs Hk).
  pose proof (fetch_file_opened url args kwargs) as Ho.
  pose proof (fetch_file_quiet url args kwargs Hv) as Hp.
  destruct (outcome (_fetch_losc_data_file url args kwargs)) as [file|x].
  - cbv zeta. rewrite trace_pair, opened_print, opened_app, Ho.
    change (printed (EvPrint ?a :: ?t)) with (a :: printed t).
    by rewrite printed_app, Hp, IH.
  - rewrite trace_pair, opened_print, Ho.
    change (printed (EvPrint ?a :: ?t)) with (a :: printed t). by rewrite Hp.
Qed.

Lemma verbose_reaches_loop s e (kwargs : gmap string PyVal) cache detector cls args kw :
  channel_args cache detector cls (split_kwargs s e kwargs).2 = Ok (args, kw) ->
  verbose_of (<["cls" := VCls cls]> kw) = verbose_of kwargs.
Proof.
  intros Hch. unfold verbose_of. rewrite lookup_insert_ne by done.
  rewrite (channel_args_keeps _ _ _ _ _ _ _ Hch) by done.
  by rewrite split_kwargs_verbose.
Qed.

(** X12. A call that is not verbose, and has no keyword named [url],
    still writes on the standard output: what it prints is the URL of
    each file it opens, one per line, in the order the files are opened,
    and nothing else. *)
Theorem quiet_call_prints_urls detector start end_ cls kwargs :
  kwargs !! "url" = None ->
  truthy (verbose_of kwargs) = false ->
  printed (trace (fetch_losc_data detector start end_ cls kwargs))
  = (fun url => url +:+ PyStr.nl)
      <$> opened (trace (fetch_losc_data detector start end_ cls kwargs)).
Proof.
  intros _ Hv.
  destruct (fetch_losc_data_shape detector start end_ cls kwargs)
    as [[x Hx]|(s & e & url_kw & cache0 & cache & args & kw
                & Hs & He & Hf & Hg & _ & Hev & Hch & Heq)].
  { by rewrite Hx. }
  rewrite Heq. apply read_data_printed.
  by rewrite (verbose_reaches_loop _ _ _ _ _ _ _ _ Hch).
Qed.

(** What is held after the events of one file. *)
Lemma fetch_file_scope url args kwargs :
  scope_after None (trace (_fetch_losc_data_file url args kwargs)) = Some None
  \/ (exists x,
        _fetch_losc_data_file url args kwargs
        = ([EvOpen url (use_cache kwargs) (truthy (verbose_of kwargs))], Raise x)
        /\ get_readable_fileobj url (use_cache kwargs) (truthy (verbose_of kwargs))
           = Raise x).
Proof.
  rewrite fetch_file_eq. cbv zeta.
  destruct (get_readable_fileobj _ _ _) as [rem|x]; [left|right; by exists x].
  unfold reading_prints.
  destruct (read_as _ rem args _) as [series|exc];
    [|destruct (exc_isinstance exc "Exception")];
    destruct (truthy (verbose_of kwargs)); cbn; by rewrite String.eqb_refl.
Qed.

Lemma read_data_scope cache span args kwargs out :
  scope_after None (trace (read_data cache span args kwargs out)) = Some None
  \/ (exists t url c v x,
        read_data cache span args kwargs out = (t ++ [EvOpen url c v], Raise x)
        /\ scope_after None t = Some None
        /\ get_readable_fileobj url c v = Raise x).
Proof.
  revert out; induction cache as [|url rest IH]; intros out; [by left|].
  destruct (file_segment url) as [seg|x] eqn:Hs.
  2:{ left. cbn [read_data]. by rewrite Hs. }
  destruct (segment_and seg span) as [keep|x] eqn:Hk.
  2:{ left. cbn [read_data]. rewrite Hs. cbn [bind lift]. by rewrite Hk. }
  rewrite (read_data_cons _ _ _ _ _ _ _ _ Hs Hk).
  destruct (fetch_file_scope url args kwargs) as [Hsc|(x & Hx & Hd)].
  - destruct (outcome (_fetch_losc_data_file url args kwargs)) as [file|x].
    + cbv zeta. set (o := Some _).
      destruct (IH o) as [IHs|(t & u & c & v & x & IHe & IHs & IHd)].
      * left. rewrite trace_pair. cbn [scope_after].
        by rewrite scope_after_app, Hsc.
      * right. rewrite IHe, trace_pair, outcome_pair.
        exists (EvPrint (url +:+ PyStr.nl)
                  :: trace (_fetch_losc_data_file url args kwargs) ++ t), u, c, v, x.
        split; [by rewrite <-app_comm_cons, <-app_assoc|]. split; [|done].
        cbn [scope_after]. by rewrite scope_after_app, Hsc.
    + left. by rewrite trace_pair.
  - right. rewrite Hx, outcome_pair, trace_pair.
    by exists [EvPrint (url +:+ PyStr.nl)], url, (use_cache kwargs),
              (truthy (verbose_of kwargs)), x.
Qed.

(** X13. Whatever the request and however the call ends, the files are
    held one at a time: each file that was opened is released before the
    next one is opened, and none is held at the end.  The one exception
    met at the end of the events is a file that could not be opened,
    which ends the call. *)
Theorem one_file_at_a_time detector start end_ cls kwargs :
  scope_after None (trace (fetch_losc_data detector start end_ cls kwargs)) = Some None
  \/ (exists t url c v x,
        fetch_losc_data detector start end_ cls kwargs = (t ++ [EvOpen url c v], Raise x)
        /\ scope_after None t = Some None
        /\ get_readable_fileobj url c v = Raise x).
Proof.
  destruct (fetch_losc_data_shape detector start end_ cls kwargs)
    as [[x Hx]|(s & e & url_kw & cache0 & cache & args & kw
                & Hs & He & Hf & Hg & _ & Hev & Hch & Heq)].
  { left. by rewrite Hx. }
  rewrite Heq. apply read_data_scope.
Qed.

Lemma fetch_file_asks url args kwargs :
  asks_with (use_cache kwargs) (truthy (verbose_of kwargs))
    (trace (_fetch_losc_data_file url args kwargs)).
Proof.
  rewrite fetch_file_eq. cbv zeta. unfold asks_with, reading_prints.
  destruct (get_readable_fileobj _ _ _) as [rem|x]; [|by repeat constructor].
  destruct (read_as _ rem args _) as [series|exc];
    [|destruct (exc_isinstance exc "Exception")];
    destruct (truthy (verbose_of kwargs)); by repeat constructor.
Qed.

Lemma read_data_asks cache span args kwargs out :
  asks_with (use_cache kwargs) (truthy (verbose_of kwargs))
    (trace (read_data cache span args kwargs out)).
Proof.
  revert out; induction cache as [|url rest IH]; intros out; [by constructor|].
  destruct (file_segment url) as [seg|x] eqn:Hs.
  2:{ cbn [read_data]. rewrite Hs. by constructor. }
  destruct (segment_and seg span) as [keep|x] eqn:Hk.
  2:{ cbn [read_data]. rewrite Hs. cbn [bind lift]. rewrite Hk. by constructor. }
  rewrite (read_data_cons _ _ _ _ _ _ _ _ Hs Hk).
  pose proof (fetch_file_asks url args kwargs) as Hf.
  destruct (outcome (_fetch_losc_data_file url args kwargs)) as [file|x].
  - cbv zeta. rewrite trace_pair. constructor; [done|].
    apply Forall_app. split; [done|apply IH].
  - rewrite trace_pair. by constructor.
Qed.

(** X14. Every file of a call is asked for in the same way: with the
    cache flag that the [cache] keyword of the caller gives, or the one
    of the environment when the caller gives none or [None]; and without
    a progress bar, since a call that opens a file is not verbose. *)
Theorem downloads_follow_request detector start end_ cls kwargs url c v :
  EvOpen url c v ∈ trace (fetch_losc_data detector start end_ cls kwargs) ->
  c = use_cache kwargs /\ v = false.
Proof.
  intros Hin.
  destruct (fetch_losc_data_shape detector start end_ cls kwargs)
    as [[x Hx]|(s & e & url_kw & cache0 & cache & args & kw
                & Hs & He & Hf & Hg & Hv & Hev & Hch & Heq)].
  { rewrite Hx in Hin. by apply elem_of_nil in Hin. }
  rewrite Heq in Hin.
  pose proof (read_data_asks cache (mkSegment s e) args (<["cls" := VCls cls]> kw) None)
    as Hall.
  unfold asks_with in Hall. rewrite Forall_forall in Hall.
  destruct (Hall _ Hin) as [-> ->].
  rewrite (verbose_reaches_loop _ _ _ _ _ _ _ _ Hch), Hv. split; [|done].
  unfold use_cache. rewrite lookup_insert_ne by done.
  rewrite (channel_args_keeps _ _ _ _ _ _ _ Hch) by done.
  rewrite split_kwargs_other; [done|by apply (bool_decide_unpack _)|done..].
Qed.

(** X15. What a verbose fetch of one file prints: ["Reading data... "]
    once the file is open, then ["[Done]"] and a newline when the reader
    returns, or a bare newline when the reader fails with an
    [Exception]; nothing after it when the reader is interrupted, and
    nothing at all when the file cannot be opened. *)
Theorem verbose_fetch_prints url args kwargs :
  truthy (verbose_of kwargs) = true ->
  printed (trace (_fetch_losc_data_file url args kwargs))
  = match get_readable_fileobj url (use_cache kwargs) true with
    | Raise _ => []
    | Ok rem =>
        match read_as (cls_of kwargs) rem args (reader_kwargs url kwargs) with
        | Ok _ => ["Reading data... "; "[Done]" +:+ PyStr.nl]
        | Raise exc =>
            if exc_isinstance exc "Exception"
            then ["Reading data... "; PyStr.nl]
            else ["Reading data... "]
        end
    end.
Proof.
  intros Hv. rewrite fetch_file_eq. cbv zeta. unfold reading_prints. rewrite Hv.
  destruct (get_readable_fileobj _ _ _) as [rem|x]; [|done].
  destruct (read_as _ rem args _) as [series|exc]; [done|].
  by destruct (exc_isinstance exc "Exception").
Qed.

End CallMore.

Lemma returned_call_read_every_file_witness :
  closed (trace (fetch_losc_data (Ext := Examples.lenient [Examples.u1; Examples.u2]) "H1"
                   (VInt 1000000004) (VInt 1000000024) TimeSeries ∅))
  = opened (trace (fetch_losc_data (Ext := Examples.lenient [Examples.u1; Examples.u2]) "H1"
                     (VInt 1000000004) (VInt 1000000024) TimeSeries ∅)).
Proof.
  destruct (returned_call_read_every_file
              (Ext := Examples.lenient [Examples.u1; Examples.u2]) "H1"
              (VInt 1000000004) (VInt 1000000024) TimeSeries ∅
              (Some (mkSeries TimeSeries [2; 3; 4; 5; 6]%Q (inject_Z 1000000004)
                       (mkQuantity 4 "s") "strain" "Strain" ∅)))
    as (s & e & url_kw & cache0 & cache & _ & _ & _ & _ & _ & _ & Ho & Hc & _).
  - vm_compute. reflexivity.
  - exact (eq_trans Hc (eq_sym Ho)).
Defined.

Lemma quiet_call_prints_urls_witness :
  printed (trace (fetch_losc_data (Ext := Examples.lenient [Examples.u1; Examples.u2]) "H1"
                    (VInt 1000000004) (VInt 1000000024) TimeSeries ∅))
  = [Examples.u1 +:+ PyStr.nl; Examples.u2 +:+ PyStr.nl].
Proof.
  rewrite (quiet_call_prints_urls (Ext := Examples.lenient [Examples.u1; Examples.u2]) "H1"
             (VInt 1000000004) (VInt 1000000024) TimeSeries ∅); [|reflexivity..].
  vm_compute. reflexivity.
Defined.

Lemma downloads_follow_request_witness :
  true = use_cache (Ext := Examples.lenient [Examples.u1]) {[ "cache" := VBool true ]}
  /\ false = false.
Proof.
  apply (downloads_follow_request (Ext := Examples.lenient [Examples.u1]) "H1"
           (VInt 1000000000) (VInt 1000000016) TimeSeries {[ "cache" := VBool true ]}
           Examples.u1 true false).
  vm_compute. apply list_elem_of_further, list_elem_of_here.
Defined.

Lemma verbose_fetch_prints_witness :
  printed (trace (_fetch_losc_data_file (Ext := Examples.lenient []) Examples.u1 []
                    {[ "verbose" := VBool true ]}))
  = ["Reading data... "; "[Done]" +:+ PyStr.nl].
Proof.
  rewrite (verbose_fetch_prints (Ext := Examples.lenient []) Examples.u1 []
             {[ "verbose" := VBool true ]}); reflexivity.
Defined.

(** ** What the readers return *)

Section ReadersMore.

Context `{Ext : Externals}.

Lemma crop_whole s : series_value (crop s None None) = series_value s.
Proof.
  unfold crop. cbn [series_value]. rewrite Nat.sub_0_r. cbn [drop].
  apply firstn_all.
Qed.

Lemma crop_whole_x0 s : (series_x0 (crop s None None) == series_x0 s)%Q.
Proof.
  unfold crop. cbn [series_x0]. rewrite Qred_correct.
  change (inject_Z (Z.of_nat 0)) with 0%Q. ring.
Qed.

(** X16. What [read_losc_hdf5] returns, when it returns: the dataset at
    the path is there, with the four attributes [Xunits], [Xstart],
    [Xspacing] and [Yunits], none of which has a default, and [Xunits] is
    a unit of time.  The series is a [TimeSeries] whose samples are
    consecutive samples of the dataset, all of them when no bound is
    given, and whose sample interval is in seconds whatever the unit of
    [Xspacing] was. *)
Theorem returned_strain_series (h5f : Container) path start end_ copy_ ts :
  read_losc_hdf5 h5f path start end_ copy_ = Ok ts ->
  exists dataset data xu xunit epoch x0 xs dt yu k,
    h5f !! path = Some dataset /\ ds_value dataset = NumArray data
    /\ ds_attrs dataset !! "Xunits" = Some xu /\ parse_unit xu = Ok xunit
    /\ ds_attrs dataset !! "Xstart" = Some epoch /\ to_gps epoch = Ok x0
    /\ ds_attrs dataset !! "Xspacing" = Some xs /\ quantity_value xs = Ok dt
    /\ ds_attrs dataset !! "Yunits" = Some yu /\ parse_unit yu = Ok (series_unit ts)
    /\ seconds_per xunit = Some k
    /\ series_cls ts = TimeSeries
    /\ q_unit (series_dx ts) = "s" /\ (q_value (series_dx ts) == dt * k)%Q
    /\ (exists i n, series_value ts = take n (drop i data))
    /\ (start = None -> end_ = None ->
        series_value ts = data /\ (series_x0 ts == x0)%Q).
Proof.
  intros Hr.
  unfold read_losc_hdf5, find_dataset, attr, mk_quantity, to_Hertz_inv,
    new_TimeSeries, samples in Hr.
  destruct (h5f !! path) as [dataset|] eqn:Hd; cbn [rbind] in Hr; [|done].
  destruct (ds_attrs dataset !! "Xunits") as [xu|] eqn:Hxu; cbn [rbind] in Hr; [|done].
  destruct (parse_unit xu) as [xunit|] eqn:Hpu; cbn [rbind] in Hr; [|done].
  destruct (ds_attrs dataset !! "Xstart") as [epoch|] eqn:Hx0; cbn [rbind] in Hr; [|done].
  destruct (ds_attrs dataset !! "Xspacing") as [xs|] eqn:Hxs; cbn [rbind] in Hr; [|done].
  destruct (quantity_value xs) as [dt|] eqn:Hq; cbn [rbind] in Hr; [|done].
  destruct (ds_attrs dataset !! "Yunits") as [yu|] eqn:Hyu; cbn [rbind q_unit q_value] in Hr;
    [|done].
  destruct (seconds_per xunit) as [k|] eqn:Hk; cbn [rbind] in Hr; [|done].
  destruct (index _ 1) as [name|]; cbn [rbind] in Hr; [|done].
  destruct (ds_value dataset) as [data|] eqn:Hv; cbn [rbind] in Hr; [|done].
  destruct (parse_unit yu) as [unit|] eqn:Hu; cbn [rbind] in Hr; [|done].
  destruct (to_gps epoch) as [x0|] eqn:Hg; cbn [rbind] in Hr; [|done].
  injection Hr as <-.
  exists dataset, data, xu, xunit, epoch, x0, xs, dt, yu, k.
  repeat (split; [done|]).
  split; [apply Qinv_involutive|]. split.
  - by eexists _, _.
  - intros -> ->. split; [apply crop_whole|apply crop_whole_x0].
Qed.

Lemma map_result_decode raw bits :
  map_result Utf8.decode raw = Ok bits ->
  bits = raw /\ Forall (fun b => Utf8.decode b = Ok b) raw.
Proof.
  revert bits; induction raw as [|b raw IH]; intros bits; cbn [map_result].
  - intros [= <-]. by split.
  - unfold Utf8.decode at 1 3.
    destruct (Utf8.valid _) eqn:Hb; cbn [rbind]; [|done].
    destruct (map_result Utf8.decode raw) as [ys|] eqn:Hys; cbn [rbind]; [|done].
    intros [= <-]. destruct (IH _ eq_refl) as [-> HF].
    split; [done|]. constructor; [|done]. unfold Utf8.decode. by rewrite Hb.
Qed.

Lemma map_result_decode_fails raw b :
  b ∈ raw -> Utf8.valid (map nat_of_ascii (list_ascii_of_string b)) = false ->
  map_result Utf8.decode raw
  = Raise (UnicodeDecodeError "'utf-8' codec can't decode bytes").
Proof.
  intros Hin Hb. induction raw as [|a raw IH]; [by apply elem_of_nil in Hin|].
  cbn [map_result]. unfold Utf8.decode at 1.
  destruct (Utf8.valid (map nat_of_ascii (list_ascii_of_string a))) eqn:Ha; cbn [rbind];
    [|done].
  apply elem_of_cons in Hin as [->|Hin]; [congruence|].
  by rewrite IH.
Qed.

Lemma numbered_lookup (names : list string) (a : nat) z :
  (list_to_map (zip (Z.of_nat <$> seq a (length names)) names) : gmap Z string) !! z
  = if bool_decide (Z.of_nat a <= z) then names !! (Z.to_nat z - a)%nat else None.
Proof.
  revert a; induction names as [|name names IH]; intros a.
  - cbn. by destruct (bool_decide _).
  - cbn [length seq fmap list_fmap zip zip_with list_to_map foldr uncurry fst snd].
    change (list_to_map ((Z.of_nat a, name) :: ?l))
      with (<[Z.of_nat a := name]> (list_to_map l : gmap Z string)).
    destruct (decide (z = Z.of_nat a)) as [->|Hne].
    + rewrite lookup_insert_eq, bool_decide_eq_true_2 by lia.
      replace (Z.to_nat (Z.of_nat a) - a)%nat with 0%nat by lia. done.
    + rewrite lookup_insert_ne by done.
      change (list_fmap nat Z Z.of_nat (seq (S a) (length names)))
        with (Z.of_nat <$> seq (S a) (length names)).
      rewrite IH. repeat case_bool_decide; try lia; [|done].
      replace (Z.to_nat z - a)%nat with (S (Z.to_nat z - S a)) by lia. done.
Qed.

Lemma bits_of_list_lookup names z :
  bits_of_list names !! z
  = if bool_decide (0 <= z) then names !! Z.to_nat z else None.
Proof.
  unfold bits_of_list. rewrite numbered_lookup. change (Z.of_nat 0) with 0.
  by rewrite Nat.sub_0_r.
Qed.

(** X17. What [read_losc_hdf5_state] returns, when it returns: the
    datasets [<path>/DQmask] and [<path>/DQDescriptions] are there, and
    every description is UTF-8.  The series is a dimensionless
    [StateVector] whose bit [i] is named by the description at position
    [i], counted from 0, and no other bit has a name.  Its sample
    interval is one second when the mask has no [Xspacing], and else the
    number of [Xspacing] in the unit of [Xunits], which is not converted
    to seconds. *)
Theorem returned_state_vector (f : Container) path start end_ copy_ sv :
  read_losc_hdf5_state f path start end_ copy_ = Ok sv ->
  exists dataset maskset names,
    f !! (path +:+ "/DQmask") = Some dataset
    /\ f !! (path +:+ "/DQDescriptions") = Some maskset
    /\ ds_value maskset = BytesArray names
    /\ Forall (fun b => Utf8.decode b = Ok b) names
    /\ (forall z, series_bits sv !! z
                  = if bool_decide (0 <= z) then names !! Z.to_nat z else None)
    /\ series_cls sv = StateVector /\ series_unit sv = ""
    /\ match ds_attrs dataset !! "Xspacing" with
       | None => series_dx sv = mkQuantity 1 "s"
       | Some xs =>
           exists xu xunit dt,
             ds_attrs dataset !! "Xunits" = Some xu /\ parse_unit xu = Ok xunit
             /\ quantity_value xs = Ok dt /\ series_dx sv = mkQuantity dt xunit
       end.
Proof.
  intros Hr.
  unfold read_losc_hdf5_state, find_dataset, byte_strings, new_StateVector, samples in Hr.
  destruct (f !! (path +:+ "/DQmask")) as [dataset|] eqn:Hd; cbn [rbind] in Hr; [|done].
  destruct (f !! (path +:+ "/DQDescriptions")) as [maskset|] eqn:Hm; cbn [rbind] in Hr;
    [|done].
  destruct (ds_value maskset) as [|names] eqn:Hn; cbn [rbind] in Hr; [done|].
  destruct (map_result Utf8.decode names) as [bits|] eqn:Hb; cbn [rbind] in Hr; [|done].
  apply map_result_decode in Hb as [-> Hvalid].
  destruct (attr dataset "Xstart") as [epoch|]; cbn [rbind] in Hr; [|done].
  exists dataset, maskset, names. repeat (split; [done|]).
  unfold attr, mk_quantity in Hr.
  destruct (ds_attrs dataset !! "Xspacing") as [xs|] eqn:Hxs; cbn [try_else] in Hr.
  - destruct (ds_attrs dataset !! "Xunits") as [xu|] eqn:Hxu; cbn [rbind] in Hr; [|done].
    destruct (parse_unit xu) as [xunit|] eqn:Hpu; cbn [rbind] in Hr; [|done].
    destruct (quantity_value xs) as [dt|] eqn:Hq; cbn [rbind] in Hr; [|done].
    destruct (ds_value dataset) as [data|]; cbn [rbind] in Hr; [|done].
    destruct (to_gps epoch) as [x0|]; cbn [rbind] in Hr; [|done].
    injection Hr as <-. split; [intros z; apply bits_of_list_lookup|].
    split; [done|]. split; [done|]. by exists xu, xunit, dt.
  - cbn [existsb] in Hr. rewrite KeyError_isinstance in Hr. cbn [orb rbind] in Hr.
    destruct (ds_value dataset) as [data|]; cbn [rbind] in Hr; [|done].
    destruct (to_gps epoch) as [x0|]; cbn [rbind] in Hr; [|done].
    injection Hr as <-. split; [intros z; apply bits_of_list_lookup|]. done.
Qed.

(** X18. The descriptions are read before any attribute of the mask:
    when [<path>/DQmask] is there, [read_losc_hdf5_state] fails with a
    [KeyError] when [<path>/DQDescriptions] is missing, and with a
    [UnicodeDecodeError] when one of the descriptions is not UTF-8,
    whatever the attributes of the mask. *)
Theorem descriptions_must_decode (f : Container) path start end_ copy_ dataset :
  f !! (path +:+ "/DQmask") = Some dataset ->
  (f !! (path +:+ "/DQDescriptions") = None ->
   exists msg, read_losc_hdf5_state f path start end_ copy_ = Raise (KeyError msg))
  /\ (forall maskset names b,
        f !! (path +:+ "/DQDescriptions") = Some maskset ->
        ds_value maskset = BytesArray names ->
        b ∈ names ->
        Utf8.valid (map nat_of_ascii (list_ascii_of_string b)) = false ->
        exists msg,
          read_losc_hdf5_state f path start end_ copy_ = Raise (UnicodeDecodeError msg)).
Proof.
  intros Hd. unfold read_losc_hdf5_state, find_dataset. rewrite Hd. cbn [rbind]. split.
  - intros Hm. rewrite Hm. by eexists.
  - intros maskset names b Hm Hn Hin Hb. rewrite Hm. cbn [rbind].
    unfold byte_strings. rewrite Hn. cbn [rbind].
    rewrite (map_result_decode_fails _ _ Hin Hb). by eexists.
Qed.







End ReadersMore.

Lemma returned_strain_series_witness :
  exists ts,
    read_losc_hdf5 (Ext := Examples.lenient []) Further.strain_ms "strain/Strain"
      None None false = Ok ts
    /\ series_value ts = [1; 2; 3; 4]%Q
    /\ q_unit (series_dx ts) = "s"
    /\ (q_value (series_dx ts) == 1 # 4)%Q.
Proof.
  destruct (read_losc_hdf5 (Ext := Examples.lenient []) Further.strain_ms "strain/Strain"
              None None false) as [ts|x] eqn:Hr; [|vm_compute in Hr; discriminate Hr].
  exists ts. split; [reflexivity|].
  destruct (returned_strain_series (Ext := Examples.lenient []) _ _ _ _ _ _ Hr)
    as (dataset & data & xu & xunit & epoch & x0 & xs & dt & yu & k
        & Hd & Hv & Hxu & Hpu & _ & _ & Hxs & Hq & _ & _ & Hk & _ & Hs & Hdx & _ & Hall).
  destruct (Hall eq_refl eq_refl) as [Hval _].
  vm_compute in Hd. injection Hd as <-.
  vm_compute in Hv. injection Hv as <-.
  vm_compute in Hxu. injection Hxu as <-.
  vm_compute in Hpu. injection Hpu as <-.
  vm_compute in Hxs. injection Hxs as <-.
  vm_compute in Hq. injection Hq as <-.
  vm_compute in Hk. injection Hk as <-.
  split; [exact Hval|]. split; [exact Hs|]. rewrite Hdx. reflexivity.
Defined.

Lemma returned_state_vector_witness :
  exists sv,
    read_losc_hdf5_state (Ext := Examples.lenient []) Further.quality_ms "quality/simple"
      None None false = Ok sv
    /\ series_bits sv !! 1 = Some "NO_BURST_HW_INJ"
    /\ series_bits sv !! 2 = None
    /\ series_unit sv = "".
Proof.
  destruct (read_losc_hdf5_state (Ext := Examples.lenient []) Further.quality_ms
              "quality/simple" None None false) as [sv|x] eqn:Hr;
    [|vm_compute in Hr; discriminate Hr].
  exists sv. split; [reflexivity|].
  destruct (returned_state_vector (Ext := Examples.lenient []) _ _ _ _ _ _ Hr)
    as (dataset & maskset & names & _ & Hm & Hn & _ & Hbits & _ & Hu & _).
  vm_compute in Hm. injection Hm as <-.
  vm_compute in Hn. injection Hn as <-.
  rewrite !Hbits. split; [reflexivity|]. split; [reflexivity|exact Hu].
Defined.

Lemma descriptions_must_decode_witness :
  exists msg,
    read_losc_hdf5_state (Ext := Examples.lenient []) Further.quality_latin1
      "quality/simple" None None false = Raise (UnicodeDecodeError msg).
Proof.
  edestruct (descriptions_must_decode (Ext := Examples.lenient []) Further.quality_latin1
               "quality/simple" None None false) as [_ H].
  - reflexivity.
  - eapply (H _ _ Further.latin1).
    + reflexivity.
    + reflexivity.
    + apply list_elem_of_further, list_elem_of_here.
    + reflexivity.
Defined.

